(** * Investment Simulator (app.py): the session ledger and its page handlers

    A shallow embedding of [src/app.py], a Streamlit script that keeps a cash
    balance, a dictionary of holdings and a watchlist in the session state and
    mutates them from page handlers.

    - Python [float] is IEEE-754 binary64: Rocq's primitive [float], whose
      operations are the processor's, specified by [FloatAxioms] against
      [SpecFloat].
    - Python [int] is [Z].
    - Python [str] is [string], holding the UTF-8 encoding of the text;
      [str.upper] and [str.strip] work on its characters, with the upper-case
      mapping and the white space of Unicode.
    - A Python [dict] keeps insertion order, and the dashboard sums in that
      order, so a dictionary is an association list.
    - The yfinance client and the Streamlit widgets are collaborators: what they
      answer in one run of the script is an input of the model. *)

From Stdlib Require Import ZArith List String Ascii Bool Lia Floats Permutation.
Import ListNotations.

Open Scope string_scope.
Open Scope Z_scope.

(** A decimal literal denotes the nearest binary64, as it does in Python. *)
Set Warnings "-inexact-float".

(* ================================================================= *)
(** ** Python run-time: exceptions *)

Inductive exn : Type :=
| NameError (name : string)
| KeyError (key : string)
| OverflowError
| ZeroDivisionError
| ValueError
| StreamlitAPIException.

(** The value of an expression, or the exception it raises. *)
Inductive py (A : Type) : Type :=
| Ret (a : A)
| Throw (e : exn).

Arguments Ret {A} a.
Arguments Throw {A} e.

Definition py_bind {A B : Type} (m : py A) (k : A -> py B) : py B :=
  match m with
  | Ret a => k a
  | Throw e => Throw e
  end.

Notation "x <- m ;; k" := (py_bind m (fun x => k))
  (at level 61, m at next level, right associativity).

(* ================================================================= *)
(** ** Python run-time: floats *)

Module PyFloat.

(** [float(n)] for an [int] (PyLong_AsDouble): the nearest binary64, ties to
    even; [OverflowError] when that is not finite. *)
Definition of_int (n : Z) : py float :=
  let f := SF2Prim (binary_normalize prec emax n 0 false) in
  if is_infinity f then Throw OverflowError else Ret f.

(** [x * n] with [x] a float and [n] an int: the int is converted first. *)
Definition mul_int (x : float) (n : Z) : py float :=
  y <- of_int n ;; Ret (x * y)%float.

(** [x / n] with [x] a float and [n] an int. *)
Definition truediv_int (x : float) (n : Z) : py float :=
  y <- of_int n ;;
  if (y =? 0)%float then Throw ZeroDivisionError else Ret (x / y)%float.

(** Truth value of a float: [x != 0.0] (a NaN is true). *)
Definition truthy (x : float) : bool := negb (x =? 0)%float.

(** [x == x]: false for a NaN only. *)
Definition is_number (x : float) : bool := (x =? x)%float.

(** Nearest integer to [a / b] for [b > 0], ties to the even one. *)
Definition div_half_even (a b : Z) : Z :=
  let q := a / b in
  match 2 * (a mod b) ?= b with
  | Lt => q
  | Gt => q + 1
  | Eq => if Z.even q then q else q + 1
  end.

(** The number of hundredths nearest to [m * 2^e], ties to even: the digits
    that dtoa (mode 3, two places) produces for a finite double. *)
Definition hundredths (m : positive) (e : Z) : Z :=
  match e with
  | Z0 => Zpos m * 100
  | Zpos _ => Zpos m * 100 * 2 ^ e
  | Zneg _ => div_half_even (Zpos m * 100) (2 ^ (- e))
  end.

(** The binary64 nearest to [n / 100] with sign [s]: what strtod returns for
    the decimal string. *)
Definition of_hundredths (s : bool) (n : Z) : spec_float :=
  match n with
  | Zpos _ =>
      let '(q, e, l) := SFdiv_core_binary prec emax n 0 100 0 in
      binary_round_aux prec emax s q e l
  | _ => S754_zero s
  end.

(** [round(x, 2)]: NaN, infinities and zeros round to themselves; a finite
    [x] goes to the correctly rounded two-place decimal and back. *)
Definition round2 (x : float) : float :=
  match Prim2SF x with
  | S754_finite s m e => SF2Prim (of_hundredths s (hundredths m e))
  | _ => x
  end.

End PyFloat.

(* ================================================================= *)
(** ** Python run-time: strings *)

Module PyStr.

(** A [str] is a sequence of Unicode characters, held here as its UTF-8
    encoding: a character is one to four bytes, and its first byte tells how
    many. *)
Definition width (a : ascii) : nat :=
  let n := N_of_ascii a in
  if (n <? 192)%N then 1
  else if (n <? 224)%N then 2
  else if (n <? 240)%N then 3
  else if (n <? 248)%N then 4
  else 1.

(** The characters of a string, each as its bytes; a last character that is
    cut short is taken as it stands. *)
Fixpoint chars (s : string) : list string :=
  match s with
  | EmptyString => []
  | String a r =>
      match width a, r with
      | 1%nat, _ => String a "" :: chars r
      | 2%nat, String b r' => String a (String b "") :: chars r'
      | 3%nat, String b (String c r') =>
          String a (String b (String c "")) :: chars r'
      | 4%nat, String b (String c (String d r')) =>
          String a (String b (String c (String d ""))) :: chars r'
      | _, _ => [s]
      end
  end.

Definition join (l : list string) : string := fold_right append "" l.

(** The encoding of a code point. *)
Definition utf8 (n : N) : string :=
  let byte k := ascii_of_N k in
  (if n <? 128 then String (byte n) ""
   else if n <? 2048 then
     String (byte (192 + n / 64)) (String (byte (128 + n mod 64)) "")
   else if n <? 65536 then
     String (byte (224 + n / 4096))
       (String (byte (128 + (n / 64) mod 64))
          (String (byte (128 + n mod 64)) ""))
   else
     String (byte (240 + n / 262144))
       (String (byte (128 + (n / 4096) mod 64))
          (String (byte (128 + (n / 64) mod 64))
             (String (byte (128 + n mod 64)) ""))))%N.

(** The code point of a character; none for bytes that are not the encoding
    of one. *)
Definition code_point (c : string) : option N :=
  let v := N_of_ascii in
  let n :=
    (match c with
     | String a "" => v a
     | String a (String b "") => (v a - 192) * 64 + (v b - 128)
     | String a (String b (String c "")) =>
         (v a - 224) * 4096 + (v b - 128) * 64 + (v c - 128)
     | String a (String b (String c (String d ""))) =>
         (v a - 240) * 262144 + (v b - 128) * 4096 + (v c - 128) * 64
         + (v d - 128)
     | _ => 0
     end)%N in
  if String.eqb (utf8 n) c then Some n else None.

(** The characters beyond ASCII that [str.upper] changes, with what it puts
    in their place (Unicode 14.0, the character database of CPython 3.11). *)
Definition upper_table : list (N * list N) :=
  [
    (181, [924]); (223, [83; 83]); (224, [192]); (225, [193]); (226, [194]);
    (227, [195]); (228, [196]); (229, [197]); (230, [198]); (231, [199]);
    (232, [200]); (233, [201]); (234, [202]); (235, [203]); (236, [204]);
    (237, [205]); (238, [206]); (239, [207]); (240, [208]); (241, [209]);
    (242, [210]); (243, [211]); (244, [212]); (245, [213]); (246, [214]);
    (248, [216]); (249, [217]); (250, [218]); (251, [219]); (252, [220]);
    (253, [221]); (254, [222]); (255, [376]); (257, [256]); (259, [258]);
    (261, [260]); (263, [262]); (265, [264]); (267, [266]); (269, [268]);
    (271, [270]); (273, [272]); (275, [274]); (277, [276]); (279, [278]);
    (281, [280]); (283, [282]); (285, [284]); (287, [286]); (289, [288]);
    (291, [290]); (293, [292]); (295, [294]); (297, [296]); (299, [298]);
    (301, [300]); (303, [302]); (305, [73]); (307, [306]); (309, [308]);
    (311, [310]); (314, [313]); (316, [315]); (318, [317]); (320, [319]);
    (322, [321]); (324, [323]); (326, [325]); (328, [327]); (329, [700; 78]);
    (331, [330]); (333, [332]); (335, [334]); (337, [336]); (339, [338]);
    (341, [340]); (343, [342]); (345, [344]); (347, [346]); (349, [348]);
    (351, [350]); (353, [352]); (355, [354]); (357, [356]); (359, [358]);
    (361, [360]); (363, [362]); (365, [364]); (367, [366]); (369, [368]);
    (371, [370]); (373, [372]); (375, [374]); (378, [377]); (380, [379]);
    (382, [381]); (383, [83]); (384, [579]); (387, [386]); (389, [388]);
    (392, [391]); (396, [395]); (402, [401]); (405, [502]); (409, [408]);
    (410, [573]); (414, [544]); (417, [416]); (419, [418]); (421, [420]);
    (424, [423]); (429, [428]); (432, [431]); (436, [435]); (438, [437]);
    (441, [440]); (445, [444]); (447, [503]); (453, [452]); (454, [452]);
    (456, [455]); (457, [455]); (459, [458]); (460, [458]); (462, [461]);
    (464, [463]); (466, [465]); (468, [467]); (470, [469]); (472, [471]);
    (474, [473]); (476, [475]); (477, [398]); (479, [478]); (481, [480]);
    (483, [482]); (485, [484]); (487, [486]); (489, [488]); (491, [490]);
    (493, [492]); (495, [494]); (496, [74; 780]); (498, [497]); (499, [497]);
    (501, [500]); (505, [504]); (507, [506]); (509, [508]); (511, [510]);
    (513, [512]); (515, [514]); (517, [516]); (519, [518]); (521, [520]);
    (523, [522]); (525, [524]); (527, [526]); (529, [528]); (531, [530]);
    (533, [532]); (535, [534]); (537, [536]); (539, [538]); (541, [540]);
    (543, [542]); (547, [546]); (549, [548]); (551, [550]); (553, [552]);
    (555, [554]); (557, [556]); (559, [558]); (561, [560]); (563, [562]);
    (572, [571]); (575, [11390]); (576, [11391]); (578, [577]); (583, [582]);
    (585, [584]); (587, [586]); (589, [588]); (591, [590]); (592, [11375]);
    (593, [11373]); (594, [11376]); (595, [385]); (596, [390]); (598, [393]);
    (599, [394]); (601, [399]); (603, [400]); (604, [42923]); (608, [403]);
    (609, [42924]); (611, [404]); (613, [42893]); (614, [42922]);
    (616, [407]); (617, [406]); (618, [42926]); (619, [11362]);
    (620, [42925]); (623, [412]); (625, [11374]); (626, [413]); (629, [415]);
    (637, [11364]); (640, [422]); (642, [42949]); (643, [425]);
    (647, [42929]); (648, [430]); (649, [580]); (650, [433]); (651, [434]);
    (652, [581]); (658, [439]); (669, [42930]); (670, [42928]); (837, [921]);
    (881, [880]); (883, [882]); (887, [886]); (891, [1021]); (892, [1022]);
    (893, [1023]); (912, [921; 776; 769]); (940, [902]); (941, [904]);
    (942, [905]); (943, [906]); (944, [933; 776; 769]); (945, [913]);
    (946, [914]); (947, [915]); (948, [916]); (949, [917]); (950, [918]);
    (951, [919]); (952, [920]); (953, [921]); (954, [922]); (955, [923]);
    (956, [924]); (957, [925]); (958, [926]); (959, [927]); (960, [928]);
    (961, [929]); (962, [931]); (963, [931]); (964, [932]); (965, [933]);
    (966, [934]); (967, [935]); (968, [936]); (969, [937]); (970, [938]);
    (971, [939]); (972, [908]); (973, [910]); (974, [911]); (976, [914]);
    (977, [920]); (981, [934]); (982, [928]); (983, [975]); (985, [984]);
    (987, [986]); (989, [988]); (991, [990]); (993, [992]); (995, [994]);
    (997, [996]); (999, [998]); (1001, [1000]); (1003, [1002]);
    (1005, [1004]); (1007, [1006]); (1008, [922]); (1009, [929]);
    (1010, [1017]); (1011, [895]); (1013, [917]); (1016, [1015]);
    (1019, [1018]); (1072, [1040]); (1073, [1041]); (1074, [1042]);
    (1075, [1043]); (1076, [1044]); (1077, [1045]); (1078, [1046]);
    (1079, [1047]); (1080, [1048]); (1081, [1049]); (1082, [1050]);
    (1083, [1051]); (1084, [1052]); (1085, [1053]); (1086, [1054]);
    (1087, [1055]); (1088, [1056]); (1089, [1057]); (1090, [1058]);
    (1091, [1059]); (1092, [1060]); (1093, [1061]); (1094, [1062]);
    (1095, [1063]); (1096, [1064]); (1097, [1065]); (1098, [1066]);
    (1099, [1067]); (1100, [1068]); (1101, [1069]); (1102, [1070]);
    (1103, [1071]); (1104, [1024]); (1105, [1025]); (1106, [1026]);
    (1107, [1027]); (1108, [1028]); (1109, [1029]); (1110, [1030]);
    (1111, [1031]); (1112, [1032]); (1113, [1033]); (1114, [1034]);
    (1115, [1035]); (1116, [1036]); (1117, [1037]); (1118, [1038]);
    (1119, [1039]); (1121, [1120]); (1123, [1122]); (1125, [1124]);
    (1127, [1126]); (1129, [1128]); (1131, [1130]); (1133, [1132]);
    (1135, [1134]); (1137, [1136]); (1139, [1138]); (1141, [1140]);
    (1143, [1142]); (1145, [1144]); (1147, [1146]); (1149, [1148]);
    (1151, [1150]); (1153, [1152]); (1163, [1162]); (1165, [1164]);
    (1167, [1166]); (1169, [1168]); (1171, [1170]); (1173, [1172]);
    (1175, [1174]); (1177, [1176]); (1179, [1178]); (1181, [1180]);
    (1183, [1182]); (1185, [1184]); (1187, [1186]); (1189, [1188]);
    (1191, [1190]); (1193, [1192]); (1195, [1194]); (1197, [1196]);
    (1199, [1198]); (1201, [1200]); (1203, [1202]); (1205, [1204]);
    (1207, [1206]); (1209, [1208]); (1211, [1210]); (1213, [1212]);
    (1215, [1214]); (1218, [1217]); (1220, [1219]); (1222, [1221]);
    (1224, [1223]); (1226, [1225]); (1228, [1227]); (1230, [1229]);
    (1231, [1216]); (1233, [1232]); (1235, [1234]); (1237, [1236]);
    (1239, [1238]); (1241, [1240]); (1243, [1242]); (1245, [1244]);
    (1247, [1246]); (1249, [1248]); (1251, [1250]); (1253, [1252]);
    (1255, [1254]); (1257, [1256]); (1259, [1258]); (1261, [1260]);
    (1263, [1262]); (1265, [1264]); (1267, [1266]); (1269, [1268]);
    (1271, [1270]); (1273, [1272]); (1275, [1274]); (1277, [1276]);
    (1279, [1278]); (1281, [1280]); (1283, [1282]); (1285, [1284]);
    (1287, [1286]); (1289, [1288]); (1291, [1290]); (1293, [1292]);
    (1295, [1294]); (1297, [1296]); (1299, [1298]); (1301, [1300]);
    (1303, [1302]); (1305, [1304]); (1307, [1306]); (1309, [1308]);
    (1311, [1310]); (1313, [1312]); (1315, [1314]); (1317, [1316]);
    (1319, [1318]); (1321, [1320]); (1323, [1322]); (1325, [1324]);
    (1327, [1326]); (1377, [1329]); (1378, [1330]); (1379, [1331]);
    (1380, [1332]); (1381, [1333]); (1382, [1334]); (1383, [1335]);
    (1384, [1336]); (1385, [1337]); (1386, [1338]); (1387, [1339]);
    (1388, [1340]); (1389, [1341]); (1390, [1342]); (1391, [1343]);
    (1392, [1344]); (1393, [1345]); (1394, [1346]); (1395, [1347]);
    (1396, [1348]); (1397, [1349]); (1398, [1350]); (1399, [1351]);
    (1400, [1352]); (1401, [1353]); (1402, [1354]); (1403, [1355]);
    (1404, [1356]); (1405, [1357]); (1406, [1358]); (1407, [1359]);
    (1408, [1360]); (1409, [1361]); (1410, [1362]); (1411, [1363]);
    (1412, [1364]); (1413, [1365]); (1414, [1366]); (1415, [1333; 1362]);
    (4304, [7312]); (4305, [7313]); (4306, [7314]); (4307, [7315]);
    (4308, [7316]); (4309, [7317]); (4310, [7318]); (4311, [7319]);
    (4312, [7320]); (4313, [7321]); (4314, [7322]); (4315, [7323]);
    (4316, [7324]); (4317, [7325]); (4318, [7326]); (4319, [7327]);
    (4320, [7328]); (4321, [7329]); (4322, [7330]); (4323, [7331]);
    (4324, [7332]); (4325, [7333]); (4326, [7334]); (4327, [7335]);
    (4328, [7336]); (4329, [7337]); (4330, [7338]); (4331, [7339]);
    (4332, [7340]); (4333, [7341]); (4334, [7342]); (4335, [7343]);
    (4336, [7344]); (4337, [7345]); (4338, [7346]); (4339, [7347]);
    (4340, [7348]); (4341, [7349]); (4342, [7350]); (4343, [7351]);
    (4344, [7352]); (4345, [7353]); (4346, [7354]); (4349, [7357]);
    (4350, [7358]); (4351, [7359]); (5112, [5104]); (5113, [5105]);
    (5114, [5106]); (5115, [5107]); (5116, [5108]); (5117, [5109]);
    (7296, [1042]); (7297, [1044]); (7298, [1054]); (7299, [1057]);
    (7300, [1058]); (7301, [1058]); (7302, [1066]); (7303, [1122]);
    (7304, [42570]); (7545, [42877]); (7549, [11363]); (7566, [42950]);
    (7681, [7680]); (7683, [7682]); (7685, [7684]); (7687, [7686]);
    (7689, [7688]); (7691, [7690]); (7693, [7692]); (7695, [7694]);
    (7697, [7696]); (7699, [7698]); (7701, [7700]); (7703, [7702]);
    (7705, [7704]); (7707, [7706]); (7709, [7708]); (7711, [7710]);
    (7713, [7712]); (7715, [7714]); (7717, [7716]); (7719, [7718]);
    (7721, [7720]); (7723, [7722]); (7725, [7724]); (7727, [7726]);
    (7729, [7728]); (7731, [7730]); (7733, [7732]); (7735, [7734]);
    (7737, [7736]); (7739, [7738]); (7741, [7740]); (7743, [7742]);
    (7745, [7744]); (7747, [7746]); (7749, [7748]); (7751, [7750]);
    (7753, [7752]); (7755, [7754]); (7757, [7756]); (7759, [7758]);
    (7761, [7760]); (7763, [7762]); (7765, [7764]); (7767, [7766]);
    (7769, [7768]); (7771, [7770]); (7773, [7772]); (7775, [7774]);
    (7777, [7776]); (7779, [7778]); (7781, [7780]); (7783, [7782]);
    (7785, [7784]); (7787, [7786]); (7789, [7788]); (7791, [7790]);
    (7793, [7792]); (7795, [7794]); (7797, [7796]); (7799, [7798]);
    (7801, [7800]); (7803, [7802]); (7805, [7804]); (7807, [7806]);
    (7809, [7808]); (7811, [7810]); (7813, [7812]); (7815, [7814]);
    (7817, [7816]); (7819, [7818]); (7821, [7820]); (7823, [7822]);
    (7825, [7824]); (7827, [7826]); (7829, [7828]); (7830, [72; 817]);
    (7831, [84; 776]); (7832, [87; 778]); (7833, [89; 778]);
    (7834, [65; 702]); (7835, [7776]); (7841, [7840]); (7843, [7842]);
    (7845, [7844]); (7847, [7846]); (7849, [7848]); (7851, [7850]);
    (7853, [7852]); (7855, [7854]); (7857, [7856]); (7859, [7858]);
    (7861, [7860]); (7863, [7862]); (7865, [7864]); (7867, [7866]);
    (7869, [7868]); (7871, [7870]); (7873, [7872]); (7875, [7874]);
    (7877, [7876]); (7879, [7878]); (7881, [7880]); (7883, [7882]);
    (7885, [7884]); (7887, [7886]); (7889, [7888]); (7891, [7890]);
    (7893, [7892]); (7895, [7894]); (7897, [7896]); (7899, [7898]);
    (7901, [7900]); (7903, [7902]); (7905, [7904]); (7907, [7906]);
    (7909, [7908]); (7911, [7910]); (7913, [7912]); (7915, [7914]);
    (7917, [7916]); (7919, [7918]); (7921, [7920]); (7923, [7922]);
    (7925, [7924]); (7927, [7926]); (7929, [7928]); (7931, [7930]);
    (7933, [7932]); (7935, [7934]); (7936, [7944]); (7937, [7945]);
    (7938, [7946]); (7939, [7947]); (7940, [7948]); (7941, [7949]);
    (7942, [7950]); (7943, [7951]); (7952, [7960]); (7953, [7961]);
    (7954, [7962]); (7955, [7963]); (7956, [7964]); (7957, [7965]);
    (7968, [7976]); (7969, [7977]); (7970, [7978]); (7971, [7979]);
    (7972, [7980]); (7973, [7981]); (7974, [7982]); (7975, [7983]);
    (7984, [7992]); (7985, [7993]); (7986, [7994]); (7987, [7995]);
    (7988, [7996]); (7989, [7997]); (7990, [7998]); (7991, [7999]);
    (8000, [8008]); (8001, [8009]); (8002, [8010]); (8003, [8011]);
    (8004, [8012]); (8005, [8013]); (8016, [933; 787]); (8017, [8025]);
    (8018, [933; 787; 768]); (8019, [8027]); (8020, [933; 787; 769]);
    (8021, [8029]); (8022, [933; 787; 834]); (8023, [8031]); (8032, [8040]);
    (8033, [8041]); (8034, [8042]); (8035, [8043]); (8036, [8044]);
    (8037, [8045]); (8038, [8046]); (8039, [8047]); (8048, [8122]);
    (8049, [8123]); (8050, [8136]); (8051, [8137]); (8052, [8138]);
    (8053, [8139]); (8054, [8154]); (8055, [8155]); (8056, [8184]);
    (8057, [8185]); (8058, [8170]); (8059, [8171]); (8060, [8186]);
    (8061, [8187]); (8064, [7944; 921]); (8065, [7945; 921]);
    (8066, [7946; 921]); (8067, [7947; 921]); (8068, [7948; 921]);
    (8069, [7949; 921]); (8070, [7950; 921]); (8071, [7951; 921]);
    (8072, [7944; 921]); (8073, [7945; 921]); (8074, [7946; 921]);
    (8075, [7947; 921]); (8076, [7948; 921]); (8077, [7949; 921]);
    (8078, [7950; 921]); (8079, [7951; 921]); (8080, [7976; 921]);
    (8081, [7977; 921]); (8082, [7978; 921]); (8083, [7979; 921]);
    (8084, [7980; 921]); (8085, [7981; 921]); (8086, [7982; 921]);
    (8087, [7983; 921]); (8088, [7976; 921]); (8089, [7977; 921]);
    (8090, [7978; 921]); (8091, [7979; 921]); (8092, [7980; 921]);
    (8093, [7981; 921]); (8094, [7982; 921]); (8095, [7983; 921]);
    (8096, [8040; 921]); (8097, [8041; 921]); (8098, [8042; 921]);
    (8099, [8043; 921]); (8100, [8044; 921]); (8101, [8045; 921]);
    (8102, [8046; 921]); (8103, [8047; 921]); (8104, [8040; 921]);
    (8105, [8041; 921]); (8106, [8042; 921]); (8107, [8043; 921]);
    (8108, [8044; 921]); (8109, [8045; 921]); (8110, [8046; 921]);
    (8111, [8047; 921]); (8112, [8120]); (8113, [8121]); (8114, [8122; 921]);
    (8115, [913; 921]); (8116, [902; 921]); (8118, [913; 834]);
    (8119, [913; 834; 921]); (8124, [913; 921]); (8126, [921]);
    (8130, [8138; 921]); (8131, [919; 921]); (8132, [905; 921]);
    (8134, [919; 834]); (8135, [919; 834; 921]); (8140, [919; 921]);
    (8144, [8152]); (8145, [8153]); (8146, [921; 776; 768]);
    (8147, [921; 776; 769]); (8150, [921; 834]); (8151, [921; 776; 834]);
    (8160, [8168]); (8161, [8169]); (8162, [933; 776; 768]);
    (8163, [933; 776; 769]); (8164, [929; 787]); (8165, [8172]);
    (8166, [933; 834]); (8167, [933; 776; 834]); (8178, [8186; 921]);
    (8179, [937; 921]); (8180, [911; 921]); (8182, [937; 834]);
    (8183, [937; 834; 921]); (8188, [937; 921]); (8526, [8498]);
    (8560, [8544]); (8561, [8545]); (8562, [8546]); (8563, [8547]);
    (8564, [8548]); (8565, [8549]); (8566, [8550]); (8567, [8551]);
    (8568, [8552]); (8569, [8553]); (8570, [8554]); (8571, [8555]);
    (8572, [8556]); (8573, [8557]); (8574, [8558]); (8575, [8559]);
    (8580, [8579]); (9424, [9398]); (9425, [9399]); (9426, [9400]);
    (9427, [9401]); (9428, [9402]); (9429, [9403]); (9430, [9404]);
    (9431, [9405]); (9432, [9406]); (9433, [9407]); (9434, [9408]);
    (9435, [9409]); (9436, [9410]); (9437, [9411]); (9438, [9412]);
    (9439, [9413]); (9440, [9414]); (9441, [9415]); (9442, [9416]);
    (9443, [9417]); (9444, [9418]); (9445, [9419]); (9446, [9420]);
    (9447, [9421]); (9448, [9422]); (9449, [9423]); (11312, [11264]);
    (11313, [11265]); (11314, [11266]); (11315, [11267]); (11316, [11268]);
    (11317, [11269]); (11318, [11270]); (11319, [11271]); (11320, [11272]);
    (11321, [11273]); (11322, [11274]); (11323, [11275]); (11324, [11276]);
    (11325, [11277]); (11326, [11278]); (11327, [11279]); (11328, [11280]);
    (11329, [11281]); (11330, [11282]); (11331, [11283]); (11332, [11284]);
    (11333, [11285]); (11334, [11286]); (11335, [11287]); (11336, [11288]);
    (11337, [11289]); (11338, [11290]); (11339, [11291]); (11340, [11292]);
    (11341, [11293]); (11342, [11294]); (11343, [11295]); (11344, [11296]);
    (11345, [11297]); (11346, [11298]); (11347, [11299]); (11348, [11300]);
    (11349, [11301]); (11350, [11302]); (11351, [11303]); (11352, [11304]);
    (11353, [11305]); (11354, [11306]); (11355, [11307]); (11356, [11308]);
    (11357, [11309]); (11358, [11310]); (11359, [11311]); (11361, [11360]);
    (11365, [570]); (11366, [574]); (11368, [11367]); (11370, [11369]);
    (11372, [11371]); (11379, [11378]); (11382, [11381]); (11393, [11392]);
    (11395, [11394]); (11397, [11396]); (11399, [11398]); (11401, [11400]);
    (11403, [11402]); (11405, [11404]); (11407, [11406]); (11409, [11408]);
    (11411, [11410]); (11413, [11412]); (11415, [11414]); (11417, [11416]);
    (11419, [11418]); (11421, [11420]); (11423, [11422]); (11425, [11424]);
    (11427, [11426]); (11429, [11428]); (11431, [11430]); (11433, [11432]);
    (11435, [11434]); (11437, [11436]); (11439, [11438]); (11441, [11440]);
    (11443, [11442]); (11445, [11444]); (11447, [11446]); (11449, [11448]);
    (11451, [11450]); (11453, [11452]); (11455, [11454]); (11457, [11456]);
    (11459, [11458]); (11461, [11460]); (11463, [11462]); (11465, [11464]);
    (11467, [11466]); (11469, [11468]); (11471, [11470]); (11473, [11472]);
    (11475, [11474]); (11477, [11476]); (11479, [11478]); (11481, [11480]);
    (11483, [11482]); (11485, [11484]); (11487, [11486]); (11489, [11488]);
    (11491, [11490]); (11500, [11499]); (11502, [11501]); (11507, [11506]);
    (11520, [4256]); (11521, [4257]); (11522, [4258]); (11523, [4259]);
    (11524, [4260]); (11525, [4261]); (11526, [4262]); (11527, [4263]);
    (11528, [4264]); (11529, [4265]); (11530, [4266]); (11531, [4267]);
    (11532, [4268]); (11533, [4269]); (11534, [4270]); (11535, [4271]);
    (11536, [4272]); (11537, [4273]); (11538, [4274]); (11539, [4275]);
    (11540, [4276]); (11541, [4277]); (11542, [4278]); (11543, [4279]);
    (11544, [4280]); (11545, [4281]); (11546, [4282]); (11547, [4283]);
    (11548, [4284]); (11549, [4285]); (11550, [4286]); (11551, [4287]);
    (11552, [4288]); (11553, [4289]); (11554, [4290]); (11555, [4291]);
    (11556, [4292]); (11557, [4293]); (11559, [4295]); (11565, [4301]);
    (42561, [42560]); (42563, [42562]); (42565, [42564]); (42567, [42566]);
    (42569, [42568]); (42571, [42570]); (42573, [42572]); (42575, [42574]);
    (42577, [42576]); (42579, [42578]); (42581, [42580]); (42583, [42582]);
    (42585, [42584]); (42587, [42586]); (42589, [42588]); (42591, [42590]);
    (42593, [42592]); (42595, [42594]); (42597, [42596]); (42599, [42598]);
    (42601, [42600]); (42603, [42602]); (42605, [42604]); (42625, [42624]);
    (42627, [42626]); (42629, [42628]); (42631, [42630]); (42633, [42632]);
    (42635, [42634]); (42637, [42636]); (42639, [42638]); (42641, [42640]);
    (42643, [42642]); (42645, [42644]); (42647, [42646]); (42649, [42648]);
    (42651, [42650]); (42787, [42786]); (42789, [42788]); (42791, [42790]);
    (42793, [42792]); (42795, [42794]); (42797, [42796]); (42799, [42798]);
    (42803, [42802]); (42805, [42804]); (42807, [42806]); (42809, [42808]);
    (42811, [42810]); (42813, [42812]); (42815, [42814]); (42817, [42816]);
    (42819, [42818]); (42821, [42820]); (42823, [42822]); (42825, [42824]);
    (42827, [42826]); (42829, [42828]); (42831, [42830]); (42833, [42832]);
    (42835, [42834]); (42837, [42836]); (42839, [42838]); (42841, [42840]);
    (42843, [42842]); (42845, [42844]); (42847, [42846]); (42849, [42848]);
    (42851, [42850]); (42853, [42852]); (42855, [42854]); (42857, [42856]);
    (42859, [42858]); (42861, [42860]); (42863, [42862]); (42874, [42873]);
    (42876, [42875]); (42879, [42878]); (42881, [42880]); (42883, [42882]);
    (42885, [42884]); (42887, [42886]); (42892, [42891]); (42897, [42896]);
    (42899, [42898]); (42900, [42948]); (42903, [42902]); (42905, [42904]);
    (42907, [42906]); (42909, [42908]); (42911, [42910]); (42913, [42912]);
    (42915, [42914]); (42917, [42916]); (42919, [42918]); (42921, [42920]);
    (42933, [42932]); (42935, [42934]); (42937, [42936]); (42939, [42938]);
    (42941, [42940]); (42943, [42942]); (42945, [42944]); (42947, [42946]);
    (42952, [42951]); (42954, [42953]); (42961, [42960]); (42967, [42966]);
    (42969, [42968]); (42998, [42997]); (43859, [42931]); (43888, [5024]);
    (43889, [5025]); (43890, [5026]); (43891, [5027]); (43892, [5028]);
    (43893, [5029]); (43894, [5030]); (43895, [5031]); (43896, [5032]);
    (43897, [5033]); (43898, [5034]); (43899, [5035]); (43900, [5036]);
    (43901, [5037]); (43902, [5038]); (43903, [5039]); (43904, [5040]);
    (43905, [5041]); (43906, [5042]); (43907, [5043]); (43908, [5044]);
    (43909, [5045]); (43910, [5046]); (43911, [5047]); (43912, [5048]);
    (43913, [5049]); (43914, [5050]); (43915, [5051]); (43916, [5052]);
    (43917, [5053]); (43918, [5054]); (43919, [5055]); (43920, [5056]);
    (43921, [5057]); (43922, [5058]); (43923, [5059]); (43924, [5060]);
    (43925, [5061]); (43926, [5062]); (43927, [5063]); (43928, [5064]);
    (43929, [5065]); (43930, [5066]); (43931, [5067]); (43932, [5068]);
    (43933, [5069]); (43934, [5070]); (43935, [5071]); (43936, [5072]);
    (43937, [5073]); (43938, [5074]); (43939, [5075]); (43940, [5076]);
    (43941, [5077]); (43942, [5078]); (43943, [5079]); (43944, [5080]);
    (43945, [5081]); (43946, [5082]); (43947, [5083]); (43948, [5084]);
    (43949, [5085]); (43950, [5086]); (43951, [5087]); (43952, [5088]);
    (43953, [5089]); (43954, [5090]); (43955, [5091]); (43956, [5092]);
    (43957, [5093]); (43958, [5094]); (43959, [5095]); (43960, [5096]);
    (43961, [5097]); (43962, [5098]); (43963, [5099]); (43964, [5100]);
    (43965, [5101]); (43966, [5102]); (43967, [5103]); (64256, [70; 70]);
    (64257, [70; 73]); (64258, [70; 76]); (64259, [70; 70; 73]);
    (64260, [70; 70; 76]); (64261, [83; 84]); (64262, [83; 84]);
    (64275, [1348; 1350]); (64276, [1348; 1333]); (64277, [1348; 1339]);
    (64278, [1358; 1350]); (64279, [1348; 1341]); (65345, [65313]);
    (65346, [65314]); (65347, [65315]); (65348, [65316]); (65349, [65317]);
    (65350, [65318]); (65351, [65319]); (65352, [65320]); (65353, [65321]);
    (65354, [65322]); (65355, [65323]); (65356, [65324]); (65357, [65325]);
    (65358, [65326]); (65359, [65327]); (65360, [65328]); (65361, [65329]);
    (65362, [65330]); (65363, [65331]); (65364, [65332]); (65365, [65333]);
    (65366, [65334]); (65367, [65335]); (65368, [65336]); (65369, [65337]);
    (65370, [65338]); (66600, [66560]); (66601, [66561]); (66602, [66562]);
    (66603, [66563]); (66604, [66564]); (66605, [66565]); (66606, [66566]);
    (66607, [66567]); (66608, [66568]); (66609, [66569]); (66610, [66570]);
    (66611, [66571]); (66612, [66572]); (66613, [66573]); (66614, [66574]);
    (66615, [66575]); (66616, [66576]); (66617, [66577]); (66618, [66578]);
    (66619, [66579]); (66620, [66580]); (66621, [66581]); (66622, [66582]);
    (66623, [66583]); (66624, [66584]); (66625, [66585]); (66626, [66586]);
    (66627, [66587]); (66628, [66588]); (66629, [66589]); (66630, [66590]);
    (66631, [66591]); (66632, [66592]); (66633, [66593]); (66634, [66594]);
    (66635, [66595]); (66636, [66596]); (66637, [66597]); (66638, [66598]);
    (66639, [66599]); (66776, [66736]); (66777, [66737]); (66778, [66738]);
    (66779, [66739]); (66780, [66740]); (66781, [66741]); (66782, [66742]);
    (66783, [66743]); (66784, [66744]); (66785, [66745]); (66786, [66746]);
    (66787, [66747]); (66788, [66748]); (66789, [66749]); (66790, [66750]);
    (66791, [66751]); (66792, [66752]); (66793, [66753]); (66794, [66754]);
    (66795, [66755]); (66796, [66756]); (66797, [66757]); (66798, [66758]);
    (66799, [66759]); (66800, [66760]); (66801, [66761]); (66802, [66762]);
    (66803, [66763]); (66804, [66764]); (66805, [66765]); (66806, [66766]);
    (66807, [66767]); (66808, [66768]); (66809, [66769]); (66810, [66770]);
    (66811, [66771]); (66967, [66928]); (66968, [66929]); (66969, [66930]);
    (66970, [66931]); (66971, [66932]); (66972, [66933]); (66973, [66934]);
    (66974, [66935]); (66975, [66936]); (66976, [66937]); (66977, [66938]);
    (66979, [66940]); (66980, [66941]); (66981, [66942]); (66982, [66943]);
    (66983, [66944]); (66984, [66945]); (66985, [66946]); (66986, [66947]);
    (66987, [66948]); (66988, [66949]); (66989, [66950]); (66990, [66951]);
    (66991, [66952]); (66992, [66953]); (66993, [66954]); (66995, [66956]);
    (66996, [66957]); (66997, [66958]); (66998, [66959]); (66999, [66960]);
    (67000, [66961]); (67001, [66962]); (67003, [66964]); (67004, [66965]);
    (68800, [68736]); (68801, [68737]); (68802, [68738]); (68803, [68739]);
    (68804, [68740]); (68805, [68741]); (68806, [68742]); (68807, [68743]);
    (68808, [68744]); (68809, [68745]); (68810, [68746]); (68811, [68747]);
    (68812, [68748]); (68813, [68749]); (68814, [68750]); (68815, [68751]);
    (68816, [68752]); (68817, [68753]); (68818, [68754]); (68819, [68755]);
    (68820, [68756]); (68821, [68757]); (68822, [68758]); (68823, [68759]);
    (68824, [68760]); (68825, [68761]); (68826, [68762]); (68827, [68763]);
    (68828, [68764]); (68829, [68765]); (68830, [68766]); (68831, [68767]);
    (68832, [68768]); (68833, [68769]); (68834, [68770]); (68835, [68771]);
    (68836, [68772]); (68837, [68773]); (68838, [68774]); (68839, [68775]);
    (68840, [68776]); (68841, [68777]); (68842, [68778]); (68843, [68779]);
    (68844, [68780]); (68845, [68781]); (68846, [68782]); (68847, [68783]);
    (68848, [68784]); (68849, [68785]); (68850, [68786]); (71872, [71840]);
    (71873, [71841]); (71874, [71842]); (71875, [71843]); (71876, [71844]);
    (71877, [71845]); (71878, [71846]); (71879, [71847]); (71880, [71848]);
    (71881, [71849]); (71882, [71850]); (71883, [71851]); (71884, [71852]);
    (71885, [71853]); (71886, [71854]); (71887, [71855]); (71888, [71856]);
    (71889, [71857]); (71890, [71858]); (71891, [71859]); (71892, [71860]);
    (71893, [71861]); (71894, [71862]); (71895, [71863]); (71896, [71864]);
    (71897, [71865]); (71898, [71866]); (71899, [71867]); (71900, [71868]);
    (71901, [71869]); (71902, [71870]); (71903, [71871]); (93792, [93760]);
    (93793, [93761]); (93794, [93762]); (93795, [93763]); (93796, [93764]);
    (93797, [93765]); (93798, [93766]); (93799, [93767]); (93800, [93768]);
    (93801, [93769]); (93802, [93770]); (93803, [93771]); (93804, [93772]);
    (93805, [93773]); (93806, [93774]); (93807, [93775]); (93808, [93776]);
    (93809, [93777]); (93810, [93778]); (93811, [93779]); (93812, [93780]);
    (93813, [93781]); (93814, [93782]); (93815, [93783]); (93816, [93784]);
    (93817, [93785]); (93818, [93786]); (93819, [93787]); (93820, [93788]);
    (93821, [93789]); (93822, [93790]); (93823, [93791]); (125218, [125184]);
    (125219, [125185]); (125220, [125186]); (125221, [125187]);
    (125222, [125188]); (125223, [125189]); (125224, [125190]);
    (125225, [125191]); (125226, [125192]); (125227, [125193]);
    (125228, [125194]); (125229, [125195]); (125230, [125196]);
    (125231, [125197]); (125232, [125198]); (125233, [125199]);
    (125234, [125200]); (125235, [125201]); (125236, [125202]);
    (125237, [125203]); (125238, [125204]); (125239, [125205]);
    (125240, [125206]); (125241, [125207]); (125242, [125208]);
    (125243, [125209]); (125244, [125210]); (125245, [125211]);
    (125246, [125212]); (125247, [125213]); (125248, [125214]);
    (125249, [125215]); (125250, [125216]); (125251, [125217])
  ]%N.

Fixpoint assoc (n : N) (t : list (N * list N)) : option (list N) :=
  match t with
  | [] => None
  | (k, v) :: r => if (k =? n)%N then Some v else assoc n r
  end.

Definition upper_point (n : N) : list N :=
  if ((97 <=? n) && (n <=? 122))%N then [(n - 32)%N]
  else if (n <? 128)%N then [n]
  else match assoc n upper_table with
       | Some out => out
       | None => [n]
       end.

Definition upper_char (c : string) : list string :=
  match code_point c with
  | Some n => map utf8 (upper_point n)
  | None => [c]
  end.

(** [s.upper()]: character by character. *)
Definition upper (s : string) : string :=
  join (flat_map upper_char (chars s)).

(** The white space of [str.strip]: the characters [str.isspace] accepts. *)
Definition is_space_point (n : N) : bool :=
  (((9 <=? n) && (n <=? 13)) || ((28 <=? n) && (n <=? 32))
   || (n =? 133) || (n =? 160) || (n =? 5760)
   || ((8192 <=? n) && (n <=? 8202))
   || (n =? 8232) || (n =? 8233) || (n =? 8239) || (n =? 8287)
   || (n =? 12288))%N.

Definition is_space (c : string) : bool :=
  match code_point c with
  | Some n => is_space_point n
  | None => false
  end.

Fixpoint lstrip (l : list string) : list string :=
  match l with
  | [] => []
  | c :: r => if is_space c then lstrip r else l
  end.

Fixpoint rstrip (l : list string) : list string :=
  match l with
  | [] => []
  | c :: r =>
      match rstrip r with
      | [] => if is_space c then [] else [c]
      | r' => c :: r'
      end
  end.

(** [s.strip()] *)
Definition strip (s : string) : string := join (rstrip (lstrip (chars s))).

(** A character that is whole: as many bytes as its first byte tells. *)
Definition whole (c : string) : bool :=
  match c with
  | EmptyString => false
  | String a _ => Nat.eqb (String.length c) (width a)
  end.

(** Truth value of a string: non-empty. *)
Definition truthy (s : string) : bool :=
  match s with
  | EmptyString => false
  | String _ _ => true
  end.

(** [x in l] for a list of strings. *)
Fixpoint mem (x : string) (l : list string) : bool :=
  match l with
  | [] => false
  | y :: r => if String.eqb y x then true else mem x r
  end.

(** [l] without the first occurrence of [x]. *)
Fixpoint remove_first (x : string) (l : list string) : list string :=
  match l with
  | [] => []
  | y :: r => if String.eqb y x then r else y :: remove_first x r
  end.

(** [l.remove(x)]: drops the first occurrence, ValueError when there is
    none. *)
Definition list_remove (x : string) (l : list string) : py (list string) :=
  if mem x l then Ret (remove_first x l) else Throw ValueError.

End PyStr.

(* ================================================================= *)
(** ** Python run-time: insertion-ordered dictionaries with string keys *)

Section Dict.
Context {V : Type}.

Definition dict : Type := list (string * V).

(** [d.get(k)] *)
Fixpoint dict_get (k : string) (d : dict) : option V :=
  match d with
  | [] => None
  | (k', v) :: r => if String.eqb k' k then Some v else dict_get k r
  end.

(** [d[k] = v]: an existing key keeps its place, a new one goes last. *)
Fixpoint dict_set (k : string) (v : V) (d : dict) : dict :=
  match d with
  | [] => [(k, v)]
  | (k', v') :: r =>
      if String.eqb k' k then (k', v) :: r else (k', v') :: dict_set k v r
  end.

(** [del d[k]]: the key is gone afterwards (a dictionary holds a key at
    most once). *)
Fixpoint dict_del (k : string) (d : dict) : dict :=
  match d with
  | [] => []
  | (k', v') :: r =>
      if String.eqb k' k then dict_del k r else (k', v') :: dict_del k r
  end.

(** [list(d.keys())] *)
Definition dict_keys (d : dict) : list string := map fst d.

(** Truth value of a dictionary: non-empty. *)
Definition dict_truthy (d : dict) : bool :=
  match d with
  | [] => false
  | _ :: _ => true
  end.
End Dict.

Arguments dict V : clear implicits.

(* ================================================================= *)
(** ** Session state (lines 64-75) *)

(** One entry of [st.session_state.holdings]: [{"qty": ..., "avg_price": ...}]. *)
Record position : Type := mkPosition {
  qty : Z;
  avg_price : float
}.

Record session : Type := mkSession {
  user : option string;
  cash : float;
  holdings : dict position;
  watchlist : list string
}.

(** The defaults the script installs on the first run of a session. *)
Definition initial_session : session :=
  {| user := None; cash := 10000; holdings := []; watchlist := [] |}.

Definition with_user (s : session) (u : option string) : session :=
  {| user := u; cash := cash s; holdings := holdings s; watchlist := watchlist s |}.

Definition with_cash (s : session) (c : float) : session :=
  {| user := user s; cash := c; holdings := holdings s; watchlist := watchlist s |}.

Definition with_holdings (s : session) (h : dict position) : session :=
  {| user := user s; cash := cash s; holdings := h; watchlist := watchlist s |}.

Definition with_watchlist (s : session) (w : list string) : session :=
  {| user := user s; cash := cash s; holdings := holdings s; watchlist := w |}.

(* ================================================================= *)
(** ** The market-data client (yfinance), as the script sees it *)

(** A price-history frame: the name of its index, its data columns and the
    Close column, one value per row, oldest first. *)
Record frame : Type := mkFrame {
  index_name : string;
  columns : list string;
  close : list float
}.

Record ticker_info : Type := mkInfo {
  shortName : option string;
  longName : option string
}.

(** What the client answers during one run of the script; [None] stands for a
    raised exception. *)
Record world : Type := mkWorld {
  yf_history : string -> string -> string -> option frame;
  yf_info : string -> option ticker_info
}.

Definition frame_empty (df : frame) : bool :=
  match close df with
  | [] => true
  | _ :: _ => false
  end.

(** [fetch_history] (lines 81-94): the Close column of the frame it returns.
    [reset_index] turns the index into a column of its name, and raises
    ValueError, caught at line 93, when the frame has a column of that name
    already. *)
Definition fetch_history (w : world) (symbol period interval : string)
  : option (list float) :=
  match yf_history w symbol period interval with
  | None => None
  | Some df =>
      if frame_empty df then None
      else if PyStr.mem (index_name df) (columns df) then None
      else
        let cols := index_name df :: columns df in
        if forallb (fun col => PyStr.mem col cols)
             ["Open"; "High"; "Low"; "Close"; "Volume"; "Date"]
        then Some (close df)
        else None
  end.

(** [float(hist["Close"].iloc[-1])] on a frame with at least one row. *)
Definition last_close (closes : list float) : float := last closes nan.

Record quote : Type := mkQuote {
  q_symbol : string;
  q_price : float;
  q_change : float;
  q_pct : float;
  q_name : string
}.

(** [a or b or ""] on two optional strings. *)
Definition first_truthy (a b : option string) : string :=
  match a with
  | Some (String c r) => String c r
  | _ => match b with
         | Some (String c r) => String c r
         | _ => ""
         end
  end.

(** [fetch_quote] (lines 97-114). *)
Definition fetch_quote (w : world) (symbol : string) : option quote :=
  match yf_history w symbol "2d" "1d" with
  | None => None
  | Some hist =>
      if frame_empty hist then None
      else if negb (PyStr.mem "Close" (columns hist)) then None
      else
        let price := last_close (close hist) in
        let prev :=
          match rev (close hist) with
          | _ :: p :: _ => p
          | _ => price
          end in
        let change := PyFloat.round2 (price - prev)%float in
        let pct :=
          if PyFloat.truthy prev
          then PyFloat.round2 ((change / prev) * 100)%float
          else 0%float in
        let name :=
          match yf_info w symbol with
          | Some i => first_truthy (shortName i) (longName i)
          | None => ""
          end in
        Some {| q_symbol := PyStr.upper symbol;
                q_price := PyFloat.round2 price;
                q_change := change;
                q_pct := pct;
                q_name := name |}
  end.

(* ================================================================= *)
(** ** What a run of the script shows and how it ends *)

Record holding_row : Type := mkRow {
  row_symbol : string;
  row_qty : Z;
  row_avg : float;
  row_cur : option float;
  row_value : float
}.

Inductive message : Type :=
| Welcome (name : string)
| Please_enter_a_valid_username
| Please_log_in
| Cash_balance (c : float)
| Portfolio (rows : list holding_row)
| No_holdings_yet
| Total_net_worth (v : float)
| Enter_a_symbol
| Symbol_not_found
| Insufficient_funds
| Bought (q : Z) (sym : string) (price cost : float)
| No_holdings_to_sell
| Could_not_fetch_price
| Sold (q : Z) (sym : string) (price proceeds : float)
| Symbol_not_found_or_no_data
| Quote_header (q : quote)
| Chart (sym : string)
| Added_to_watchlist (sym : string)
| Already_in_watchlist
| Cannot_fetch_price_to_buy
| Insufficient_cash
| Bought_from_search (q : Z) (sym : string) (price : float)
| Watchlist_empty
| Watch_table (rows : list (string * option quote))
| Removed (sym : string).

Inductive level : Type := st_success | st_error | st_info | st_warning | st_plain.

Definition notice : Type := (level * message)%type.

Inductive ending : Type :=
| Completed
| Stopped           (* st.stop() *)
| Rerun             (* st.rerun() *)
| Raised (e : exn)  (* an uncaught exception ends the run *)
| Not_delivered.    (* a radio or select box cannot hold the choice asked for *)

Record run : Type := mkRun {
  after : session;
  notices : list notice;
  ending_of : ending
}.

Definition done (s : session) (ns : list notice) : run :=
  {| after := s; notices := ns; ending_of := Completed |}.

Definition ended (s : session) (ns : list notice) (e : ending) : run :=
  {| after := s; notices := ns; ending_of := e |}.

(** Statements in sequence: the second part runs only when the first one ran
    to its end. *)
Definition and_then (r : run) (k : session -> run) : run :=
  match ending_of r with
  | Completed =>
      let r' := k (after r) in
      {| after := after r';
         notices := notices r ++ notices r';
         ending_of := ending_of r' |}
  | _ => r
  end.

(** The error kinds of the ledger design, and the messages of the script that
    stand for them. *)
Inductive ledger_error : Type :=
| InsufficientFunds
| NoPosition
| InsufficientShares
| SymbolUnavailable
| InvalidInput.

Definition error_kind (n : notice) : option ledger_error :=
  match n with
  | (st_error, Insufficient_funds) => Some InsufficientFunds
  | (st_error, Insufficient_cash) => Some InsufficientFunds
  | (st_error, Symbol_not_found) => Some SymbolUnavailable
  | (st_error, Could_not_fetch_price) => Some SymbolUnavailable
  | (st_error, Cannot_fetch_price_to_buy) => Some SymbolUnavailable
  | (st_error, Symbol_not_found_or_no_data) => Some SymbolUnavailable
  | (st_error, Enter_a_symbol) => Some InvalidInput
  | (st_error, Please_enter_a_valid_username) => Some InvalidInput
  | (st_info, No_holdings_to_sell) => Some NoPosition
  | _ => None
  end.

(* ================================================================= *)
(** ** Streamlit widgets *)

(** [st.radio] and [st.selectbox]: the user can pick one of the options only. *)
Definition pick (options : list string) (choice : string) : option string :=
  if PyStr.mem choice options then Some choice else None.

(** Largest integer a number input accepts when no [max_value] is given. *)
Definition JS_MAX_SAFE_INTEGER : Z := 2 ^ 53 - 1.

(** [st.number_input(min_value=lo, max_value=hi, value=1)] with integer
    arguments, [held] being the number the front end holds for the input.
    Creating the input fails when the initial value 1 is outside the bounds,
    or when a bound is not a safe integer of JavaScript.  The script is handed
    the number the front end holds when that is within the bounds, and the
    initial value 1 when it is not. *)
Definition number_input (lo : Z) (hi : option Z) (held : Z) : py Z :=
  let hi' := match hi with Some h => h | None => JS_MAX_SAFE_INTEGER end in
  if (1 <? lo) || (hi' <? 1) then Throw StreamlitAPIException
  else if (lo <? - JS_MAX_SAFE_INTEGER) || (JS_MAX_SAFE_INTEGER <? hi')
  then Throw StreamlitAPIException
  else if (lo <=? held) && (held <=? hi') then Ret held
  else Ret 1.

(** [require_login] (lines 216-219). *)
Definition require_login (s : session) (body : run) : run :=
  match user s with
  | None => ended s [(st_warning, Please_log_in)] Stopped
  | Some _ => body
  end.

(* ================================================================= *)
(** ** The widgets' values in one run of the script *)

Record ui : Type := mkUi {
  logout_clicked : bool;
  nav : string;
  login_username : string;
  login_clicked : bool;
  buy_text : string;
  buy_typed : Z;
  buy_clicked : bool;
  sell_choice : string;
  sell_typed : Z;
  sell_clicked : bool;
  search_text : string;
  period_choice : string;
  interval_choice : string;
  lookup_clicked : bool;
  search_add_clicked : bool;
  search_buy_typed : Z;
  search_buy_clicked : bool;
  watch_text : string;
  watch_add_clicked : bool;
  remove_clicked : string -> bool
}.

(* ================================================================= *)
(** ** Login page (lines 204-213) *)

Definition login_page (s : session) (i : ui) : run :=
  let username := login_username i in
  if login_clicked i then
    if PyStr.truthy username && PyStr.truthy (PyStr.strip username) then
      let s' := with_user s (Some (PyStr.strip username)) in
      ended s' [(st_success, Welcome (PyStr.strip username))] Rerun
    else done s [(st_error, Please_enter_a_valid_username)]
  else done s [].

(* ================================================================= *)
(** ** Dashboard page (lines 224-254) *)

(** Line 242: [round((cur_price * qty) if cur_price else 0.0, 2)]. *)
Definition holding_value (cur_price : option float) (n : Z) : py float :=
  match cur_price with
  | Some p =>
      if PyFloat.truthy p
      then v <- PyFloat.mul_int p n ;; Ret (PyFloat.round2 v)
      else Ret (PyFloat.round2 0)
  | None => Ret (PyFloat.round2 0)
  end.

(** Lines 237-244: the loop over [holdings.items()], with [fetch] for
    [fetch_quote]. *)
Fixpoint dashboard_loop (fetch : string -> option quote)
    (items : dict position) (holding_rows : list holding_row)
    (total_value : float) : py (list holding_row * float) :=
  match items with
  | [] => Ret (holding_rows, total_value)
  | (sym, info) :: rest =>
      let cur_price := option_map q_price (fetch sym) in
      value <- holding_value cur_price (qty info) ;;
      let shown_price :=
        match cur_price with
        | Some p => if PyFloat.truthy p then Some p else None
        | None => None
        end in
      dashboard_loop fetch rest
        (holding_rows ++ [ {| row_symbol := sym; row_qty := qty info;
                              row_avg := avg_price info;
                              row_cur := shown_price;
                              row_value := value |} ])
        (total_value + value)%float
  end.


(** [st.table] of the holdings (line 250): the frame goes to the front end
    as an Arrow table, which cannot hold an integer of 2^64 or more. *)
Definition table_fits (rows : list holding_row) : bool :=
  forallb (fun r => row_qty r <? 2 ^ 64) rows.

Definition dashboard_page (s : session) (w : world) : run :=
  require_login s
    (match dashboard_loop (fetch_quote w) (holdings s) [] (cash s) with
     | Throw e => ended s [(st_plain, Cash_balance (cash s))] (Raised e)
     | Ret (rows, total_value) =>
         match rows with
         | [] =>
             done s [ (st_plain, Cash_balance (cash s));
                      (st_info, No_holdings_yet);
                      (st_plain, Total_net_worth total_value) ]
         | _ :: _ =>
             if table_fits rows
             then done s [ (st_plain, Cash_balance (cash s));
                           (st_plain, Portfolio rows);
                           (st_plain, Total_net_worth total_value) ]
             else ended s [(st_plain, Cash_balance (cash s))]
                        (Raised OverflowError)
         end
     end).

(* ================================================================= *)
(** ** Buy page (lines 259-291) *)

(** Lines 282-289: the new entry of [holdings] for the symbol.  A stored
    position is a dictionary with two keys, so [if cur:] tests presence. *)
Definition bought_position (cur : option position) (q : Z) (price : float)
  : py position :=
  match cur with
  | Some cur =>
      let total_shares := qty cur + q in
      a <- PyFloat.mul_int (avg_price cur) (qty cur) ;;
      b <- PyFloat.mul_int price q ;;
      avg <- PyFloat.truediv_int (a + b)%float total_shares ;;
      Ret {| qty := total_shares; avg_price := PyFloat.round2 avg |}
  | None => Ret {| qty := q; avg_price := PyFloat.round2 price |}
  end.

(** Lines 278-291, once the price is known. *)
Definition buy_trade (s : session) (buy_sym : string) (buy_qty : Z)
    (price : float) : run :=
  match PyFloat.mul_int price buy_qty with
  | Throw e => ended s [] (Raised e)
  | Ret cost =>
      if (cash s <? cost)%float then done s [(st_error, Insufficient_funds)]
      else
        match bought_position (dict_get buy_sym (holdings s)) buy_qty price with
        | Throw e => ended s [] (Raised e)
        | Ret p =>
            let s1 := with_holdings s (dict_set buy_sym p (holdings s)) in
            let s2 := with_cash s1 (cash s1 - cost)%float in
            done s2 [(st_success, Bought buy_qty buy_sym price cost)]
        end
  end.

Definition buy_page (s : session) (w : world) (i : ui) : run :=
  require_login s
    (let buy_sym := PyStr.upper (buy_text i) in
     match number_input 1 None (buy_typed i) with
     | Throw e => ended s [] (Raised e)
     | Ret buy_qty =>
         if buy_clicked i then
           if negb (PyStr.truthy buy_sym) then done s [(st_error, Enter_a_symbol)]
           else
             match fetch_history w buy_sym "5d" "1d" with
             | None => done s [(st_error, Symbol_not_found)]
             | Some hist => buy_trade s buy_sym buy_qty (last_close hist)
             end
         else done s []
     end).

(* ================================================================= *)
(** ** Sell page (lines 296-317) *)

(** Lines 311-317, once the price is known.  The lines themselves test
    neither the symbol nor the quantity. *)
Definition sell_trade (s : session) (sel : string) (sell_qty : Z)
    (price : float) : run :=
  match PyFloat.mul_int price sell_qty with
  | Throw e => ended s [] (Raised e)
  | Ret proceeds =>
      let s1 := with_cash s (cash s + proceeds)%float in
      match dict_get sel (holdings s1) with
      | None => ended s1 [] (Raised (KeyError sel))
      | Some p =>
          let p' := {| qty := qty p - sell_qty; avg_price := avg_price p |} in
          let h1 := dict_set sel p' (holdings s1) in
          let h2 := if qty p' =? 0 then dict_del sel h1 else h1 in
          done (with_holdings s1 h2) [(st_success, Sold sell_qty sel price proceeds)]
      end
  end.

Definition sell_page (s : session) (w : world) (i : ui) : run :=
  require_login s
    (if negb (dict_truthy (holdings s)) then done s [(st_info, No_holdings_to_sell)]
     else
       match pick (dict_keys (holdings s)) (sell_choice i) with
       | None => ended s [] Not_delivered
       | Some sel =>
           match dict_get sel (holdings s) with
           | None => ended s [] (Raised (KeyError sel))
           | Some p =>
               let max_qty := qty p in
               match number_input 1 (Some max_qty) (sell_typed i) with
               | Throw e => ended s [] (Raised e)
               | Ret sell_qty =>
                   if sell_clicked i then
                     match fetch_history w sel "5d" "1d" with
                     | None => done s [(st_error, Could_not_fetch_price)]
                     | Some hist => sell_trade s sel sell_qty (last_close hist)
                     end
                   else done s []
               end
           end
       end).

(* ================================================================= *)
(** ** Search page (lines 322-384) *)

(** Lines 356-362: the "Add to Watchlist" button of the Search page. *)
Definition search_add_watch (s : session) (search_sym : string) : run :=
  let s0 := PyStr.upper search_sym in
  if negb (PyStr.mem s0 (watchlist s))
  then done (with_watchlist s (watchlist s ++ [s0]))
            [(st_success, Added_to_watchlist s0)]
  else done s [(st_info, Already_in_watchlist)].

(** Lines 370-384: "Buy from Search", once the price is known. *)
Definition search_buy_trade (s : session) (search_sym : string) (buy_q : Z)
    (price : float) : run :=
  match PyFloat.mul_int price buy_q with
  | Throw e => ended s [] (Raised e)
  | Ret cost =>
      if (cash s <? cost)%float then done s [(st_error, Insufficient_cash)]
      else
        match bought_position (dict_get search_sym (holdings s)) buy_q price with
        | Throw e => ended s [] (Raised e)
        | Ret p =>
            let s1 := with_holdings s (dict_set search_sym p (holdings s)) in
            let s2 := with_cash s1 (cash s1 - cost)%float in
            done s2 [(st_success, Bought_from_search buy_q search_sym price)]
        end
  end.

Definition search_page (s : session) (w : world) (i : ui) : run :=
  require_login s
    (let search_sym := PyStr.upper (search_text i) in
     match pick ["1y"; "6mo"; "3mo"; "1mo"; "5d"] (period_choice i) with
     | None => ended s [] Not_delivered
     | Some period =>
         match pick (if String.eqb period "5d"
                     then ["1m"; "5m"; "15m"; "1h"] else ["1d"; "1wk"])
                    (interval_choice i) with
         | None => ended s [] Not_delivered
         | Some interval =>
             if lookup_clicked i then
               if negb (PyStr.truthy search_sym) then done s [(st_error, Enter_a_symbol)]
               else
                 match fetch_history w search_sym period interval with
                 | None => done s [(st_error, Symbol_not_found_or_no_data)]
                 | Some df =>
                     let header :=
                       match fetch_quote w search_sym with
                       | Some q => [(st_plain, Quote_header q)]
                       | None => []
                       end in
                     and_then (done s (header ++ [(st_plain, Chart search_sym)]))
                       (fun s =>
                     and_then (if search_add_clicked i
                               then search_add_watch s search_sym else done s [])
                       (fun s =>
                          match number_input 1 None (search_buy_typed i) with
                          | Throw e => ended s [] (Raised e)
                          | Ret buy_q =>
                              if search_buy_clicked i then
                                match fetch_history w search_sym "5d" "1d" with
                                | None => done s [(st_error, Cannot_fetch_price_to_buy)]
                                | Some hist =>
                                    search_buy_trade s search_sym buy_q (last_close hist)
                                end
                              else done s []
                          end))
                 end
             else done s []
         end
     end).

(* ================================================================= *)
(** ** Watchlist page (lines 389-421) *)

(** Lines 394-399: the "Add to Watchlist" button of the Watchlist page. *)
Definition watch_add (s : session) (add_sym : string) : run :=
  if PyStr.truthy add_sym && negb (PyStr.mem add_sym (watchlist s))
  then done (with_watchlist s (watchlist s ++ [add_sym]))
            [(st_success, Added_to_watchlist add_sym)]
  else if PyStr.mem add_sym (watchlist s)
  then done s [(st_info, Already_in_watchlist)]
  else done s [].

(** Lines 417-421: one Remove button per entry of a copy of the watchlist,
    keyed by the entry; Streamlit refuses a key it has already seen in the
    run.  [clicked x] tells whether the button of entry [x] was pressed. *)
Fixpoint remove_buttons (s : session) (clicked : string -> bool)
    (entries seen : list string) : run :=
  match entries with
  | [] => done s []
  | x :: rest =>
      if PyStr.mem x seen then ended s [] (Raised StreamlitAPIException)
      else if clicked x
      then match PyStr.list_remove x (watchlist s) with
           | Ret l => ended (with_watchlist s l) [(st_success, Removed x)] Rerun
           | Throw e => ended s [] (Raised e)
           end
      else remove_buttons s clicked rest (x :: seen)
  end.

(** The body of the Watchlist branch. *)
Definition watchlist_page (s : session) (w : world) (i : ui) : run :=
  require_login s
    (let add_sym := PyStr.upper (watch_text i) in
     and_then (if watch_add_clicked i then watch_add s add_sym else done s [])
       (fun s =>
          match watchlist s with
          | [] => done s [(st_info, Watchlist_empty)]
          | _ :: _ =>
              and_then
                (done s [(st_plain,
                          Watch_table (map (fun x => (x, fetch_quote w x)) (watchlist s)))])
                (fun s => remove_buttons s (remove_clicked i) (watchlist s) [])
          end)).

(* ================================================================= *)
(** ** The script: sidebar and dispatch (lines 190-204, 224, 259, 296, 322, 389) *)

(** What a global name is bound to; only strings are compared below. *)
Inductive value : Type :=
| VStr (s : string)
| VObject.

Definition value_eqb (a b : value) : bool :=
  match a, b with
  | VStr x, VStr y => String.eqb x y
  | _, _ => false
  end.

(** The module's global names when control reaches line 389: the imports,
    the three functions and [require_login], [page], and [username] when the
    Login page ran.  Every other assignment of the script sits in a branch
    that, once taken, skips line 389. *)
Definition globals_at_dispatch (page : string) (username : option string)
  : list (string * value) :=
  [ ("st", VObject); ("yf", VObject); ("pd", VObject); ("go", VObject);
    ("datetime", VObject); ("Optional", VObject);
    ("fetch_history", VObject); ("fetch_quote", VObject);
    ("plot_candlestick", VObject); ("page", VStr page);
    ("require_login", VObject) ]
  ++ match username with
     | Some u => [("username", VStr u)]
     | None => []
     end.

(** Reading a global name (no builtin is called [nav_choice]). *)
Definition load_global (g : list (string * value)) (name : string) : py value :=
  match dict_get name g with
  | Some v => Ret v
  | None => Throw (NameError name)
  end.

(** The script, with the body of its last branch as a parameter. *)
Definition script_with (watch_branch : session -> run)
    (s : session) (w : world) (i : ui) : run :=
  let sidebar : run * option string :=
    match user s with
    | None => (done s [], pick ["Login"] (nav i))
    | Some _ =>
        if logout_clicked i then (ended (with_user s None) [] Rerun, None)
        else (done s [],
              pick ["Dashboard"; "Buy"; "Sell"; "Search"; "Watchlist"] (nav i))
    end in
  and_then (fst sidebar) (fun s =>
    match snd sidebar with
    | None => ended s [] Not_delivered
    | Some page =>
        and_then (if String.eqb page "Login" then login_page s i else done s [])
          (fun s =>
             if String.eqb page "Dashboard" then dashboard_page s w
             else if String.eqb page "Buy" then buy_page s w i
             else if String.eqb page "Sell" then sell_page s w i
             else if String.eqb page "Search" then search_page s w i
             else
               let g := globals_at_dispatch page
                          (if String.eqb page "Login"
                           then Some (login_username i) else None) in
               match load_global g "nav_choice" with
               | Throw e => ended s [] (Raised e)
               | Ret v =>
                   if value_eqb v (VStr "Watchlist") then watch_branch s
                   else done s []
               end)
    end).

Definition script (s : session) (w : world) (i : ui) : run :=
  script_with (fun s => watchlist_page s w i) s w i.

(** The session after a series of runs of the script. *)
Fixpoint session_after (s : session) (runs : list (world * ui)) : session :=
  match runs with
  | [] => s
  | (w, i) :: rest => session_after (after (script s w i)) rest
  end.

(** The pages as the design intends them, each callable on its own. *)
Inductive page_id : Type :=
| Login | Dashboard | Buy | Sell | Search | Watchlist.

Definition page_run (s : session) (p : page_id) (w : world) (i : ui) : run :=
  match p with
  | Login => login_page s i
  | Dashboard => dashboard_page s w
  | Buy => buy_page s w i
  | Sell => sell_page s w i
  | Search => search_page s w i
  | Watchlist => watchlist_page s w i
  end.

Fixpoint session_after_pages (s : session) (runs : list (page_id * world * ui))
  : session :=
  match runs with
  | [] => s
  | (p, w, i) :: rest => session_after_pages (after (page_run s p w i)) rest
  end.

(* ================================================================= *)
(** ** Vocabulary of the properties *)

(** A run that went to its end and reported one success. *)
Definition succeeded (r : run) : bool :=
  match ending_of r, notices r with
  | Completed, [(st_success, _)] => true
  | _, _ => false
  end.

(** The error kinds a run reported. *)
Definition errors_of (r : run) : list ledger_error :=
  flat_map (fun n => match error_kind n with Some k => [k] | None => [] end)
           (notices r).

(** A series of purchases [(quantity, unit price)] of one symbol on the Buy
    page, every one of them successful. *)
Fixpoint buy_all (s : session) (sym : string) (orders : list (Z * float))
  : option session :=
  match orders with
  | [] => Some s
  | (q, price) :: rest =>
      let r := buy_trade s sym q price in
      if succeeded r then buy_all (after r) sym rest else None
  end.

(** The average cost after a series of purchases [(quantity, unit price)],
    in the words of the corrected design: [round(p1, 2)] after a first
    purchase; with [held] shares at the average [avg], a purchase of [q] at
    [p] gives [round((avg * held + p * q) / (held + q), 2)].  No value when a
    quantity does not convert to a float or the total is zero. *)
Fixpoint average_after (held : Z) (avg : option float)
    (orders : list (Z * float)) : option float :=
  match orders with
  | [] => avg
  | (q, p) :: rest =>
      match avg with
      | None => average_after (held + q) (Some (PyFloat.round2 p)) rest
      | Some a =>
          match PyFloat.of_int held, PyFloat.of_int q,
                PyFloat.of_int (held + q) with
          | Ret fh, Ret fq, Ret ft =>
              if (ft =? 0)%float then None
              else average_after (held + q)
                     (Some (PyFloat.round2 ((a * fh + p * fq) / ft)%float)) rest
          | _, _, _ => None
          end
      end
  end.

Definition total_quantity (orders : list (Z * float)) : Z :=
  fold_right (fun o acc => fst o + acc) 0 orders.

Definition average_cost (s : session) (sym : string) : option float :=
  option_map avg_price (dict_get sym (holdings s)).

(** The quantity held of a symbol: 0 without a position. *)
Definition quantity_held (s : session) (sym : string) : Z :=
  match dict_get sym (holdings s) with
  | Some p => qty p
  | None => 0
  end.

(** The volume-weighted mean of the purchase prices, in the words of the
    design: the sum of [price * quantity] over the total quantity. *)
Fixpoint purchase_value (orders : list (Z * float)) : py float :=
  match orders with
  | [] => Ret 0%float
  | (q, price) :: rest =>
      v <- PyFloat.mul_int price q ;;
      t <- purchase_value rest ;;
      Ret (v + t)%float
  end.

Definition volume_weighted_mean (orders : list (Z * float)) : py float :=
  v <- purchase_value orders ;; PyFloat.truediv_int v (total_quantity orders).





(** The lists of characters [chars] gives: whole characters, but for a last
    one that may be cut short. *)
Inductive well_split : list string -> Prop :=
| split_nil : well_split []
| split_last c : c <> "" -> PyStr.chars c = [c] -> well_split [c]
| split_cons c l : PyStr.whole c = true -> well_split l -> well_split (c :: l).

(** What [upper] puts in the place of a character: the character itself, or
    whole characters that [upper] leaves alone. *)
Definition settled (d : string) : bool :=
  PyStr.whole d &&
  match PyStr.upper_char d with
  | [d'] => String.eqb d' d
  | _ => false
  end.

(** The sign of a value is not minus (a NaN has none). *)
Definition sf_not_negative (r : spec_float) : bool :=
  match r with
  | S754_finite true _ _ => false
  | S754_infinity true => false
  | _ => true
  end.

(** Invariants of the session. *)
Definition positions_positive (s : session) : Prop :=
  Forall (fun kv => 0 < qty (snd kv)) (holdings s).

Definition keys_unique (s : session) : Prop :=
  NoDup (dict_keys (holdings s)).

Definition upper_case (x : string) : Prop := PyStr.upper x = x.

Definition symbols_upper_case (s : session) : Prop :=
  Forall upper_case (dict_keys (holdings s)) /\ Forall upper_case (watchlist s).

(** A position exists for the symbol. *)
Definition holds_position (s : session) (sym : string) : Prop :=
  exists p, dict_get sym (holdings s) = Some p.

(** All four together. *)
Definition session_ok (s : session) : Prop :=
  keys_unique s /\ positions_positive s /\ symbols_upper_case s /\
  NoDup (watchlist s).

(** How one run may change the watchlist: entries are appended at the end, or
    one entry is taken out and the others keep their order. *)
Definition watchlist_moves (old new : list string) : Prop :=
  (exists added, new = (old ++ added)%list) \/
  (exists x, In x old /\ new = PyStr.remove_first x old).

(** The user asks for the Remove button of one symbol. *)
Definition asks_to_remove (x : string) : string -> bool := String.eqb x.

(** A run that reports a removal. *)
Definition removed (r : run) : bool :=
  existsb (fun n => match n with (_, Removed _) => true | _ => false end)
          (notices r).

(** The same widgets with another text typed in the three symbol inputs. *)
Definition typing (i : ui) (buy search watch : string) : ui :=
  {| logout_clicked := logout_clicked i; nav := nav i;
     login_username := login_username i; login_clicked := login_clicked i;
     buy_text := buy; buy_typed := buy_typed i; buy_clicked := buy_clicked i;
     sell_choice := sell_choice i; sell_typed := sell_typed i;
     sell_clicked := sell_clicked i;
     search_text := search; period_choice := period_choice i;
     interval_choice := interval_choice i; lookup_clicked := lookup_clicked i;
     search_add_clicked := search_add_clicked i;
     search_buy_typed := search_buy_typed i;
     search_buy_clicked := search_buy_clicked i;
     watch_text := watch; watch_add_clicked := watch_add_clicked i;
     remove_clicked := remove_clicked i |}.


(* ================================================================= *)
(** ** Sample data *)

Definition logged_in (c : float) (h : dict position) (wl : list string) : session :=
  {| user := Some "ann"; cash := c; holdings := h; watchlist := wl |}.

Definition one_position (sym : string) (q : Z) (avg : float) : dict position :=
  [(sym, {| qty := q; avg_price := avg |})].

Definition daily_frame (closes : list float) : frame :=
  {| index_name := "Date";
     columns := ["Open"; "High"; "Low"; "Close"; "Volume"; "Dividends"; "Stock Splits"];
     close := closes |}.

(** A market in which every symbol closed at [c]. *)
Definition flat_market (c : float) : world :=
  {| yf_history := fun _ _ _ => Some (daily_frame [c; c]);
     yf_info := fun _ => None |}.


(** The user on the Buy page, typing [text] and asking for [q] shares. *)
Definition asking_to_buy (text : string) (q : Z) : ui :=
  {| logout_clicked := false; nav := "Buy";
     login_username := ""; login_clicked := false;
     buy_text := text; buy_typed := q; buy_clicked := true;
     sell_choice := ""; sell_typed := 1; sell_clicked := false;
     search_text := ""; period_choice := "1y"; interval_choice := "1d";
     lookup_clicked := false; search_add_clicked := false;
     search_buy_typed := 1; search_buy_clicked := false;
     watch_text := ""; watch_add_clicked := false;
     remove_clicked := fun _ => false |}.

(** The user picking the Watchlist page and adding [text] there. *)
Definition asking_to_watch (text : string) : ui :=
  {| logout_clicked := false; nav := "Watchlist";
     login_username := ""; login_clicked := false;
     buy_text := ""; buy_typed := 1; buy_clicked := false;
     sell_choice := ""; sell_typed := 1; sell_clicked := false;
     search_text := ""; period_choice := "1y"; interval_choice := "1d";
     lookup_clicked := false; search_add_clicked := false;
     search_buy_typed := 1; search_buy_clicked := false;
     watch_text := text; watch_add_clicked := true;
     remove_clicked := fun _ => false |}.

(* ================================================================= *)
(** ** Vocabulary of the further properties *)

(** The same cash, holdings and watchlist: the account apart from the user. *)
Definition same_account (s s' : session) : Prop :=
  cash s' = cash s /\ holdings s' = holdings s /\ watchlist s' = watchlist s.

(** No stored symbol is the empty string. *)
Definition symbols_nonempty (s : session) : Prop :=
  Forall (fun x => x <> "") (dict_keys (holdings s)) /\
  Forall (fun x => x <> "") (watchlist s).

(** A run that shows a notice of the given sort. *)
Definition reports (sort : message -> bool) (r : run) : bool :=
  existsb (fun n => sort (snd n)) (notices r).

Definition is_bought_from_search (m : message) : bool :=
  match m with Bought_from_search _ _ _ => true | _ => false end.

Definition is_added (m : message) : bool :=
  match m with Added_to_watchlist _ => true | _ => false end.

(** A run ended by an uncaught exception. *)
Definition raised (r : run) : bool :=
  match ending_of r with Raised _ => true | _ => false end.

(** The user on the Login page, typing [name] and pressing Login. *)
Definition logging_in (name : string) : ui :=
  {| logout_clicked := false; nav := "Login";
     login_username := name; login_clicked := true;
     buy_text := ""; buy_typed := 1; buy_clicked := false;
     sell_choice := ""; sell_typed := 1; sell_clicked := false;
     search_text := ""; period_choice := "1y"; interval_choice := "1d";
     lookup_clicked := false; search_add_clicked := false;
     search_buy_typed := 1; search_buy_clicked := false;
     watch_text := ""; watch_add_clicked := false;
     remove_clicked := fun _ => false |}.

(** The user pressing Logout. *)
Definition logging_out : ui :=
  {| logout_clicked := true; nav := "Dashboard";
     login_username := ""; login_clicked := false;
     buy_text := ""; buy_typed := 1; buy_clicked := false;
     sell_choice := ""; sell_typed := 1; sell_clicked := false;
     search_text := ""; period_choice := "1y"; interval_choice := "1d";
     lookup_clicked := false; search_add_clicked := false;
     search_buy_typed := 1; search_buy_clicked := false;
     watch_text := ""; watch_add_clicked := false;
     remove_clicked := fun _ => false |}.

(** The user on the Search page, looking [text] up over [period] at
    [interval], the two nested buttons pressed or not. *)
Definition looking_up (text period interval : string) (add buy : bool) (q : Z) : ui :=
  {| logout_clicked := false; nav := "Search";
     login_username := ""; login_clicked := false;
     buy_text := ""; buy_typed := 1; buy_clicked := false;
     sell_choice := ""; sell_typed := 1; sell_clicked := false;
     search_text := text; period_choice := period; interval_choice := interval;
     lookup_clicked := true; search_add_clicked := add;
     search_buy_typed := q; search_buy_clicked := buy;
     watch_text := ""; watch_add_clicked := false;
     remove_clicked := fun _ => false |}.

(** A row of the holdings table that shows a price. *)
Definition sample_row (sym : string) (q : Z) (avg price value : float)
  : holding_row :=
  {| row_symbol := sym; row_qty := q; row_avg := avg;
     row_cur := Some price; row_value := value |}.

(** A frame of intraday bars: its index is called Datetime. *)
Definition intraday_frame (closes : list float) : frame :=
  {| index_name := "Datetime";
     columns := ["Open"; "High"; "Low"; "Close"; "Volume"; "Dividends"; "Stock Splits"];
     close := closes |}.

(** A market that answers every request with intraday bars closing at [c]. *)
Definition intraday_market (c : float) : world :=
  {| yf_history := fun _ _ _ => Some (intraday_frame [c; c]);
     yf_info := fun _ => None |}.

(** A market with a history of one row closing at [c]. *)
Definition one_day_market (c : float) : world :=
  {| yf_history := fun _ _ _ => Some (daily_frame [c]);
     yf_info := fun _ => None |}.

(** A row of the holdings table is in order with itself: without a price
    shown its value is 0.0, with a price [p] shown its value is
    [round(p * qty, 2)]. *)
Definition row_in_order (r : holding_row) : Prop :=
  match row_cur r with
  | None => row_value r = 0%float
  | Some p =>
      PyFloat.truthy p = true /\
      exists v, PyFloat.mul_int p (row_qty r) = Ret v /\
                row_value r = PyFloat.round2 v
  end.

(** The values of the rows added to a total one after the other. *)
Definition add_values (total : float) (rows : list holding_row) : float :=
  fold_left (fun t r => (t + row_value r)%float) rows total.

(* ================================================================= *)
(** * Properties *)

(* ================================================================= *)
(** ** Binary64 facts *)

Section Float_facts.

Lemma sf_not_negative_ltb r :
  sf_not_negative r = true -> SFltb r (S754_zero false) = false.
Proof.
  destruct r as [s|s| |s m e]; try destruct s; simpl; intros;
    try discriminate; reflexivity.
Qed.

Lemma binary_round_aux_not_negative m e l :
  sf_not_negative (binary_round_aux prec emax false m e l) = true.
Proof.
  unfold binary_round_aux.
  destruct (shr_fexp prec emax m e l) as [mrs' e'].
  destruct (shr_fexp prec emax _ e' loc_Exact) as [mrs'' e''].
  destruct (shr_m mrs''); try reflexivity.
  destruct (e'' <=? emax - prec); reflexivity.
Qed.

Lemma binary_normalize_not_negative m e :
  0 <= m -> sf_not_negative (binary_normalize prec emax m e false) = true.
Proof.
  intros Hm. destruct m as [|p|p]; simpl; try reflexivity; try lia.
  unfold binary_round.
  destruct (shl_align p e _) as [mz ez].
  apply binary_round_aux_not_negative.
Qed.

Lemma iter_xO_pow m d : Zpos (Pos.iter xO m d) = Zpos m * 2 ^ Zpos d.
Proof.
  induction d as [|d IH] using Pos.peano_ind.
  - simpl. lia.
  - rewrite Pos.iter_succ, Pos2Z.inj_succ, Z.pow_succ_r by lia.
    rewrite Pos2Z.inj_xO, IH. lia.
Qed.

Lemma shl_align_value m e e' :
  e' <= e -> Zpos (fst (shl_align m e e')) = Zpos m * 2 ^ (e - e').
Proof.
  intros H. unfold shl_align.
  destruct (e' - e) as [|d|d] eqn:E; try lia.
  - replace (e - e') with 0 by lia. cbn [fst].
    rewrite Z.pow_0_r, Z.mul_1_r. reflexivity.
  - cbn [fst]. rewrite iter_xO_pow. f_equal. f_equal. lia.
Qed.

Lemma digits2_pos_size m : digits2_pos m = Pos.size m.
Proof. induction m; simpl; congruence. Qed.

Lemma digits2_upper m : Zpos m < 2 ^ Zpos (digits2_pos m).
Proof.
  rewrite digits2_pos_size.
  pose proof (Pos.size_gt m) as H.
  apply Pos2Z.pos_lt_pos in H. rewrite Pos2Z.inj_pow in H. exact H.
Qed.

Lemma digits2_lower m : 2 ^ (Zpos (digits2_pos m) - 1) <= Zpos m.
Proof.
  rewrite digits2_pos_size.
  pose proof (Pos.size_le m) as H.
  apply Pos2Z.pos_le_pos in H. rewrite Pos2Z.inj_pow in H.
  assert (2 ^ Zpos (Pos.size m) = 2 * 2 ^ (Zpos (Pos.size m) - 1)) as E.
  { rewrite <- Z.pow_succ_r by lia. f_equal. lia. }
  lia.
Qed.

(** A canonical mantissa has at most 53 bits, and exactly 53 above the
    smallest exponent. *)
Lemma bounded_facts m e :
  bounded prec emax m e = true ->
  Zpos m < 2 ^ 53 /\ -1074 <= e /\ (-1074 < e -> 2 ^ 52 <= Zpos m).
Proof.
  unfold bounded, canonical_mantissa, fexp, SpecFloat.emin, prec, emax.
  intros H. apply andb_prop in H. destruct H as [H _].
  apply Z.eqb_eq in H.
  pose proof (digits2_upper m) as Hu.
  pose proof (digits2_lower m) as Hl.
  set (d := Zpos (digits2_pos m)) in *.
  assert (0 < d) by (unfold d; lia).
  split; [|split].
  - assert (d <= 53) by lia.
    eapply Z.lt_le_trans; [exact Hu|]. apply Z.pow_le_mono_r; lia.
  - lia.
  - intros He. assert (d = 53) by lia.
    replace (d - 1) with 52 in Hl by lia. exact Hl.
Qed.

(** Of two canonical values, the one with the larger exponent is larger. *)
Lemma aligned_dominates m1 e1 m2 e2 :
  bounded prec emax m1 e1 = true -> bounded prec emax m2 e2 = true ->
  e2 < e1 -> Zpos m2 < Zpos m1 * 2 ^ (e1 - e2).
Proof.
  intros B1 B2 H.
  destruct (bounded_facts _ _ B1) as (_ & _ & L1).
  destruct (bounded_facts _ _ B2) as (U2 & E2 & _).
  specialize (L1 ltac:(lia)).
  assert (2 ^ 1 <= 2 ^ (e1 - e2)) by (apply Z.pow_le_mono_r; lia).
  change (2 ^ 1) with 2 in *.
  change (2 ^ 53) with (2 ^ 52 * 2) in U2.
  nia.
Qed.

Lemma SFsub_not_below_zero x y :
  valid_binary x = true -> valid_binary y = true ->
  SFltb x y = false ->
  SFltb (SFsub prec emax x y) (S754_zero false) = false.
Proof.
  intros Vx Vy H. apply sf_not_negative_ltb.
  destruct x as [sx|sx| |sx mx ex], y as [sy|sy| |sy my ey];
    try (destruct sx); try (destruct sy); try reflexivity; try discriminate H;
    try exact H.
  all: unfold SFsub; apply binary_normalize_not_negative.
  all: simpl in Vx, Vy; unfold SFltb, SFcompare in H;
    unfold cond_Zopp; cbv beta iota.
  - (* both below zero *)
    destruct (Z.compare_spec ex ey) as [E|E|E]; try discriminate H.
    + subst ey. rewrite Z.min_id, !shl_align_value, Z.sub_diag by lia.
      rewrite Pos.compare_cont_spec in H. simpl in H.
      destruct (Pos.compare_spec mx my); simpl in H; try discriminate H; lia.
    + rewrite Z.min_l by lia. rewrite !shl_align_value, Z.sub_diag by lia.
      pose proof (aligned_dominates my ey mx ex Vy Vx E). lia.
  - (* x above zero, y below *)
    pose proof (Pos2Z.is_pos (fst (shl_align mx ex (Z.min ex ey)))).
    pose proof (Pos2Z.is_pos (fst (shl_align my ey (Z.min ex ey)))).
    lia.
  - (* both above zero *)
    destruct (Z.compare_spec ex ey) as [E|E|E]; try discriminate H.
    + subst ey. rewrite Z.min_id, !shl_align_value, Z.sub_diag by lia.
      rewrite Pos.compare_cont_spec in H. simpl in H.
      destruct (Pos.compare_spec mx my); simpl in H; try discriminate H; lia.
    + rewrite Z.min_r by lia. rewrite !shl_align_value, Z.sub_diag by lia.
      pose proof (aligned_dominates mx ex my ey Vx Vy E). lia.
Qed.

End Float_facts.

(** [x - y] is not below zero unless [x < y]. *)
Lemma sub_not_below_zero (x y : float) :
  (x <? y)%float = false -> (x - y <? 0)%float = false.
Proof.
  rewrite !ltb_spec, sub_spec. intros H.
  change (Prim2SF 0) with (S754_zero false).
  apply SFsub_not_below_zero; auto using Prim2SF_valid.
Qed.

(** A value that is a number and not below zero is at least zero. *)
Lemma not_below_zero_le (x : float) :
  (x <? 0)%float = false -> (x =? x)%float = true -> (0 <=? x)%float = true.
Proof.
  rewrite ltb_spec, eqb_spec, leb_spec.
  change (Prim2SF 0) with (S754_zero false).
  destruct (Prim2SF x) as [s|s| |s m e]; try destruct s; simpl; intros;
    try discriminate; reflexivity.
Qed.

Lemma digits2_iter_xO m k :
  Zpos (digits2_pos (Pos.iter xO m k)) = Zpos (digits2_pos m) + Zpos k.
Proof.
  induction k as [|k IH] using Pos.peano_ind.
  - simpl. lia.
  - rewrite Pos.iter_succ. simpl digits2_pos. rewrite Pos2Z.inj_succ, IH. lia.
Qed.

Lemma digits2_small m : Zpos m < 2 ^ 53 -> Zpos (digits2_pos m) <= 53.
Proof.
  intros H. pose proof (digits2_lower m) as L.
  destruct (Z_le_gt_dec (Zpos (digits2_pos m)) 53) as [|G]; auto.
  exfalso.
  assert (2 ^ 53 <= 2 ^ (Zpos (digits2_pos m) - 1)) by (apply Z.pow_le_mono_r; lia).
  lia.
Qed.

(** An integer of at most 53 bits is a binary64 as it stands. *)
Lemma binary_round_exact s m :
  Zpos (digits2_pos m) <= 53 ->
  exists mz ez,
    binary_round prec emax s m 0 = S754_finite s mz ez /\
    bounded prec emax mz ez = true.
Proof.
  intros D. unfold binary_round.
  set (d := Zpos (digits2_pos m)) in *.
  assert (fexp prec emax (d + 0) = d - 53) as F.
  { unfold fexp, SpecFloat.emin, prec, emax. lia. }
  rewrite F.
  assert (exists mz, shl_align m 0 (d - 53) = (mz, d - 53) /\
                     Zpos (digits2_pos mz) = 53) as (mz & -> & Dz).
  { unfold shl_align. destruct (d - 53 - 0) as [|k|k] eqn:E; try lia.
    - exists m. split; [f_equal; lia | fold d; lia].
    - exists (Pos.iter xO m k). split; [reflexivity|].
      rewrite digits2_iter_xO. fold d. lia. }
  exists mz, (d - 53).
  assert (fexp prec emax (53 + (d - 53)) = d - 53) as F2.
  { unfold fexp, SpecFloat.emin, prec, emax. unfold d. lia. }
  split.
  - unfold binary_round_aux, shr_fexp. cbn [Zdigits2].
    rewrite Dz, F2, Z.sub_diag.
    cbn [shr shr_record_of_loc shr_m loc_of_shr_record round_nearest_even Zdigits2].
    rewrite Dz, F2, Z.sub_diag.
    cbn [shr shr_record_of_loc shr_m].
    replace (d - 53 <=? emax - prec) with true; [reflexivity|].
    symmetry. apply Z.leb_le. unfold emax, prec. lia.
  - unfold bounded, canonical_mantissa. rewrite Dz, F2, Z.eqb_refl. cbn [andb].
    apply Z.leb_le. unfold emax, prec. lia.
Qed.

Lemma finite_not_infinity x :
  valid_binary x = true ->
  match x with S754_finite _ _ _ | S754_zero _ => True | _ => False end ->
  is_infinity (SF2Prim x) = false.
Proof.
  intros V F. unfold is_infinity.
  rewrite eqb_spec, abs_spec, Prim2SF_SF2Prim by exact V.
  change (Prim2SF infinity) with (S754_infinity false).
  destruct x; try contradiction; reflexivity.
Qed.

(** [float(n)] does not overflow on an integer a number input can hold. *)
Lemma of_int_small n :
  - 2 ^ 53 < n < 2 ^ 53 -> exists f, PyFloat.of_int n = Ret f.
Proof.
  intros B. unfold PyFloat.of_int.
  destruct n as [|m|m]; simpl binary_normalize.
  - eexists. reflexivity.
  - destruct (binary_round_exact false m) as (mz & ez & E & V).
    { apply digits2_small. lia. }
    rewrite E, finite_not_infinity; eauto.
  - destruct (binary_round_exact true m) as (mz & ez & E & V).
    { apply digits2_small. lia. }
    rewrite E, finite_not_infinity; eauto.
Qed.

Lemma mul_int_small x n :
  - 2 ^ 53 < n < 2 ^ 53 -> exists v, PyFloat.mul_int x n = Ret v.
Proof.
  intros B. destruct (of_int_small n B) as [f Hf].
  unfold PyFloat.mul_int. rewrite Hf. simpl. eauto.
Qed.

(* ================================================================= *)
(** ** Dictionary facts *)

Section Dict_facts.
Context {V : Type}.
Implicit Types (d : dict V) (k : string) (v : V).

Lemma dict_get_set_same k v d : dict_get k (dict_set k v d) = Some v.
Proof.
  induction d as [|[k' v'] r IH]; simpl.
  - rewrite String.eqb_refl. reflexivity.
  - destruct (String.eqb k' k) eqn:E; simpl; rewrite E; auto.
Qed.

Lemma dict_get_set_other k k' v d :
  k' <> k -> dict_get k' (dict_set k v d) = dict_get k' d.
Proof.
  intros N. induction d as [|[k0 v0] r IH]; simpl.
  - destruct (String.eqb_spec k k'); congruence.
  - destruct (String.eqb_spec k0 k); simpl.
    + subst k0. destruct (String.eqb_spec k k'); congruence.
    + destruct (String.eqb k0 k'); auto.
Qed.

Lemma dict_get_del_same k d : dict_get k (dict_del k d) = None.
Proof.
  induction d as [|[k' v'] r IH]; simpl; auto.
  destruct (String.eqb k' k) eqn:E; simpl; auto. rewrite E. exact IH.
Qed.

Lemma dict_get_del_other k k' d :
  k' <> k -> dict_get k' (dict_del k d) = dict_get k' d.
Proof.
  intros N. induction d as [|[k0 v0] r IH]; simpl; auto.
  destruct (String.eqb_spec k0 k); simpl.
  - subst k0. destruct (String.eqb_spec k k'); congruence.
  - destruct (String.eqb k0 k'); auto.
Qed.

Lemma dict_get_In k v d : dict_get k d = Some v -> In (k, v) d.
Proof.
  induction d as [|[k' v'] r IH]; simpl; try discriminate.
  destruct (String.eqb_spec k' k); intros H.
  - inversion H; subst. left; reflexivity.
  - right; auto.
Qed.

Lemma dict_keys_set k v d :
  dict_keys (dict_set k v d) =
  if PyStr.mem k (dict_keys d) then dict_keys d else (dict_keys d ++ [k])%list.
Proof.
  induction d as [|[k' v'] r IH]; simpl; auto.
  destruct (String.eqb k' k) eqn:E; simpl; auto.
  unfold dict_keys in *. rewrite IH.
  destruct (PyStr.mem k (map fst r)); reflexivity.
Qed.

Lemma Forall_dict_set (P : string * V -> Prop) k v d :
  Forall P d -> P (k, v) -> Forall P (dict_set k v d).
Proof.
  intros H Hk. induction H as [|[k' v'] r Hx Hr IH]; simpl.
  - constructor; auto.
  - destruct (String.eqb_spec k' k).
    + subst k'. constructor; auto.
    + constructor; auto.
Qed.

Lemma Forall_dict_del (P : string * V -> Prop) k d :
  Forall P d -> Forall P (dict_del k d).
Proof.
  intros H. induction H as [|[k' v'] r Hx Hr IH]; simpl; auto.
  destruct (String.eqb k' k); auto.
Qed.

Lemma In_keys_del x k d : In x (dict_keys (dict_del k d)) -> In x (dict_keys d).
Proof.
  induction d as [|[k' v'] r IH]; simpl; auto.
  destruct (String.eqb k' k); simpl; intuition.
Qed.

Lemma NoDup_keys_del k d : NoDup (dict_keys d) -> NoDup (dict_keys (dict_del k d)).
Proof.
  induction d as [|[k' v'] r IH]; simpl; auto.
  intros H. inversion H; subst.
  destruct (String.eqb k' k); simpl; auto.
  constructor; auto. intros Hin. apply In_keys_del in Hin. auto.
Qed.

Lemma dict_del_set k v d : dict_del k (dict_set k v d) = dict_del k d.
Proof.
  induction d as [|[k' v'] r IH]; simpl.
  - rewrite String.eqb_refl. reflexivity.
  - destruct (String.eqb k' k) eqn:E; simpl; rewrite E; congruence.
Qed.

End Dict_facts.

(* ================================================================= *)
(** ** String and list facts *)

Lemma mem_In x l : PyStr.mem x l = true <-> In x l.
Proof.
  induction l as [|y r IH]; simpl.
  - split; [discriminate | tauto].
  - destruct (String.eqb_spec y x).
    + split; auto.
    + rewrite IH. split; auto. intros [H|H]; congruence.
Qed.

Lemma mem_false_In x l : PyStr.mem x l = false <-> ~ In x l.
Proof.
  rewrite <- mem_In. destruct (PyStr.mem x l); split; congruence.
Qed.

Lemma append_empty (s : string) : (s ++ "")%string = s.
Proof. induction s as [|a r IH]; simpl; congruence. Qed.

Lemma width_cases a :
  PyStr.width a = 1%nat \/ PyStr.width a = 2%nat \/
  PyStr.width a = 3%nat \/ PyStr.width a = 4%nat.
Proof.
  unfold PyStr.width.
  destruct (_ <? 192)%N; auto. destruct (_ <? 224)%N; auto.
  destruct (_ <? 240)%N; auto. destruct (_ <? 248)%N; auto.
Qed.

(** A whole character is split off as it stands. *)
Lemma whole_chars c t :
  PyStr.whole c = true -> PyStr.chars (c ++ t) = c :: PyStr.chars t.
Proof.
  destruct c as [|a r]; [discriminate|].
  unfold PyStr.whole. intros H. apply Nat.eqb_eq in H.
  destruct (width_cases a) as [W|[W|[W|W]]]; rewrite W in H;
    destruct r as [|b [|c [|d [|e r]]]]; try discriminate H;
    cbn [append PyStr.chars]; rewrite W; reflexivity.
Qed.

Lemma whole_nonempty c : PyStr.whole c = true -> c <> "".
Proof. destruct c; [discriminate | discriminate]. Qed.

Lemma chars_split_join s :
  well_split (PyStr.chars s) /\ PyStr.join (PyStr.chars s) = s.
Proof.
  assert (forall n s, (String.length s < n)%nat ->
            well_split (PyStr.chars s) /\ PyStr.join (PyStr.chars s) = s) as G.
  { induction n as [|n IH]; intros s0 L; [lia|].
    destruct s0 as [|a r]; [split; [constructor | reflexivity]|].
    cbn [PyStr.chars].
    destruct (width_cases a) as [W|[W|[W|W]]]; rewrite W.
    - destruct (IH r) as [I1 I2]; [simpl in L; lia|].
      split; [|simpl; rewrite I2; reflexivity].
      apply split_cons; auto. unfold PyStr.whole. rewrite W. reflexivity.
    - destruct r as [|b r].
      + split; [|reflexivity]. apply split_last; [discriminate|].
        cbn [PyStr.chars]. rewrite W. reflexivity.
      + destruct (IH r) as [I1 I2]; [simpl in L; lia|].
        split; [|simpl; rewrite I2; reflexivity].
        apply split_cons; auto. unfold PyStr.whole. rewrite W. reflexivity.
    - destruct r as [|b [|c r]].
      + split; [|reflexivity]. apply split_last; [discriminate|].
        cbn [PyStr.chars]. rewrite W. reflexivity.
      + split; [|reflexivity]. apply split_last; [discriminate|].
        cbn [PyStr.chars]. rewrite W. reflexivity.
      + destruct (IH r) as [I1 I2]; [simpl in L; lia|].
        split; [|simpl; rewrite I2; reflexivity].
        apply split_cons; auto. unfold PyStr.whole. rewrite W. reflexivity.
    - destruct r as [|b [|c [|d r]]].
      + split; [|reflexivity]. apply split_last; [discriminate|].
        cbn [PyStr.chars]. rewrite W. reflexivity.
      + split; [|reflexivity]. apply split_last; [discriminate|].
        cbn [PyStr.chars]. rewrite W. reflexivity.
      + split; [|reflexivity]. apply split_last; [discriminate|].
        cbn [PyStr.chars]. rewrite W. reflexivity.
      + destruct (IH r) as [I1 I2]; [simpl in L; lia|].
        split; [|simpl; rewrite I2; reflexivity].
        apply split_cons; auto. unfold PyStr.whole. rewrite W. reflexivity. }
  apply (G (S (String.length s))). lia.
Qed.

Lemma chars_join l : well_split l -> PyStr.chars (PyStr.join l) = l.
Proof.
  induction 1 as [|c N C|c l W S IH]; auto.
  - simpl. rewrite append_empty. exact C.
  - simpl. rewrite whole_chars, IH by exact W. reflexivity.
Qed.

Lemma well_split_app l1 l2 :
  Forall (fun c => PyStr.whole c = true) l1 -> well_split l2 ->
  well_split (l1 ++ l2)%list.
Proof.
  induction 1; simpl; auto. intros. apply split_cons; auto.
Qed.

Lemma well_split_nonempty l :
  well_split l -> Forall (fun c => c <> "") l.
Proof.
  induction 1; constructor; auto using whole_nonempty.
Qed.

Lemma settled_spec d :
  settled d = true -> PyStr.whole d = true /\ PyStr.upper_char d = [d].
Proof.
  unfold settled. intros H. apply andb_prop in H. destruct H as [W H].
  split; [exact W|].
  destruct (PyStr.upper_char d) as [|d' [|]]; try discriminate H.
  apply String.eqb_eq in H. subst d'. reflexivity.
Qed.

Lemma upper_table_settled :
  forallb (fun kv => match snd kv with
                     | [] => false
                     | out => forallb (fun m => settled (PyStr.utf8 m)) out
                     end) PyStr.upper_table = true.
Proof. vm_compute. reflexivity. Qed.

Lemma assoc_In n t out : PyStr.assoc n t = Some out -> In (n, out) t.
Proof.
  induction t as [|[k v] r IH]; simpl; [discriminate|].
  destruct (N.eqb_spec k n); intros H.
  - inversion H; subst. left. reflexivity.
  - right. auto.
Qed.

Lemma capitals_settled :
  forallb (fun k => settled (PyStr.utf8 (65 + N.of_nat k))) (seq 0 26) = true.
Proof. vm_compute. reflexivity. Qed.

Lemma capital_settled n :
  (97 <= n <= 122)%N -> settled (PyStr.utf8 (n - 32)) = true.
Proof.
  intros H. pose proof capitals_settled as S. rewrite forallb_forall in S.
  replace (n - 32)%N with (65 + N.of_nat (N.to_nat (n - 97)))%N by lia.
  apply S. apply in_seq. lia.
Qed.

Lemma upper_char_cases c :
  PyStr.upper_char c = [c] \/
  (PyStr.upper_char c <> [] /\
   Forall (fun d => settled d = true) (PyStr.upper_char c)).
Proof.
  unfold PyStr.upper_char, PyStr.code_point.
  set (n := match c with String _ _ => _ | _ => _ end).
  destruct (String.eqb_spec (PyStr.utf8 n) c) as [E|E]; [|auto].
  unfold PyStr.upper_point.
  destruct ((97 <=? n)%N && (n <=? 122)%N) eqn:A.
  - right. split; [discriminate|]. constructor; [|constructor].
    apply capital_settled. apply andb_prop in A. destruct A as [A1 A2].
    apply N.leb_le in A1, A2. lia.
  - destruct (n <? 128)%N; [left; simpl; congruence|].
    destruct (PyStr.assoc n PyStr.upper_table) as [out|] eqn:T;
      [|left; simpl; congruence].
    right. apply assoc_In in T.
    pose proof upper_table_settled as S. rewrite forallb_forall in S.
    specialize (S _ T). cbn [snd] in S.
    destruct out as [|m out]; [discriminate S|].
    split; [discriminate|].
    apply Forall_forall. intros d Hd. apply in_map_iff in Hd.
    destruct Hd as (m' & <- & Hm).
    rewrite forallb_forall in S. apply S. exact Hm.
Qed.

Lemma upper_char_again c :
  flat_map PyStr.upper_char (PyStr.upper_char c) = PyStr.upper_char c.
Proof.
  destruct (upper_char_cases c) as [E|[_ F]].
  - rewrite E. simpl. rewrite E. reflexivity.
  - induction F as [|d l Hd _ IH]; simpl; auto.
    rewrite (proj2 (settled_spec _ Hd)), IH. reflexivity.
Qed.

Lemma upper_chars_split l :
  well_split l -> well_split (flat_map PyStr.upper_char l).
Proof.
  induction 1 as [|c N C|c l W S IH]; simpl.
  - constructor.
  - rewrite app_nil_r. destruct (upper_char_cases c) as [E|[_ F]].
    + rewrite E. apply split_last; auto.
    + rewrite <- (app_nil_r (PyStr.upper_char c)).
      apply well_split_app; [|constructor].
      eapply Forall_impl; [|exact F]. intros d Hd. apply (settled_spec _ Hd).
  - destruct (upper_char_cases c) as [E|[_ F]].
    + rewrite E. simpl. apply split_cons; auto.
    + apply well_split_app; auto.
      eapply Forall_impl; [|exact F]. intros d Hd. apply (settled_spec _ Hd).
Qed.

Lemma flat_map_again (l : list string) :
  flat_map PyStr.upper_char (flat_map PyStr.upper_char l)
  = flat_map PyStr.upper_char l.
Proof.
  induction l as [|c r IH]; simpl; auto.
  rewrite flat_map_app, upper_char_again, IH. reflexivity.
Qed.

(** [upper] changes nothing in what it has made. *)
Lemma upper_idem x : PyStr.upper (PyStr.upper x) = PyStr.upper x.
Proof.
  unfold PyStr.upper.
  rewrite chars_join
    by (apply upper_chars_split; apply (proj1 (chars_split_join x))).
  rewrite flat_map_again. reflexivity.
Qed.

Lemma upper_char_nonempty c :
  c <> "" -> exists d l, PyStr.upper_char c = d :: l /\ d <> "".
Proof.
  intros N. destruct (upper_char_cases c) as [E|[Z F]].
  - exists c, []. auto.
  - destruct (PyStr.upper_char c) as [|d l]; [congruence|].
    exists d, l. split; [reflexivity|].
    inversion F; subst. apply whole_nonempty.
    apply (settled_spec d). assumption.
Qed.

Lemma upper_nonempty x : x <> "" -> PyStr.upper x <> "".
Proof.
  intros N. unfold PyStr.upper.
  destruct (chars_split_join x) as [S J].
  destruct (PyStr.chars x) as [|c l] eqn:E.
  - simpl in J. congruence.
  - apply well_split_nonempty in S. inversion S; subst.
    destruct (upper_char_nonempty c) as (d & l' & U & D); auto.
    simpl. rewrite U. simpl. destruct d; [congruence | discriminate].
Qed.

Lemma rstrip_idem l : PyStr.rstrip (PyStr.rstrip l) = PyStr.rstrip l.
Proof.
  induction l as [|c r IH]; simpl; auto.
  destruct (PyStr.rstrip r) as [|c' r'] eqn:E.
  - destruct (PyStr.is_space c) eqn:S; simpl; auto. rewrite S. reflexivity.
  - simpl in *. rewrite IH. reflexivity.
Qed.

Lemma rstrip_head c r :
  PyStr.is_space c = false -> exists r', PyStr.rstrip (c :: r) = c :: r'.
Proof.
  intros S. simpl. destruct (PyStr.rstrip r); [rewrite S|]; eauto.
Qed.

Lemma lstrip_head l :
  PyStr.lstrip l = [] \/
  exists c r, PyStr.lstrip l = c :: r /\ PyStr.is_space c = false.
Proof.
  induction l as [|c r IH]; simpl; auto.
  destruct (PyStr.is_space c) eqn:S; eauto.
Qed.

Lemma strip_chars_idem l :
  PyStr.rstrip (PyStr.lstrip (PyStr.rstrip (PyStr.lstrip l)))
  = PyStr.rstrip (PyStr.lstrip l).
Proof.
  destruct (lstrip_head l) as [E|(c & r & E & S)]; rewrite E.
  - reflexivity.
  - destruct (rstrip_head c r S) as [r' E'].
    rewrite E'. simpl PyStr.lstrip. rewrite S, <- E'. apply rstrip_idem.
Qed.

Lemma lstrip_split l : well_split l -> well_split (PyStr.lstrip l).
Proof.
  induction 1 as [|c N C|c l W S IH]; simpl.
  - constructor.
  - destruct (PyStr.is_space c); [constructor | apply split_last; auto].
  - destruct (PyStr.is_space c); [exact IH | apply split_cons; auto].
Qed.

Lemma rstrip_split l : well_split l -> well_split (PyStr.rstrip l).
Proof.
  induction 1 as [|c N C|c l W S IH]; simpl.
  - constructor.
  - destruct (PyStr.is_space c); [constructor | apply split_last; auto].
  - destruct (PyStr.rstrip l) as [|c' r'].
    + destruct (PyStr.is_space c); [constructor|].
      apply split_cons; [exact W | constructor].
    + apply split_cons; auto.
Qed.

(** Stripping what has been stripped changes nothing. *)
Lemma strip_idem s : PyStr.strip (PyStr.strip s) = PyStr.strip s.
Proof.
  unfold PyStr.strip.
  rewrite chars_join.
  - rewrite strip_chars_idem. reflexivity.
  - apply rstrip_split, lstrip_split. apply (proj1 (chars_split_join s)).
Qed.

Lemma strip_truthy s :
  PyStr.truthy (PyStr.strip s) = true -> PyStr.truthy s = true.
Proof. destruct s; auto. Qed.

Lemma truthy_nonempty s : PyStr.truthy s = true <-> s <> "".
Proof. destruct s; simpl; split; congruence. Qed.

Lemma NoDup_snoc (x : string) l : NoDup l -> ~ In x l -> NoDup (l ++ [x]).
Proof.
  intros H N. induction H as [|y r Hy Hr IH]; simpl.
  - constructor; auto. constructor.
  - constructor.
    + rewrite in_app_iff. simpl. intros [H1|[H1|[]]]; auto.
      subst. apply N. left; reflexivity.
    + apply IH. intros H1. apply N. right; exact H1.
Qed.

Lemma In_remove_first x y l : In y (PyStr.remove_first x l) -> In y l.
Proof.
  induction l as [|z r IH]; simpl; auto.
  destruct (String.eqb z x); simpl; intuition.
Qed.

Lemma NoDup_remove_first x l : NoDup l -> NoDup (PyStr.remove_first x l).
Proof.
  induction l as [|z r IH]; simpl; auto.
  intros H. inversion H; subst.
  destruct (String.eqb z x); auto.
  constructor; auto. intros Hin. apply In_remove_first in Hin. auto.
Qed.

Lemma Forall_remove_first (P : string -> Prop) x l :
  Forall P l -> Forall P (PyStr.remove_first x l).
Proof.
  intros H. induction H as [|z r Hz Hr IH]; simpl; auto.
  destruct (String.eqb z x); auto.
Qed.

Lemma NoDup_keys_set {V : Type} k (v : V) d :
  NoDup (dict_keys d) -> NoDup (dict_keys (dict_set k v d)).
Proof.
  intros H. rewrite dict_keys_set.
  destruct (PyStr.mem k (dict_keys d)) eqn:E; auto.
  apply NoDup_snoc; auto. apply mem_false_In; exact E.
Qed.

Lemma Forall_keys_set {V : Type} (P : string -> Prop) k (v : V) d :
  Forall P (dict_keys d) -> P k -> Forall P (dict_keys (dict_set k v d)).
Proof.
  intros H Hk. rewrite dict_keys_set.
  destruct (PyStr.mem k (dict_keys d)); auto.
  apply Forall_app; split; auto.
Qed.

Lemma Forall_keys_del {V : Type} (P : string -> Prop) k (d : dict V) :
  Forall P (dict_keys d) -> Forall P (dict_keys (dict_del k d)).
Proof.
  rewrite !Forall_forall. intros H x Hx. apply H.
  apply In_keys_del in Hx. exact Hx.
Qed.

(* ================================================================= *)
(** ** The scenarios of the design, run on the model *)

(** Start with 10000.00; buy 5 AAPL at 132.50, 5 more at 150.00, sell 10 at
    160.00. *)
Example scenario_buy_buy_sell :
  let s0 := logged_in 10000 [] [] in
  let s1 := after (buy_trade s0 "AAPL" 5 132.5) in
  let s2 := after (buy_trade s1 "AAPL" 5 150) in
  let s3 := after (sell_trade s2 "AAPL" 10 160) in
  s1 = logged_in 9337.5 (one_position "AAPL" 5 132.5) [] /\
  s2 = logged_in 8587.5 (one_position "AAPL" 10 141.25) [] /\
  s3 = logged_in 10187.5 [] [].
Proof. vm_compute. repeat split; reflexivity. Qed.

(** With 100.00, buying 5 shares at 30.00 is refused. *)
Example scenario_insufficient_funds :
  buy_trade (logged_in 100 [] []) "AAPL" 5 30
  = done (logged_in 100 [] []) [(st_error, Insufficient_funds)].
Proof. vm_compute. reflexivity. Qed.

(** Add TSLA, add it again, remove it. *)
Example scenario_watchlist :
  let s0 := logged_in 10000 [] [] in
  let s1 := after (watch_add s0 "TSLA") in
  let s2 := after (watch_add s1 "TSLA") in
  let s3 := after (remove_buttons s2 (asks_to_remove "TSLA") (watchlist s2) []) in
  watchlist s1 = ["TSLA"] /\ s2 = s1 /\ watchlist s3 = [].
Proof. vm_compute. repeat split; reflexivity. Qed.

(** The Buy page upper-cases what was typed and trades at the last close. *)
Example scenario_buy_page :
  after (script (logged_in 10000 [] []) (flat_market 160)
           (asking_to_buy "aapl" 3))
  = logged_in 9520 (one_position "AAPL" 3 160) [].
Proof. vm_compute. reflexivity. Qed.

(* ================================================================= *)
(** ** Buying *)

Lemma mul_int_inv x n v :
  PyFloat.mul_int x n = Ret v ->
  exists fn, PyFloat.of_int n = Ret fn /\ v = (x * fn)%float.
Proof.
  unfold PyFloat.mul_int, py_bind.
  destruct (PyFloat.of_int n) as [fn|e]; intros H; inversion H; eauto.
Qed.

(** What a successful run of lines 278-291 did. *)
Lemma buy_trade_succeeded s sym q price :
  succeeded (buy_trade s sym q price) = true ->
  exists cost p,
    PyFloat.mul_int price q = Ret cost /\
    (cash s <? cost)%float = false /\
    bought_position (dict_get sym (holdings s)) q price = Ret p /\
    buy_trade s sym q price =
      done (with_cash (with_holdings s (dict_set sym p (holdings s)))
                      (cash s - cost)%float)
           [(st_success, Bought q sym price cost)].
Proof.
  unfold buy_trade.
  destruct (PyFloat.mul_int price q) as [cost|e]; [|discriminate].
  destruct (cash s <? cost)%float eqn:L; [discriminate|].
  destruct (bought_position (dict_get sym (holdings s)) q price) as [p|e];
    [|discriminate].
  intros _. exists cost, p. auto.
Qed.

Lemma search_buy_trade_succeeded s sym q price :
  succeeded (search_buy_trade s sym q price) = true ->
  exists cost p,
    PyFloat.mul_int price q = Ret cost /\
    (cash s <? cost)%float = false /\
    bought_position (dict_get sym (holdings s)) q price = Ret p /\
    search_buy_trade s sym q price =
      done (with_cash (with_holdings s (dict_set sym p (holdings s)))
                      (cash s - cost)%float)
           [(st_success, Bought_from_search q sym price)].
Proof.
  unfold search_buy_trade.
  destruct (PyFloat.mul_int price q) as [cost|e]; [|discriminate].
  destruct (cash s <? cost)%float eqn:L; [discriminate|].
  destruct (bought_position (dict_get sym (holdings s)) q price) as [p|e];
    [|discriminate].
  intros _. exists cost, p. auto.
Qed.

(** The two purchase handlers change the session in the same way. *)
Lemma search_buy_trade_after s sym q price :
  after (search_buy_trade s sym q price) = after (buy_trade s sym q price).
Proof.
  unfold search_buy_trade, buy_trade.
  destruct (PyFloat.mul_int price q) as [cost|e]; auto.
  destruct (cash s <? cost)%float; auto.
  destruct (bought_position _ q price); auto.
Qed.

Lemma buy_trade_cash_not_below_zero s sym q price :
  (cash s <? 0)%float = false ->
  (cash (after (buy_trade s sym q price)) <? 0)%float = false.
Proof.
  intros H0. unfold buy_trade.
  destruct (PyFloat.mul_int price q) as [cost|e]; auto.
  destruct (cash s <? cost)%float eqn:L; auto.
  destruct (bought_position _ q price); auto.
  simpl. apply sub_not_below_zero. exact L.
Qed.

(** C1. A purchase whose cost [price * quantity] exceeds the cash is refused
    with the insufficient-funds error by both purchase handlers (Buy page,
    lines 278-291; Buy from Search, lines 371-384) and the session, cash and
    holdings included, stays as it was.  Consequently a purchase never takes
    cash below zero: cash that was not below zero before a purchase is not
    below zero after it, whatever its outcome, and is at least zero when it is
    a number.  The comparison and the product are the script's binary64 ones;
    the product is defined for every quantity a number input can hold. *)
Theorem buy_refused_when_cash_short (s : session) (sym : string) (q : Z)
    (price : float) :
  1 <= q ->
  (forall cost,
      PyFloat.mul_int price q = Ret cost ->
      (cash s <? cost)%float = true ->
      buy_trade s sym q price = done s [(st_error, Insufficient_funds)] /\
      search_buy_trade s sym q price = done s [(st_error, Insufficient_cash)] /\
      errors_of (buy_trade s sym q price) = [InsufficientFunds] /\
      errors_of (search_buy_trade s sym q price) = [InsufficientFunds]) /\
  (q <= JS_MAX_SAFE_INTEGER -> exists cost, PyFloat.mul_int price q = Ret cost) /\
  ((cash s <? 0)%float = false ->
   (cash (after (buy_trade s sym q price)) <? 0)%float = false /\
   (cash (after (search_buy_trade s sym q price)) <? 0)%float = false /\
   (PyFloat.is_number (cash (after (buy_trade s sym q price))) = true ->
    (0 <=? cash (after (buy_trade s sym q price)))%float = true)).
Proof.
  intros Hq. split; [|split].
  - intros cost Hc Hlt. unfold buy_trade, search_buy_trade, errors_of.
    rewrite Hc, Hlt. repeat split; reflexivity.
  - intros Hmax. apply mul_int_small. unfold JS_MAX_SAFE_INTEGER in Hmax. lia.
  - intros H0. rewrite search_buy_trade_after.
    pose proof (buy_trade_cash_not_below_zero s sym q price H0) as H1.
    repeat split; auto.
    intros Hn. apply not_below_zero_le; assumption.
Qed.

Lemma buy_refused_when_cash_short_witness :
  1 <= 5 /\
  buy_trade (logged_in 100 [] []) "AAPL" 5 30
  = done (logged_in 100 [] []) [(st_error, Insufficient_funds)] /\
  (cash (after (buy_trade (logged_in 100 [] []) "AAPL" 3 30)) <? 0)%float = false.
Proof.
  split; [lia|]. split.
  - apply (proj1 (buy_refused_when_cash_short (logged_in 100 [] []) "AAPL" 5 30
                    ltac:(lia)) 150%float);
      vm_compute; reflexivity.
  - apply (proj2 (proj2 (buy_refused_when_cash_short (logged_in 100 [] []) "AAPL" 3 30
                    ltac:(lia)))).
    vm_compute; reflexivity.
Defined.

(** The cost compared with the cash is the rounded product: ten shares at
    the double 0.1 cost 1.0, although ten times that double is a little more,
    and with cash 1.0 the purchase goes through and leaves 0.0. *)
Example buy_at_rounded_cost :
  PyFloat.mul_int 0.1 10 = Ret 1%float /\
  after (buy_trade (logged_in 1 [] []) "AAPL" 10 0.1)
  = logged_in 0 (one_position "AAPL" 10 0.1) [].
Proof. vm_compute. split; reflexivity. Qed.

(** A last close that is not a number is below nothing and above nothing: the
    purchase goes through and cash is no number afterwards. *)
Example buy_at_nan_price :
  succeeded (buy_trade (logged_in 100 [] []) "AAPL" 1 nan) = true /\
  PyFloat.is_number (cash (after (buy_trade (logged_in 100 [] []) "AAPL" 1 nan)))
  = false.
Proof. vm_compute. split; reflexivity. Qed.

Lemma bought_position_new q price :
  bought_position None q price
  = Ret {| qty := q; avg_price := PyFloat.round2 price |}.
Proof. reflexivity. Qed.

Lemma bought_position_old old q price p :
  bought_position (Some old) q price = Ret p ->
  exists fo fq ft,
    PyFloat.of_int (qty old) = Ret fo /\
    PyFloat.of_int q = Ret fq /\
    PyFloat.of_int (qty old + q) = Ret ft /\
    p = {| qty := qty old + q;
           avg_price :=
             PyFloat.round2 ((avg_price old * fo + price * fq) / ft)%float |}.
Proof.
  unfold bought_position, PyFloat.mul_int, PyFloat.truediv_int, py_bind.
  destruct (PyFloat.of_int (qty old)) as [fo|e]; [|discriminate].
  destruct (PyFloat.of_int q) as [fq|e]; [|discriminate].
  destruct (PyFloat.of_int (qty old + q)) as [ft|e]; [|discriminate].
  destruct (ft =? 0)%float; [discriminate|].
  intros H. inversion H. exists fo, fq, ft. auto.
Qed.

Lemma bought_position_qty cur q price p :
  bought_position cur q price = Ret p ->
  qty p = match cur with Some old => qty old | None => 0 end + q.
Proof.
  destruct cur as [old|].
  - intros H. apply bought_position_old in H.
    destruct H as (fo & fq & ft & _ & _ & _ & ->). reflexivity.
  - rewrite bought_position_new. intros H. inversion H. reflexivity.
Qed.

(** C2, as the code has it.  After a successful purchase of [q] shares at
    [price] (either handler): cash is debited by exactly the cost
    [price * q]; a symbol without a position gets one with quantity [q] and
    average cost [round(price, 2)] (the price rounded to two places, not the
    price itself); an existing position gets quantity [old + q] and average cost
    [round((old_avg * old + price * q) / (old + q), 2)]; the other holdings
    and the watchlist stay as they were. *)
Theorem buy_effect (s : session) (sym : string) (q : Z) (price : float)
    (r : run) :
  r = buy_trade s sym q price \/ r = search_buy_trade s sym q price ->
  succeeded r = true ->
  exists fq,
    PyFloat.of_int q = Ret fq /\
    cash (after r) = (cash s - price * fq)%float /\
    watchlist (after r) = watchlist s /\
    (forall k, k <> sym ->
               dict_get k (holdings (after r)) = dict_get k (holdings s)) /\
    match dict_get sym (holdings s) with
    | None =>
        dict_get sym (holdings (after r))
        = Some {| qty := q; avg_price := PyFloat.round2 price |}
    | Some old =>
        exists fo ft,
          PyFloat.of_int (qty old) = Ret fo /\
          PyFloat.of_int (qty old + q) = Ret ft /\
          dict_get sym (holdings (after r))
          = Some {| qty := qty old + q;
                    avg_price :=
                      PyFloat.round2
                        ((avg_price old * fo + price * fq) / ft)%float |}
    end.
Proof.
  intros Hr Hs.
  assert (exists cost p,
             PyFloat.mul_int price q = Ret cost /\
             bought_position (dict_get sym (holdings s)) q price = Ret p /\
             after r = with_cash (with_holdings s (dict_set sym p (holdings s)))
                                 (cash s - cost)%float) as (cost & p & Hc & Hp & Ha).
  { destruct Hr as [-> | ->].
    - destruct (buy_trade_succeeded _ _ _ _ Hs) as (cost & p & Hc & _ & Hp & E).
      exists cost, p. rewrite E. auto.
    - destruct (search_buy_trade_succeeded _ _ _ _ Hs) as (cost & p & Hc & _ & Hp & E).
      exists cost, p. rewrite E. auto. }
  destruct (mul_int_inv _ _ _ Hc) as (fq & Hq & ->).
  exists fq. rewrite Ha. simpl.
  split; [exact Hq|]. split; [reflexivity|]. split; [reflexivity|].
  split.
  - intros k Hk. apply dict_get_set_other. exact Hk.
  - rewrite dict_get_set_same.
    destruct (dict_get sym (holdings s)) as [old|].
    + apply bought_position_old in Hp.
      destruct Hp as (fo & fq' & ft & Ho & Hq' & Ht & ->).
      rewrite Hq in Hq'. inversion Hq'; subst fq'.
      exists fo, ft. auto.
    + rewrite bought_position_new in Hp. inversion Hp. reflexivity.
Qed.

Lemma buy_effect_witness :
  cash (after (buy_trade (logged_in 10000 (one_position "AAPL" 5 132.5) [])
                         "AAPL" 5 150))
  = (10000 - 150 * 5)%float.
Proof.
  destruct (buy_effect (logged_in 10000 (one_position "AAPL" 5 132.5) [])
              "AAPL" 5 150 _ (or_introl eq_refl) eq_refl)
    as (fq & Hq & Hc & _).
  vm_compute in Hq. inversion Hq; subst fq. exact Hc.
Defined.

(** C2 as stated fails: a first purchase at 132.4375 stores the average cost
    132.44, not the unit price. *)
Lemma buy_first_average_is_rounded :
  succeeded (buy_trade (logged_in 10000 [] []) "AAPL" 1 132.4375) = true /\
  dict_get "AAPL"
    (holdings (after (buy_trade (logged_in 10000 [] []) "AAPL" 1 132.4375)))
  = Some {| qty := 1; avg_price := 132.44 |} /\
  (132.44 =? 132.4375)%float = false.
Proof. vm_compute. repeat split; reflexivity. Qed.

(* ================================================================= *)
(** ** Series of purchases *)

Lemma total_quantity_perm l l' :
  Permutation l l' -> total_quantity l = total_quantity l'.
Proof.
  induction 1 as [|x l l' _ IH|x y l|l l' l'' _ IH1 _ IH2]; simpl; lia.
Qed.

Lemma buy_trade_succeeded_position s sym q price :
  succeeded (buy_trade s sym q price) = true ->
  exists p,
    bought_position (dict_get sym (holdings s)) q price = Ret p /\
    dict_get sym (holdings (after (buy_trade s sym q price))) = Some p.
Proof.
  intros H. destruct (buy_trade_succeeded _ _ _ _ H) as (cost & p & _ & _ & Hp & E).
  exists p. split; [exact Hp|]. rewrite E. simpl. apply dict_get_set_same.
Qed.

Lemma bought_position_divisor old q price p ft :
  bought_position (Some old) q price = Ret p ->
  PyFloat.of_int (qty old + q) = Ret ft ->
  (ft =? 0)%float = false.
Proof.
  unfold bought_position, PyFloat.mul_int, PyFloat.truediv_int, py_bind.
  destruct (PyFloat.of_int (qty old)) as [fo|e]; [|discriminate].
  destruct (PyFloat.of_int q) as [fq|e]; [|discriminate].
  destruct (PyFloat.of_int (qty old + q)) as [ft'|e]; [|discriminate].
  destruct (ft' =? 0)%float eqn:Z; [discriminate|].
  intros _ H. inversion H; subst ft'. exact Z.
Qed.

Lemma buy_all_average orders : forall s sym s',
  buy_all s sym orders = Some s' ->
  average_cost s' sym
  = average_after (quantity_held s sym) (average_cost s sym) orders.
Proof.
  induction orders as [|[q price] rest IH]; simpl; intros s sym s' H.
  - inversion H. reflexivity.
  - destruct (succeeded (buy_trade s sym q price)) eqn:E; [|discriminate].
    destruct (buy_trade_succeeded_position _ _ _ _ E) as (p & Hp & Hg).
    rewrite (IH _ _ _ H). unfold quantity_held, average_cost. rewrite Hg.
    destruct (dict_get sym (holdings s)) as [old|]; cbn [option_map].
    + pose proof (bought_position_old _ _ _ _ Hp)
        as (fo & fq & ft & Ho & Hq & Ht & Ep).
      rewrite Ho, Hq, Ht, (bought_position_divisor _ _ _ _ _ Hp Ht).
      subst p. reflexivity.
    + rewrite bought_position_new in Hp. inversion Hp. reflexivity.
Qed.

Lemma buy_all_quantity orders : forall s sym s',
  buy_all s sym orders = Some s' ->
  quantity_held s' sym = quantity_held s sym + total_quantity orders.
Proof.
  induction orders as [|[q price] rest IH]; simpl; intros s sym s' H.
  - inversion H. lia.
  - destruct (succeeded (buy_trade s sym q price)) eqn:E; [|discriminate].
    destruct (buy_trade_succeeded_position _ _ _ _ E) as (p & Hp & Hg).
    rewrite (IH _ _ _ H). unfold quantity_held at 1. rewrite Hg.
    rewrite (bought_position_qty _ _ _ _ Hp). unfold quantity_held.
    destruct (dict_get sym (holdings s)); lia.
Qed.

(** C3, as the code has it.  After a series of successful purchases of one
    symbol: the average cost is [round(p1, 2)] after a first purchase, and
    every later purchase of [q] at [p] replaces the stored average [avg] of
    the [held] shares by [round((avg * held + p * q) / (held + q), 2)],
    computed from the stored, already rounded average; the held quantity grew
    by the total of the purchased quantities, and is the same for every
    reordering of the series that succeeds as well. *)
Theorem buy_series_position (s : session) (sym : string)
    (orders : list (Z * float)) (s' : session) :
  buy_all s sym orders = Some s' ->
  average_cost s' sym
  = average_after (quantity_held s sym) (average_cost s sym) orders /\
  (forall q p,
      dict_get sym (holdings s) = None -> orders = [(q, p)] ->
      average_cost s' sym = Some (PyFloat.round2 p)) /\
  (forall old q p,
      dict_get sym (holdings s) = Some old -> orders = [(q, p)] ->
      exists fo fq ft,
        PyFloat.of_int (qty old) = Ret fo /\
        PyFloat.of_int q = Ret fq /\
        PyFloat.of_int (qty old + q) = Ret ft /\
        average_cost s' sym
        = Some (PyFloat.round2 ((avg_price old * fo + p * fq) / ft)%float)) /\
  (forall q1 p1 q2 p2,
      dict_get sym (holdings s) = None -> orders = [(q1, p1); (q2, p2)] ->
      exists f1 f2 ft,
        PyFloat.of_int q1 = Ret f1 /\
        PyFloat.of_int q2 = Ret f2 /\
        PyFloat.of_int (q1 + q2) = Ret ft /\
        average_cost s' sym
        = Some (PyFloat.round2
                  ((PyFloat.round2 p1 * f1 + p2 * f2) / ft)%float)) /\
  quantity_held s' sym = quantity_held s sym + total_quantity orders /\
  (forall orders' s'',
      Permutation orders orders' ->
      buy_all s sym orders' = Some s'' ->
      quantity_held s'' sym = quantity_held s' sym).
Proof.
  intros H. pose proof (buy_all_average _ _ _ _ H) as A.
  split; [exact A|]. split; [|split; [|split; [|split]]].
  - intros q p G ->. rewrite A. unfold average_cost. rewrite G. reflexivity.
  - intros old q p G ->. simpl in H.
    destruct (succeeded (buy_trade s sym q p)) eqn:E; [|discriminate].
    destruct (buy_trade_succeeded_position _ _ _ _ E) as (p' & Hp & _).
    rewrite G in Hp.
    pose proof (bought_position_old _ _ _ _ Hp)
      as (fo & fq & ft & Ho & Hq & Ht & _).
    exists fo, fq, ft. repeat split; auto.
    rewrite A. unfold average_cost, quantity_held. rewrite G.
    cbn [option_map average_after].
    rewrite Ho, Hq, Ht, (bought_position_divisor _ _ _ _ _ Hp Ht).
    reflexivity.
  - intros q1 p1 q2 p2 G ->. simpl in H.
    destruct (succeeded (buy_trade s sym q1 p1)) eqn:E1; [|discriminate].
    destruct (buy_trade_succeeded_position _ _ _ _ E1) as (x1 & Hx1 & Hg1).
    rewrite G, bought_position_new in Hx1. inversion Hx1; subst x1.
    destruct (succeeded (buy_trade _ sym q2 p2)) eqn:E2; [|discriminate].
    destruct (buy_trade_succeeded_position _ _ _ _ E2) as (x2 & Hx2 & _).
    rewrite Hg1 in Hx2.
    pose proof (bought_position_old _ _ _ _ Hx2)
      as (f1 & f2 & ft & H1 & H2 & Ht & _).
    cbn [qty avg_price] in H1, H2, Ht.
    exists f1, f2, ft. repeat split; auto.
    rewrite A. unfold average_cost, quantity_held. rewrite G.
    cbn [option_map average_after]. rewrite Z.add_0_l.
    rewrite H1, H2, Ht, (bought_position_divisor _ _ _ _ _ Hx2 Ht).
    reflexivity.
  - apply buy_all_quantity. exact H.
  - intros orders' s'' P H'.
    rewrite (buy_all_quantity _ _ _ _ H), (buy_all_quantity _ _ _ _ H').
    rewrite (total_quantity_perm _ _ P). reflexivity.
Qed.

Lemma buy_series_position_witness :
  average_cost
    (after (buy_trade (after (buy_trade (logged_in 10000 [] []) "AAPL" 5 132.5))
                      "AAPL" 5 150))
    "AAPL"
  = Some 141.25%float.
Proof.
  refine (eq_trans
            (proj1 (buy_series_position (logged_in 10000 [] []) "AAPL"
                      [(5, 132.5%float); (5, 150%float)] _ eq_refl)) _).
  vm_compute. reflexivity.
Defined.

(** C3 as stated fails, also for prices of two places.  One share bought at
    10.00, two at 10.00 and two at 10.01 leave the average cost 10.00 when the
    purchases come in this order and 10.01 when the purchase at 10.01 comes
    first; the volume-weighted mean of the purchase prices is 10.004. *)
Lemma average_cost_depends_on_order :
  Permutation [(1, 10%float); (2, 10%float); (2, 10.01%float)]
              [(2, 10.01%float); (1, 10%float); (2, 10%float)] /\
  option_map (fun s => average_cost s "AAPL")
    (buy_all (logged_in 10000 [] []) "AAPL"
       [(1, 10%float); (2, 10%float); (2, 10.01%float)])
  = Some (Some 10%float) /\
  option_map (fun s => average_cost s "AAPL")
    (buy_all (logged_in 10000 [] []) "AAPL"
       [(2, 10.01%float); (1, 10%float); (2, 10%float)])
  = Some (Some 10.01%float) /\
  (10 =? 10.01)%float = false /\
  (v <- volume_weighted_mean [(2, 10.01%float); (1, 10%float); (2, 10%float)] ;;
   Ret (PyFloat.round2 v))
  = Ret 10%float.
Proof.
  split.
  - apply Permutation_sym. apply (Permutation_cons_app [_; _] []).
    apply Permutation_refl.
  - vm_compute. repeat split; reflexivity.
Qed.

(* ================================================================= *)
(** ** Selling *)

(** C4. A sale (lines 311-317) of [q] shares of a held symbol at [price],
    with [1 <= q <= held]: credits cash by exactly the proceeds [price * q];
    lowers the position's quantity by [q] and removes the position when that
    reaches 0; leaves the average cost of a remaining position, every other
    holding, the watchlist and the user as they were. *)
Theorem sell_effect (s : session) (sel : string) (q : Z) (price : float)
    (p : position) (proceeds : float) :
  dict_get sel (holdings s) = Some p ->
  1 <= q <= qty p ->
  PyFloat.mul_int price q = Ret proceeds ->
  let r := sell_trade s sel q price in
  succeeded r = true /\
  notices r = [(st_success, Sold q sel price proceeds)] /\
  cash (after r) = (cash s + proceeds)%float /\
  dict_get sel (holdings (after r))
  = (if qty p =? q then None
     else Some {| qty := qty p - q; avg_price := avg_price p |}) /\
  (forall k, k <> sel ->
             dict_get k (holdings (after r)) = dict_get k (holdings s)) /\
  watchlist (after r) = watchlist s /\
  user (after r) = user s.
Proof.
  intros Hg Hq Hm r. unfold r, sell_trade. rewrite Hm. simpl. rewrite Hg.
  simpl.
  destruct (Z.eqb_spec (qty p - q) 0) as [E|E].
  - repeat split; try reflexivity.
    + simpl. rewrite dict_get_del_same.
      destruct (Z.eqb_spec (qty p) q); [reflexivity | lia].
    + intros k Hk. simpl.
      rewrite dict_get_del_other, dict_get_set_other by exact Hk. reflexivity.
  - repeat split; try reflexivity.
    + simpl. rewrite dict_get_set_same.
      destruct (Z.eqb_spec (qty p) q); [lia | reflexivity].
    + intros k Hk. simpl. apply dict_get_set_other. exact Hk.
Qed.

Lemma sell_effect_witness :
  dict_get "AAPL"
    (holdings (after (sell_trade (logged_in 8587.5 (one_position "AAPL" 10 141.25) [])
                                 "AAPL" 4 160)))
  = Some {| qty := 6; avg_price := 141.25 |}.
Proof.
  exact (proj1 (proj2 (proj2 (proj2
    (sell_effect (logged_in 8587.5 (one_position "AAPL" 10 141.25) [])
       "AAPL" 4 160 {| qty := 10; avg_price := 141.25 |} 640
       eq_refl ltac:(simpl; lia) eq_refl))))).
Defined.

(** What a number input hands to the script. *)
Lemma number_input_bounds lo hi held v :
  number_input lo hi held = Ret v ->
  lo <= v /\
  v <= match hi with Some h => h | None => JS_MAX_SAFE_INTEGER end /\
  (v = held \/ v = 1).
Proof.
  unfold number_input.
  destruct ((1 <? lo) || _) eqn:A; [discriminate|].
  destruct ((lo <? - JS_MAX_SAFE_INTEGER) || _); [discriminate|].
  apply orb_false_elim in A. destruct A as [A1 A2].
  apply Z.ltb_ge in A1, A2.
  destruct ((lo <=? held) && _) eqn:B; intros H; inversion H; subst v.
  - apply andb_prop in B. destruct B as [B1 B2].
    apply Z.leb_le in B1, B2. auto.
  - auto.
Qed.




(** The Sell page sells only what its two widgets hand over. *)
Lemma sell_page_cases s w i :
  after (sell_page s w i) = s \/
  exists p q hist,
    dict_get (sell_choice i) (holdings s) = Some p /\
    number_input 1 (Some (qty p)) (sell_typed i) = Ret q /\
    1 <= q <= qty p /\
    sell_clicked i = true /\
    fetch_history w (sell_choice i) "5d" "1d" = Some hist /\
    sell_page s w i = sell_trade s (sell_choice i) q (last_close hist).
Proof.
  unfold sell_page, require_login.
  destruct (user s); [|left; reflexivity].
  destruct (dict_truthy (holdings s)); [|left; reflexivity]. simpl.
  unfold pick.
  destruct (PyStr.mem (sell_choice i) (dict_keys (holdings s))); [|left; reflexivity].
  destruct (dict_get (sell_choice i) (holdings s)) as [p|] eqn:G; [|left; reflexivity].
  destruct (number_input 1 (Some (qty p)) (sell_typed i)) as [q|e] eqn:N;
    [|left; reflexivity].
  destruct (sell_clicked i) eqn:C; [|left; reflexivity].
  destruct (fetch_history w (sell_choice i) "5d" "1d") as [hist|] eqn:F;
    [|left; reflexivity].
  right. exists p, q, hist.
  destruct (number_input_bounds _ _ _ _ N) as (B1 & B2 & _).
  repeat split; auto.
Qed.






(** Lines 311-317 themselves test neither the quantity nor the symbol: what
    keeps them from selling shares that are not held is the two widgets. *)
Example sale_code_has_no_tests :
  sell_trade (logged_in 100 (one_position "AAPL" 5 132.5) []) "AAPL" 6 160
  = done (logged_in 1060 (one_position "AAPL" (-1) 132.5) [])
         [(st_success, Sold 6 "AAPL" 160 960)] /\
  sell_trade (logged_in 100 (one_position "AAPL" 5 132.5) []) "MSFT" 1 160
  = ended (logged_in 260 (one_position "AAPL" 5 132.5) []) []
          (Raised (KeyError "MSFT")).
Proof. vm_compute. split; reflexivity. Qed.

(* ================================================================= *)
(** ** What every run preserves *)

Lemma initial_session_ok : session_ok initial_session.
Proof.
  unfold session_ok, keys_unique, positions_positive, symbols_upper_case.
  simpl. repeat split; constructor.
Qed.

Lemma after_and_then (P : session -> Prop) r k :
  P (after r) -> (forall s', P s' -> P (after (k s'))) ->
  P (after (and_then r k)).
Proof.
  intros Hr Hk. unfold and_then. destruct (ending_of r); auto.
  simpl. apply Hk. exact Hr.
Qed.

Lemma after_require_login (P : session -> Prop) s body :
  P s -> P (after body) -> P (after (require_login s body)).
Proof. intros Hs Hb. unfold require_login. destruct (user s); auto. Qed.

Lemma buy_trade_ok s sym q price :
  session_ok s -> 1 <= q -> upper_case sym ->
  session_ok (after (buy_trade s sym q price)).
Proof.
  intros Hok Hq Hu. unfold buy_trade.
  destruct (PyFloat.mul_int price q) as [cost|e]; auto.
  destruct (cash s <? cost)%float; auto.
  destruct (bought_position (dict_get sym (holdings s)) q price) as [p|e] eqn:B;
    auto.
  destruct Hok as (K & Pos & (UH & UW) & W).
  unfold session_ok, keys_unique, positions_positive, symbols_upper_case in *.
  simpl. repeat split; auto.
  - apply NoDup_keys_set. exact K.
  - apply Forall_dict_set; auto. simpl.
    rewrite (bought_position_qty _ _ _ _ B).
    destruct (dict_get sym (holdings s)) as [old|] eqn:G; [|lia].
    apply dict_get_In in G. rewrite Forall_forall in Pos.
    specialize (Pos _ G). simpl in Pos. lia.
  - apply Forall_keys_set; auto.
Qed.

Lemma search_buy_trade_ok s sym q price :
  session_ok s -> 1 <= q -> upper_case sym ->
  session_ok (after (search_buy_trade s sym q price)).
Proof. rewrite search_buy_trade_after. apply buy_trade_ok. Qed.

Lemma sell_trade_ok s sel q price p :
  session_ok s -> dict_get sel (holdings s) = Some p -> 1 <= q <= qty p ->
  session_ok (after (sell_trade s sel q price)).
Proof.
  intros Hok G Hq. unfold sell_trade.
  destruct (PyFloat.mul_int price q) as [proceeds|e]; auto.
  simpl. rewrite G. simpl.
  destruct Hok as (K & Pos & (UH & UW) & W).
  unfold session_ok, keys_unique, positions_positive, symbols_upper_case in *.
  assert (upper_case sel) as Hsel.
  { rewrite Forall_forall in UH. apply UH.
    apply dict_get_In in G. apply (in_map fst) in G. exact G. }
  destruct (Z.eqb_spec (qty p - q) 0) as [E|E]; simpl; repeat split; auto.
  - rewrite dict_del_set. apply NoDup_keys_del. exact K.
  - rewrite dict_del_set. apply Forall_dict_del. exact Pos.
  - rewrite dict_del_set. apply Forall_keys_del. exact UH.
  - apply NoDup_keys_set. exact K.
  - apply Forall_dict_set; auto. simpl. lia.
  - apply Forall_keys_set; auto.
Qed.

Lemma login_page_ok s i : session_ok s -> session_ok (after (login_page s i)).
Proof.
  intros H. unfold login_page.
  destruct (login_clicked i); auto.
  destruct (PyStr.truthy (login_username i) && _); auto.
Qed.

Lemma dashboard_page_after s w : after (dashboard_page s w) = s.
Proof.
  unfold dashboard_page, require_login. destruct (user s); auto.
  destruct (dashboard_loop _ _ _ _) as [[rows total]|e]; [|reflexivity].
  destruct rows; [reflexivity|]. destruct (table_fits _); reflexivity.
Qed.

Lemma upper_case_upper x : upper_case (PyStr.upper x).
Proof. apply upper_idem. Qed.

Lemma buy_page_ok s w i : session_ok s -> session_ok (after (buy_page s w i)).
Proof.
  intros H. unfold buy_page. apply after_require_login; auto.
  destruct (number_input 1 None (buy_typed i)) as [v|e] eqn:N; auto.
  destruct (buy_clicked i); auto.
  destruct (negb _); auto.
  destruct (fetch_history _ _ _ _); auto.
  apply number_input_bounds in N.
  apply buy_trade_ok; auto using upper_case_upper. lia.
Qed.

Lemma sell_page_ok s w i : session_ok s -> session_ok (after (sell_page s w i)).
Proof.
  intros H.
  destruct (sell_page_cases s w i) as [E|(p & q & hist & G & _ & B & _ & _ & E)].
  - rewrite E. exact H.
  - rewrite E. eapply sell_trade_ok; eauto.
Qed.

Lemma search_add_watch_ok s x :
  session_ok s -> session_ok (after (search_add_watch s x)).
Proof.
  intros H. unfold search_add_watch.
  destruct (PyStr.mem _ _) eqn:M; simpl; auto.
  destruct H as (K & Pos & (UH & UW) & W).
  unfold session_ok, keys_unique, positions_positive, symbols_upper_case in *.
  simpl. repeat split; auto.
  - apply Forall_app. split; auto. constructor; [|constructor].
    apply upper_case_upper.
  - apply NoDup_snoc; auto. apply mem_false_In. exact M.
Qed.

Lemma search_page_ok s w i : session_ok s -> session_ok (after (search_page s w i)).
Proof.
  intros H. unfold search_page. apply after_require_login; auto.
  destruct (pick _ (period_choice i)) as [period|]; auto.
  destruct (pick _ (interval_choice i)) as [interval|]; auto.
  destruct (lookup_clicked i); auto.
  destruct (negb _); auto.
  destruct (fetch_history w _ period interval); auto.
  apply after_and_then; auto.
  intros s1 H1. apply after_and_then.
  - destruct (search_add_clicked i); auto. apply search_add_watch_ok. exact H1.
  - intros s2 H2.
    destruct (number_input 1 None (search_buy_typed i)) as [v|e] eqn:N; auto.
    destruct (search_buy_clicked i); auto.
    destruct (fetch_history _ _ _ _); auto.
    apply number_input_bounds in N.
    apply search_buy_trade_ok; auto using upper_case_upper. lia.
Qed.

Lemma watch_add_ok s x :
  session_ok s -> upper_case x -> session_ok (after (watch_add s x)).
Proof.
  intros H Hx. unfold watch_add.
  destruct (PyStr.truthy x); simpl.
  - destruct (PyStr.mem x (watchlist s)) eqn:M; simpl; auto.
    destruct H as (K & Pos & (UH & UW) & W).
    unfold session_ok, keys_unique, positions_positive, symbols_upper_case in *.
    simpl. repeat split; auto.
    + apply Forall_app. split; auto.
    + apply NoDup_snoc; auto. apply mem_false_In. exact M.
  - destruct (PyStr.mem x (watchlist s)); auto.
Qed.

Lemma remove_buttons_ok s clicked entries : forall seen,
  session_ok s -> session_ok (after (remove_buttons s clicked entries seen)).
Proof.
  induction entries as [|x rest IH]; simpl; intros seen H; auto.
  destruct (PyStr.mem x seen); auto.
  destruct (clicked x); auto.
  unfold PyStr.list_remove. destruct (PyStr.mem x (watchlist s)); auto.
  destruct H as (K & Pos & (UH & UW) & W).
  unfold session_ok, keys_unique, positions_positive, symbols_upper_case in *.
  simpl. repeat split; auto.
  - apply Forall_remove_first. exact UW.
  - apply NoDup_remove_first. exact W.
Qed.

Lemma watchlist_page_ok s w i :
  session_ok s -> session_ok (after (watchlist_page s w i)).
Proof.
  intros H. unfold watchlist_page. apply after_require_login; auto.
  apply after_and_then.
  - destruct (watch_add_clicked i); auto.
    apply watch_add_ok; auto using upper_case_upper.
  - intros s1 H1. destruct (watchlist s1) eqn:E; auto.
    apply after_and_then; auto.
    intros s2 H2. apply remove_buttons_ok. exact H2.
Qed.

Lemma page_run_ok s p w i : session_ok s -> session_ok (after (page_run s p w i)).
Proof.
  intros H. destruct p; simpl.
  - apply login_page_ok; exact H.
  - rewrite dashboard_page_after. exact H.
  - apply buy_page_ok; exact H.
  - apply sell_page_ok; exact H.
  - apply search_page_ok; exact H.
  - apply watchlist_page_ok; exact H.
Qed.

Lemma nav_choice_unbound page username :
  load_global (globals_at_dispatch page username) "nav_choice"
  = Throw (NameError "nav_choice").
Proof. destruct username; reflexivity. Qed.

Lemma dispatch_ok branch w i page s :
  session_ok s ->
  session_ok
    (after
       (and_then (if String.eqb page "Login" then login_page s i else done s [])
          (fun s =>
             if String.eqb page "Dashboard" then dashboard_page s w
             else if String.eqb page "Buy" then buy_page s w i
             else if String.eqb page "Sell" then sell_page s w i
             else if String.eqb page "Search" then search_page s w i
             else
               let g := globals_at_dispatch page
                          (if String.eqb page "Login"
                           then Some (login_username i) else None) in
               match load_global g "nav_choice" with
               | Throw e => ended s [] (Raised e)
               | Ret v =>
                   if value_eqb v (VStr "Watchlist") then branch s
                   else done s []
               end))).
Proof.
  intros H. apply (after_and_then session_ok).
  - destruct (String.eqb page "Login"); auto. apply login_page_ok; exact H.
  - intros s2 H2.
    destruct (String.eqb page "Dashboard");
      [rewrite dashboard_page_after; exact H2|].
    destruct (String.eqb page "Buy"); [apply buy_page_ok; exact H2|].
    destruct (String.eqb page "Sell"); [apply sell_page_ok; exact H2|].
    destruct (String.eqb page "Search"); [apply search_page_ok; exact H2|].
    cbv zeta. rewrite nav_choice_unbound. exact H2.
Qed.

Lemma script_with_ok branch s w i :
  session_ok s -> session_ok (after (script_with branch s w i)).
Proof.
  intros H. unfold script_with.
  destruct (user s).
  - destruct (logout_clicked i); cbn [fst snd].
    + exact H.
    + apply (after_and_then session_ok); [exact H|]. intros s1 H1.
      destruct (pick _ (nav i)) as [page|]; [|exact H1].
      apply dispatch_ok. exact H1.
  - cbn [fst snd].
    apply (after_and_then session_ok); [exact H|]. intros s1 H1.
    destruct (pick _ (nav i)) as [page|]; [|exact H1].
    apply dispatch_ok. exact H1.
Qed.

Lemma session_after_pages_ok runs : forall s,
  session_ok s -> session_ok (session_after_pages s runs).
Proof.
  induction runs as [|[[p w] i] rest IH]; simpl; intros s H; auto.
  apply IH. apply page_run_ok. exact H.
Qed.

Lemma session_after_ok runs : forall s,
  session_ok s -> session_ok (session_after s runs).
Proof.
  induction runs as [|[w i] rest IH]; simpl; intros s H; auto.
  apply IH. apply script_with_ok. exact H.
Qed.

(* ================================================================= *)
(** ** Positions and quantities *)

Lemma holds_iff_positive s sym :
  positions_positive s ->
  (holds_position s sym <-> 0 < quantity_held s sym).
Proof.
  intros Pos. unfold holds_position, quantity_held. split.
  - intros [p G]. rewrite G. apply dict_get_In in G.
    unfold positions_positive in Pos. rewrite Forall_forall in Pos.
    apply (Pos _ G).
  - destruct (dict_get sym (holdings s)) as [p|]; [eauto | lia].
Qed.

(** C6. After every series of page runs from the initial session (the pages
    run on their own, or through the script's dispatch), a position exists for
    a symbol if and only if the quantity held of it is above 0: no position is
    stored with quantity 0 or less, and a symbol has at most one position. *)
Theorem position_iff_quantity_positive
    (runs : list (page_id * world * ui)) (script_runs : list (world * ui))
    (sym : string) :
  (holds_position (session_after_pages initial_session runs) sym
   <-> 0 < quantity_held (session_after_pages initial_session runs) sym) /\
  positions_positive (session_after_pages initial_session runs) /\
  keys_unique (session_after_pages initial_session runs) /\
  (holds_position (session_after initial_session script_runs) sym
   <-> 0 < quantity_held (session_after initial_session script_runs) sym) /\
  positions_positive (session_after initial_session script_runs) /\
  keys_unique (session_after initial_session script_runs).
Proof.
  destruct (session_after_pages_ok runs _ initial_session_ok) as (K1 & P1 & _).
  destruct (session_after_ok script_runs _ initial_session_ok) as (K2 & P2 & _).
  repeat split; auto; try (apply holds_iff_positive; assumption).
Qed.

(* ================================================================= *)
(** ** The watchlist *)

Lemma remove_buttons_none s x entries : forall seen,
  ~ In x entries ->
  after (remove_buttons s (asks_to_remove x) entries seen) = s /\
  notices (remove_buttons s (asks_to_remove x) entries seen) = [].
Proof.
  induction entries as [|y rest IH]; simpl; intros seen N; auto.
  destruct (PyStr.mem y seen); auto.
  unfold asks_to_remove at 1 3.
  destruct (String.eqb_spec x y) as [E|E].
  - exfalso. apply N. left. congruence.
  - apply IH. intros H. apply N. right. exact H.
Qed.

Lemma remove_buttons_one s x entries : forall seen,
  NoDup entries -> (forall y, In y entries -> ~ In y seen) -> In x entries ->
  In x (watchlist s) ->
  remove_buttons s (asks_to_remove x) entries seen
  = ended (with_watchlist s (PyStr.remove_first x (watchlist s)))
          [(st_success, Removed x)] Rerun.
Proof.
  induction entries as [|y rest IH]; simpl; intros seen D S I W; [tauto|].
  replace (PyStr.mem y seen) with false
    by (symmetry; apply mem_false_In; apply S; left; reflexivity).
  unfold asks_to_remove at 1.
  destruct (String.eqb_spec x y) as [E|E].
  - subst y. unfold PyStr.list_remove.
    apply mem_In in W. rewrite W. reflexivity.
  - inversion D; subst. apply IH; auto.
    + intros z Hz [Hy|Hs].
      * subst z. auto.
      * apply (S z); auto.
    + destruct I; congruence.
Qed.

(** The loop hands to [list.remove] only what is on the list. *)
Lemma remove_buttons_no_value_error s clicked entries : forall seen,
  (forall y, In y entries -> In y (watchlist s)) ->
  ending_of (remove_buttons s clicked entries seen) <> Raised ValueError.
Proof.
  induction entries as [|y rest IH]; simpl; intros seen Sub; [discriminate|].
  destruct (PyStr.mem y seen); [discriminate|].
  destruct (clicked y).
  - unfold PyStr.list_remove.
    replace (PyStr.mem y (watchlist s)) with true
      by (symmetry; apply mem_In; auto).
    discriminate.
  - apply IH. intros z Hz. apply Sub. right. exact Hz.
Qed.

Lemma remove_first_filter x l :
  NoDup l ->
  PyStr.remove_first x l = filter (fun y => negb (String.eqb y x)) l.
Proof.
  induction l as [|y r IH]; simpl; auto.
  intros D. inversion D; subst.
  destruct (String.eqb_spec y x) as [E|E]; simpl.
  - subst y. symmetry. apply forallb_filter_id.
    apply forallb_forall. intros z Hz.
    destruct (String.eqb_spec z x); [subst; tauto | reflexivity].
  - f_equal. apply IH. assumption.
Qed.

Lemma count_occ_snoc (l : list string) x :
  ~ In x l -> count_occ string_dec (l ++ [x]) x = 1%nat.
Proof.
  intros N. rewrite count_occ_app. simpl.
  destruct (string_dec x x); [|congruence].
  apply (count_occ_not_In string_dec) in N. rewrite N. reflexivity.
Qed.

(** C8. Adding a symbol that is on the watchlist changes nothing, on either
    page that adds; adding the same (non-empty) symbol twice leaves it on the
    list exactly once; asking to remove a symbol that is not on the list
    changes nothing and reports no removal (the Remove buttons exist for the
    entries only, so [list.remove] is never given an absent symbol).  Adding
    appends at the end, removing takes one entry out and leaves the others in
    their order, a run of the add or remove handlers does nothing else to the
    list, and after every series of page runs from the initial session the
    list holds each symbol at most once. *)
Theorem watchlist_set_like (s : session) (x : string) :
  (In x (watchlist s) ->
   watch_add s x = done s [(st_info, Already_in_watchlist)]) /\
  (In (PyStr.upper x) (watchlist s) ->
   search_add_watch s x = done s [(st_info, Already_in_watchlist)]) /\
  (x <> "" -> NoDup (watchlist s) ->
   count_occ string_dec
     (watchlist (after (watch_add (after (watch_add s x)) x))) x = 1%nat /\
   after (watch_add (after (watch_add s x)) x) = after (watch_add s x)) /\
  (~ In x (watchlist s) ->
   after (remove_buttons s (asks_to_remove x) (watchlist s) []) = s /\
   removed (remove_buttons s (asks_to_remove x) (watchlist s) []) = false) /\
  (NoDup (watchlist s) -> In x (watchlist s) ->
   remove_buttons s (asks_to_remove x) (watchlist s) []
   = ended (with_watchlist s
              (filter (fun y => negb (String.eqb y x)) (watchlist s)))
           [(st_success, Removed x)] Rerun) /\
  watchlist_moves (watchlist s) (watchlist (after (watch_add s x))) /\
  watchlist_moves (watchlist s) (watchlist (after (search_add_watch s x))) /\
  (forall clicked,
      watchlist_moves (watchlist s)
        (watchlist (after (remove_buttons s clicked (watchlist s) []))) /\
      ending_of (remove_buttons s clicked (watchlist s) []) <> Raised ValueError) /\
  (forall runs, NoDup (watchlist (session_after_pages initial_session runs))).
Proof.
  split; [|split; [|split; [|split; [|split; [|split; [|split; [|split]]]]]]].
  - intros I. apply mem_In in I. unfold watch_add. rewrite I.
    rewrite andb_false_r. reflexivity.
  - intros I. apply mem_In in I. unfold search_add_watch. rewrite I. reflexivity.
  - intros Hx D. unfold watch_add.
    assert (PyStr.truthy x = true) as T by (destruct x; [congruence | reflexivity]).
    rewrite T. simpl.
    destruct (PyStr.mem x (watchlist s)) eqn:M; simpl.
    + rewrite ?T, ?M. simpl. split; [|reflexivity].
      apply mem_In in M. apply NoDup_count_occ' with (decA := string_dec) in M; auto.
    + assert (PyStr.mem x (watchlist s ++ [x]) = true) as M'.
      { apply mem_In. apply in_or_app. right. left. reflexivity. }
      rewrite ?T, ?M'. simpl. split; [|reflexivity].
      apply count_occ_snoc. apply mem_false_In. exact M.
  - intros N. destruct (remove_buttons_none s x (watchlist s) [] N) as [A B].
    split; [exact A|]. unfold removed. rewrite B. reflexivity.
  - intros D I. rewrite <- remove_first_filter by exact D.
    apply remove_buttons_one; auto.
  - unfold watch_add.
    destruct (PyStr.truthy x && negb (PyStr.mem x (watchlist s))); simpl.
    + left. exists [x]. reflexivity.
    + left. exists []. destruct (PyStr.mem x (watchlist s)); simpl;
        rewrite app_nil_r; reflexivity.
  - unfold search_add_watch.
    destruct (negb (PyStr.mem (PyStr.upper x) (watchlist s))); simpl.
    + left. exists [PyStr.upper x]. reflexivity.
    + left. exists []. rewrite app_nil_r. reflexivity.
  - intros clicked. split; [|apply remove_buttons_no_value_error; auto].
    assert (forall entries seen,
               (forall y, In y entries -> In y (watchlist s)) ->
               watchlist_moves (watchlist s)
                 (watchlist (after (remove_buttons s clicked entries seen)))) as G.
    { induction entries as [|y rest IH]; simpl; intros seen Sub.
      - left. exists []. rewrite app_nil_r. reflexivity.
      - destruct (PyStr.mem y seen).
        + left. exists []. rewrite app_nil_r. reflexivity.
        + destruct (clicked y); simpl.
          * unfold PyStr.list_remove.
            replace (PyStr.mem y (watchlist s)) with true
              by (symmetry; apply mem_In; auto).
            right. exists y. split; auto.
          * apply IH. intros z Hz. apply Sub. right. exact Hz. }
    apply G. auto.
  - intros runs.
    apply (session_after_pages_ok runs _ initial_session_ok).
Qed.

Lemma watchlist_set_like_witness :
  watch_add (logged_in 10000 [] ["TSLA"]) "TSLA"
  = done (logged_in 10000 [] ["TSLA"]) [(st_info, Already_in_watchlist)] /\
  after (remove_buttons (logged_in 10000 [] ["TSLA"]) (asks_to_remove "NVDA")
                        ["TSLA"] [])
  = logged_in 10000 [] ["TSLA"].
Proof.
  split.
  - apply (proj1 (watchlist_set_like (logged_in 10000 [] ["TSLA"]) "TSLA")).
    simpl. auto.
  - apply (proj1 (proj2 (proj2 (proj2
             (watchlist_set_like (logged_in 10000 [] ["TSLA"]) "NVDA"))))).
    simpl. intros [H|[]]. discriminate H.
Defined.

(* ================================================================= *)
(** ** The dispatch *)

Lemma and_then_ext r k1 k2 :
  (forall s, k1 s = k2 s) -> and_then r k1 = and_then r k2.
Proof.
  intros H. unfold and_then. destruct (ending_of r); auto. rewrite H. reflexivity.
Qed.

(** C9. The last branch of the dispatch (line 389) tests the global name
    [nav_choice], which is bound nowhere in the script: reading it raises
    NameError whatever page was chosen, so the body of the Watchlist branch is
    never run (the script behaves the same whatever that body is) and choosing
    "Watchlist" ends the run with the NameError, the session untouched.  The
    condition is reached whenever no earlier branch matched, hence on the Login
    page too. *)
Theorem watchlist_branch_unreachable (branch1 branch2 : session -> run)
    (s : session) (w : world) (i : ui) :
  (forall page username,
      load_global (globals_at_dispatch page username) "nav_choice"
      = Throw (NameError "nav_choice")) /\
  script_with branch1 s w i = script_with branch2 s w i /\
  (user s <> None -> logout_clicked i = false -> nav i = "Watchlist" ->
   script s w i = ended s [] (Raised (NameError "nav_choice"))) /\
  (user s = None -> nav i = "Login" -> login_clicked i = false ->
   script s w i = ended s [] (Raised (NameError "nav_choice"))).
Proof.
  split; [exact nav_choice_unbound|]. split; [|split].
  - unfold script_with. apply and_then_ext. intros s1.
    destruct (snd _) as [page|]; auto.
    apply and_then_ext. intros s2.
    cbv zeta. rewrite nav_choice_unbound. reflexivity.
  - intros U L N. unfold script, script_with.
    destruct (user s); [|congruence]. rewrite L, N. reflexivity.
  - intros U N L. unfold script, script_with, login_page.
    rewrite U, N, L. reflexivity.
Qed.

Lemma watchlist_branch_unreachable_witness :
  script (logged_in 10000 [] []) (flat_market 160) (asking_to_watch "tsla")
  = ended (logged_in 10000 [] []) [] (Raised (NameError "nav_choice")).
Proof.
  apply (proj1 (proj2 (proj2
           (watchlist_branch_unreachable
              (fun s => done s []) (fun s => done s [])
              (logged_in 10000 [] []) (flat_market 160) (asking_to_watch "tsla"))))).
  - discriminate.
  - reflexivity.
  - reflexivity.
Defined.

(* ================================================================= *)
(** ** Upper-case symbols *)

(** C10. After every series of page runs from the initial session (pages on
    their own, or through the dispatch) every key of the holdings and every
    entry of the watchlist is upper-case, that is, unchanged by [upper].
    Every page reads a typed symbol through [upper] only: two texts with the
    same upper-casing, typed into the Buy, Search or Watchlist input, give the
    same run. *)
Theorem symbols_are_upper_case
    (runs : list (page_id * world * ui)) (script_runs : list (world * ui)) :
  symbols_upper_case (session_after_pages initial_session runs) /\
  symbols_upper_case (session_after initial_session script_runs) /\
  (forall s p w i b1 b2 se1 se2 wa1 wa2,
      PyStr.upper b1 = PyStr.upper b2 ->
      PyStr.upper se1 = PyStr.upper se2 ->
      PyStr.upper wa1 = PyStr.upper wa2 ->
      page_run s p w (typing i b1 se1 wa1) = page_run s p w (typing i b2 se2 wa2)).
Proof.
  split; [|split].
  - apply (session_after_pages_ok runs _ initial_session_ok).
  - apply (session_after_ok script_runs _ initial_session_ok).
  - intros s p w i b1 b2 se1 se2 wa1 wa2 Hb Hs Hw.
    destruct p; simpl.
    + reflexivity.
    + reflexivity.
    + unfold buy_page. simpl. rewrite Hb. reflexivity.
    + reflexivity.
    + unfold search_page, search_add_watch. simpl. rewrite Hs. reflexivity.
    + unfold watchlist_page. simpl. rewrite Hw. reflexivity.
Qed.

Lemma symbols_are_upper_case_witness :
  page_run (logged_in 10000 [] []) Buy (flat_market 160)
           (typing (asking_to_buy "" 3) "aapl" "" "")
  = page_run (logged_in 10000 [] []) Buy (flat_market 160)
             (typing (asking_to_buy "" 3) "AaPl" "" "").
Proof.
  apply (proj2 (proj2 (symbols_are_upper_case [] []))); reflexivity.
Defined.

(* ================================================================= *)
(** ** Net worth *)








(* ================================================================= *)
(** * Further properties *)

(* ================================================================= *)
(** ** Login, logout and the pages behind the login *)

(** X1. Nothing behind the login runs for a visitor who is not logged in:
    every page but Login stops at once with the warning and leaves the session
    as it was, and a run of the script leaves cash, holdings and watchlist as
    they were. *)
Theorem visitor_cannot_trade (s : session) (w : world) (i : ui) :
  user s = None ->
  (forall p, p <> Login ->
             page_run s p w i = ended s [(st_warning, Please_log_in)] Stopped) /\
  same_account s (after (script s w i)).
Proof.
  intros U. split.
  - intros p Hp. destruct p; try congruence; simpl;
      unfold dashboard_page, buy_page, sell_page, search_page, watchlist_page,
        require_login; rewrite U; reflexivity.
  - unfold script, script_with. rewrite U. cbn [fst snd].
    apply (after_and_then (same_account s)).
    + repeat split.
    + intros s1 H1. unfold pick. cbn [PyStr.mem].
      destruct (String.eqb_spec "Login" (nav i)) as [E|E]; [|exact H1].
      rewrite <- E. change (String.eqb "Login" "Login") with true. cbv iota.
      apply (after_and_then (same_account s)).
      * unfold login_page. destruct (login_clicked i); auto.
        destruct (_ && _); auto.
      * intros s2 H2. exact H2.
Qed.

Lemma visitor_cannot_trade_witness :
  page_run initial_session Buy (flat_market 160) (asking_to_buy "aapl" 3)
  = ended initial_session [(st_warning, Please_log_in)] Stopped.
Proof.
  apply (proj1 (visitor_cannot_trade initial_session (flat_market 160)
                  (asking_to_buy "aapl" 3) eq_refl)).
  discriminate.
Defined.

(** X2. The Login page logs in exactly when Login is pressed with a name
    that is not blank: the user becomes the name without the white space
    around it (never empty, and stripping it again changes nothing) and the
    script is rerun; in every other case the session stays as it was.  The
    page never touches cash, holdings or watchlist. *)
Theorem login_outcome (s : session) (i : ui) :
  same_account s (after (login_page s i)) /\
  (ending_of (login_page s i) = Rerun <->
   login_clicked i = true /\ PyStr.strip (login_username i) <> "") /\
  (ending_of (login_page s i) = Rerun ->
   user (after (login_page s i)) = Some (PyStr.strip (login_username i)) /\
   PyStr.strip (PyStr.strip (login_username i)) = PyStr.strip (login_username i)) /\
  (ending_of (login_page s i) <> Rerun -> after (login_page s i) = s).
Proof.
  unfold login_page.
  destruct (login_clicked i).
  - destruct (PyStr.truthy (PyStr.strip (login_username i))) eqn:T.
    + rewrite (strip_truthy _ T). simpl.
      apply truthy_nonempty in T.
      repeat split; auto using strip_idem. congruence.
    + rewrite andb_false_r. simpl.
      repeat split; try discriminate; auto.
      intros [_ H]. apply truthy_nonempty in H. congruence.
  - simpl. repeat split; try discriminate; auto.
    intros [H _]. discriminate H.
Qed.

Lemma login_outcome_witness :
  user (after (login_page initial_session (logging_in "  bob ")))
  = Some (PyStr.strip "  bob ").
Proof.
  apply (proj1 (proj2 (proj2 (login_outcome initial_session (logging_in "  bob "))))).
  reflexivity.
Defined.

(** X3. The account does not belong to the user name: after a logout and a
    login under any name that is not blank the session is the one before the
    logout with the user replaced, cash, holdings and watchlist as they
    were. *)
Theorem account_survives_change_of_user (s : session) (w1 w2 : world)
    (i1 i2 : ui) :
  user s <> None ->
  logout_clicked i1 = true ->
  nav i2 = "Login" -> login_clicked i2 = true ->
  PyStr.strip (login_username i2) <> "" ->
  session_after s [(w1, i1); (w2, i2)]
  = with_user s (Some (PyStr.strip (login_username i2))).
Proof.
  intros U L N C T.
  apply truthy_nonempty in T. pose proof (strip_truthy _ T) as T'.
  simpl. unfold script, script_with at 2.
  destruct (user s) eqn:Us; [|congruence].
  rewrite L. cbn [fst snd and_then ending_of ended after].
  unfold script_with. cbn [user with_user fst snd].
  unfold pick. rewrite N.
  change (PyStr.mem "Login" ["Login"]) with true. cbv iota.
  change (String.eqb "Login" "Login") with true. cbv iota.
  unfold login_page. rewrite C, T, T'. reflexivity.
Qed.

Lemma account_survives_change_of_user_witness :
  session_after (logged_in 8587.5 (one_position "AAPL" 10 141.25) ["TSLA"])
    [(flat_market 160, logging_out); (flat_market 160, logging_in "bob")]
  = {| user := Some "bob"; cash := 8587.5;
       holdings := one_position "AAPL" 10 141.25; watchlist := ["TSLA"] |}.
Proof.
  apply (account_survives_change_of_user
           (logged_in 8587.5 (one_position "AAPL" 10 141.25) ["TSLA"])
           (flat_market 160) (flat_market 160) logging_out (logging_in "bob")).
  - discriminate.
  - reflexivity.
  - reflexivity.
  - reflexivity.
  - discriminate.
Defined.

(* ================================================================= *)
(** ** What each page leaves alone *)

Lemma buy_trade_frame s sym q price :
  user (after (buy_trade s sym q price)) = user s /\
  watchlist (after (buy_trade s sym q price)) = watchlist s.
Proof.
  unfold buy_trade.
  destruct (PyFloat.mul_int price q) as [cost|e]; auto.
  destruct (cash s <? cost)%float; auto.
  destruct (bought_position _ q price); auto.
Qed.

Lemma sell_trade_frame s sel q price :
  user (after (sell_trade s sel q price)) = user s /\
  watchlist (after (sell_trade s sel q price)) = watchlist s.
Proof.
  unfold sell_trade.
  destruct (PyFloat.mul_int price q) as [proceeds|e]; auto.
  simpl. destruct (dict_get sel (holdings s)); auto.
Qed.

Lemma search_add_watch_frame s x :
  user (after (search_add_watch s x)) = user s /\
  cash (after (search_add_watch s x)) = cash s /\
  holdings (after (search_add_watch s x)) = holdings s /\
  ending_of (search_add_watch s x) = Completed.
Proof. unfold search_add_watch. destruct (negb _); auto. Qed.

Lemma watch_add_frame s x :
  user (after (watch_add s x)) = user s /\
  cash (after (watch_add s x)) = cash s /\
  holdings (after (watch_add s x)) = holdings s.
Proof.
  unfold watch_add. destruct (_ && _); auto.
  destruct (PyStr.mem x (watchlist s)); auto.
Qed.

Lemma remove_buttons_frame s clicked entries : forall seen,
  user (after (remove_buttons s clicked entries seen)) = user s /\
  cash (after (remove_buttons s clicked entries seen)) = cash s /\
  holdings (after (remove_buttons s clicked entries seen)) = holdings s.
Proof.
  induction entries as [|x rest IH]; simpl; intros seen; auto.
  destruct (PyStr.mem x seen); auto.
  destruct (clicked x); auto.
  destruct (PyStr.list_remove x (watchlist s)); auto.
Qed.

(** X4. What each page leaves alone, whatever is typed or pressed: the Login
    page changes nothing but the user; the Dashboard changes nothing; the Buy
    and Sell pages change neither the user nor the watchlist; the Search page
    does not change the user; the Watchlist page changes neither the user nor
    cash nor holdings. *)
Theorem pages_leave_alone (s : session) (w : world) (i : ui) :
  same_account s (after (login_page s i)) /\
  after (dashboard_page s w) = s /\
  (user (after (buy_page s w i)) = user s /\
   watchlist (after (buy_page s w i)) = watchlist s) /\
  (user (after (sell_page s w i)) = user s /\
   watchlist (after (sell_page s w i)) = watchlist s) /\
  user (after (search_page s w i)) = user s /\
  (user (after (watchlist_page s w i)) = user s /\
   cash (after (watchlist_page s w i)) = cash s /\
   holdings (after (watchlist_page s w i)) = holdings s).
Proof.
  split; [|split; [|split; [|split; [|split]]]].
  - unfold login_page. destruct (login_clicked i); [|repeat split].
    destruct (_ && _); repeat split.
  - apply dashboard_page_after.
  - unfold buy_page.
    apply (after_require_login
             (fun a => user a = user s /\ watchlist a = watchlist s)); auto.
    destruct (number_input 1 None (buy_typed i)) as [v|e]; auto.
    destruct (buy_clicked i); auto.
    destruct (negb _); auto.
    destruct (fetch_history _ _ _ _); auto.
    apply buy_trade_frame.
  - destruct (sell_page_cases s w i) as [E|(p & q & hist & _ & _ & _ & _ & _ & E)];
      rewrite E; auto. apply sell_trade_frame.
  - unfold search_page.
    apply (after_require_login (fun a => user a = user s)); auto.
    destruct (pick _ (period_choice i)) as [period|]; auto.
    destruct (pick _ (interval_choice i)) as [interval|]; auto.
    destruct (lookup_clicked i); auto.
    destruct (negb _); auto.
    destruct (fetch_history w _ period interval); auto.
    apply (after_and_then (fun a => user a = user s)); auto.
    intros s1 H1. apply (after_and_then (fun a => user a = user s)).
    + destruct (search_add_clicked i); auto.
      rewrite (proj1 (search_add_watch_frame s1 _)). exact H1.
    + intros s2 H2.
      destruct (number_input 1 None (search_buy_typed i)) as [v|e]; auto.
      destruct (search_buy_clicked i); auto.
      destruct (fetch_history _ _ _ _); auto.
      rewrite search_buy_trade_after, (proj1 (buy_trade_frame s2 _ _ _)).
      exact H2.
  - unfold watchlist_page.
    apply (after_require_login
             (fun a => user a = user s /\ cash a = cash s /\
                       holdings a = holdings s)); auto.
    apply (after_and_then
             (fun a => user a = user s /\ cash a = cash s /\
                       holdings a = holdings s)).
    + destruct (watch_add_clicked i); auto. apply watch_add_frame.
    + intros s1 (U1 & C1 & H1).
      destruct (watchlist s1); [auto|].
      apply (after_and_then
               (fun a => user a = user s /\ cash a = cash s /\
                         holdings a = holdings s)); auto.
      intros s2 (U2 & C2 & H2).
      destruct (remove_buttons_frame s2 (remove_clicked i) (watchlist s2) [])
        as (U3 & C3 & H3).
      rewrite U3, C3, H3. auto.
Qed.

(* ================================================================= *)
(** ** The holdings table of the dashboard *)

Lemma holding_value_row cur_price n value :
  holding_value cur_price n = Ret value ->
  row_in_order
    {| row_symbol := ""; row_qty := n; row_avg := 0;
       row_cur := match cur_price with
                  | Some p => if PyFloat.truthy p then Some p else None
                  | None => None
                  end;
       row_value := value |}.
Proof.
  unfold holding_value, row_in_order. simpl.
  destruct cur_price as [p|].
  - destruct (PyFloat.truthy p) eqn:T.
    + destruct (PyFloat.mul_int p n) as [v|e] eqn:M; simpl; [|discriminate].
      intros H. inversion H. eauto.
    + intros H. inversion H. reflexivity.
  - intros H. inversion H. reflexivity.
Qed.

Lemma dashboard_loop_rows fetch items : forall rows0 total0 rows total,
  dashboard_loop fetch items rows0 total0 = Ret (rows, total) ->
  exists new,
    rows = (rows0 ++ new)%list /\
    map row_symbol new = dict_keys items /\
    map row_qty new = map (fun kv => qty (snd kv)) items /\
    map row_avg new = map (fun kv => avg_price (snd kv)) items /\
    Forall row_in_order new /\
    total = add_values total0 new.
Proof.
  induction items as [|[sym info] rest IH]; simpl; intros rows0 total0 rows total H.
  - inversion H. exists []. rewrite app_nil_r. repeat split; constructor.
  - destruct (holding_value _ (qty info)) as [value|e] eqn:V; [|discriminate].
    simpl in H. apply IH in H.
    destruct H as (new & E & Hs & Hq & Ha & Ho & Ht).
    eexists (_ :: new). rewrite <- app_assoc in E. simpl in E.
    split; [exact E|]. simpl. rewrite Hs, Hq, Ha.
    repeat split; auto.
    constructor; auto.
    apply holding_value_row in V. exact V.
Qed.

(** X5. The holdings table of the dashboard: when the loop of lines 237-244
    comes to its end, it has one row per holding, in the order of the
    holdings, with the symbol, quantity and average price as stored; a row
    that shows no price has value 0.0 and a row that shows the price [p] has
    value [round(p * qty, 2)]; and the total is cash with the values of the
    rows added one after the other.  The page of a logged-in user then shows
    the cash balance, these rows and this total, unless a quantity is too
    large for the table (2^64 or more), in which case the run ends there with
    the exception.  With no holdings the page shows the cash balance, "No
    holdings yet" and the cash as net worth. *)
Theorem dashboard_table (s : session) (w : world) (fetch : string -> option quote) :
  (forall rows total,
      dashboard_loop fetch (holdings s) [] (cash s) = Ret (rows, total) ->
      map row_symbol rows = dict_keys (holdings s) /\
      map row_qty rows = map (fun kv => qty (snd kv)) (holdings s) /\
      map row_avg rows = map (fun kv => avg_price (snd kv)) (holdings s) /\
      Forall row_in_order rows /\
      total = add_values (cash s) rows) /\
  (forall rows total,
      user s <> None -> holdings s <> [] ->
      dashboard_loop (fetch_quote w) (holdings s) [] (cash s) = Ret (rows, total) ->
      dashboard_page s w
      = if table_fits rows
        then done s [(st_plain, Cash_balance (cash s));
                     (st_plain, Portfolio rows);
                     (st_plain, Total_net_worth total)]
        else ended s [(st_plain, Cash_balance (cash s))] (Raised OverflowError)) /\
  (user s <> None -> holdings s = [] ->
   dashboard_page s w
   = done s [(st_plain, Cash_balance (cash s)); (st_info, No_holdings_yet);
             (st_plain, Total_net_worth (cash s))]).
Proof.
  split; [|split].
  - intros rows total H. apply dashboard_loop_rows in H.
    destruct H as (new & E & H). simpl in E. subst new. exact H.
  - intros rows total U N H. unfold dashboard_page, require_login.
    destruct (user s); [|congruence]. rewrite H.
    destruct rows as [|r rows]; [|reflexivity].
    apply dashboard_loop_rows in H.
    destruct H as (new & E & K & _). simpl in E. subst new.
    destruct (holdings s); [congruence | discriminate K].
  - intros U H. unfold dashboard_page, require_login.
    destruct (user s); [|congruence]. rewrite H. reflexivity.
Qed.

Lemma dashboard_table_witness :
  dashboard_page (logged_in 250 (one_position "AAPL" 4 132.5) [])
                 (flat_market 160.25)
  = done (logged_in 250 (one_position "AAPL" 4 132.5) [])
         [(st_plain, Cash_balance 250);
          (st_plain, Portfolio [sample_row "AAPL" 4 132.5 160.25 641]);
          (st_plain, Total_net_worth 891)] /\
  row_in_order (sample_row "AAPL" 4 132.5 160.25 641) /\
  891%float = add_values 250 [sample_row "AAPL" 4 132.5 160.25 641].
Proof.
  assert (dashboard_loop (fetch_quote (flat_market 160.25))
            (one_position "AAPL" 4 132.5) [] 250
          = Ret ([sample_row "AAPL" 4 132.5 160.25 641], 891%float)) as L
    by (vm_compute; reflexivity).
  pose proof (dashboard_table (logged_in 250 (one_position "AAPL" 4 132.5) [])
                (flat_market 160.25) (fetch_quote (flat_market 160.25))) as T.
  split.
  - apply (proj1 (proj2 T) _ _ ltac:(discriminate) ltac:(discriminate) L).
  - destruct (proj1 T _ _ L) as (_ & _ & _ & R & A).
    split; [|exact A]. inversion R. assumption.
Defined.

(* ================================================================= *)
(** ** The Buy and Sell pages: all or nothing *)





Lemma dict_get_of_key {V : Type} k (d : dict V) :
  PyStr.mem k (dict_keys d) = true -> exists v, dict_get k d = Some v.
Proof.
  induction d as [|[k' v'] r IH]; simpl; [discriminate|].
  destruct (String.eqb k' k); eauto.
Qed.




(* ================================================================= *)
(** ** The Search page *)

Lemma and_then_completed r k :
  ending_of r = Completed ->
  and_then r k
  = {| after := after (k (after r));
       notices := (notices r ++ notices (k (after r)))%list;
       ending_of := ending_of (k (after r)) |}.
Proof. intros E. unfold and_then. rewrite E. reflexivity. Qed.

Lemma reports_app sort s1 ns1 e1 r :
  reports sort {| after := s1; notices := (ns1 ++ notices r)%list; ending_of := e1 |}
  = existsb (fun n => sort (snd n)) ns1 || reports sort r.
Proof. unfold reports. simpl. apply existsb_app. Qed.

Lemma search_buy_trade_quiet s sym q price :
  reports is_bought_from_search (search_buy_trade s sym q price) = false ->
  after (search_buy_trade s sym q price) = s.
Proof.
  unfold search_buy_trade.
  destruct (PyFloat.mul_int price q) as [cost|e]; auto.
  destruct (cash s <? cost)%float; auto.
  destruct (bought_position _ q price); auto.
  discriminate.
Qed.

Lemma search_add_watch_quiet s x :
  reports is_added (search_add_watch s x) = false ->
  after (search_add_watch s x) = s.
Proof.
  unfold search_add_watch. destruct (negb _); auto. discriminate.
Qed.

(** The part of the Search page below the chart: the two nested buttons. *)
Lemma search_actions_effects (i : ui) (w : world) (sym : string) (s : session) :
  let r :=
    and_then (if search_add_clicked i then search_add_watch s sym else done s [])
      (fun s =>
         match number_input 1 None (search_buy_typed i) with
         | Throw e => ended s [] (Raised e)
         | Ret buy_q =>
             if search_buy_clicked i then
               match fetch_history w sym "5d" "1d" with
               | None => done s [(st_error, Cannot_fetch_price_to_buy)]
               | Some hist => search_buy_trade s sym buy_q (last_close hist)
               end
             else done s []
         end) in
  (reports is_bought_from_search r = false ->
   cash (after r) = cash s /\ holdings (after r) = holdings s) /\
  (reports is_added r = false -> watchlist (after r) = watchlist s).
Proof.
  intros r. unfold r. clear r.
  set (A := if search_add_clicked i then search_add_watch s sym else done s []).
  assert (ending_of A = Completed /\ cash (after A) = cash s /\
          holdings (after A) = holdings s /\
          (reports is_added A = false -> after A = s)) as (EA & CA & HA & QA).
  { unfold A. destruct (search_add_clicked i).
    - destruct (search_add_watch_frame s sym) as (_ & C & H & E).
      auto using search_add_watch_quiet.
    - auto. }
  rewrite (and_then_completed _ _ EA).
  set (s1 := after A) in *.
  split.
  - rewrite reports_app. intros R. apply orb_false_elim in R. destruct R as [_ R].
    simpl after.
    destruct (number_input 1 None (search_buy_typed i)) as [v|e]; auto.
    destruct (search_buy_clicked i); auto.
    destruct (fetch_history w sym "5d" "1d"); auto.
    rewrite (search_buy_trade_quiet _ _ _ _ R). auto.
  - rewrite reports_app. intros R. apply orb_false_elim in R. destruct R as [R _].
    simpl after. specialize (QA R).
    assert (watchlist s1 = watchlist s) as W by (rewrite QA; reflexivity).
    destruct (number_input 1 None (search_buy_typed i)) as [v|e]; auto.
    destruct (search_buy_clicked i); auto.
    destruct (fetch_history w sym "5d" "1d"); auto.
    rewrite search_buy_trade_after, (proj2 (buy_trade_frame s1 _ _ _)). exact W.
Qed.

(** X8. The Search page acts only in a run in which Lookup is pressed:
    without it the session stays as it was, whatever the two buttons below the
    chart say.  Cash and holdings change only in a run that reports a purchase
    from the Search page, and the watchlist only in a run that reports an
    addition. *)
Theorem search_page_effects (s : session) (w : world) (i : ui) :
  (lookup_clicked i = false -> after (search_page s w i) = s) /\
  (reports is_bought_from_search (search_page s w i) = false ->
   cash (after (search_page s w i)) = cash s /\
   holdings (after (search_page s w i)) = holdings s) /\
  (reports is_added (search_page s w i) = false ->
   watchlist (after (search_page s w i)) = watchlist s).
Proof.
  unfold search_page, require_login.
  destruct (user s) as [u|]; [|repeat split; discriminate].
  destruct (pick _ (period_choice i)) as [period|]; [|repeat split].
  destruct (pick _ (interval_choice i)) as [interval|]; [|repeat split].
  destruct (lookup_clicked i); [|repeat split].
  destruct (negb _); [repeat split|].
  destruct (fetch_history w _ period interval); [|repeat split].
  split; [discriminate|].
  match goal with
  | |- context [and_then (done s ?hdr) ?k] =>
      rewrite (and_then_completed (done s hdr) k eq_refl)
  end.
  cbn [after done].
  pose proof (search_actions_effects i w (PyStr.upper (search_text i)) s) as H.
  cbv zeta in H. destruct H as [H1 H2].
  split.
  - rewrite reports_app. intros R. apply orb_false_elim in R.
    apply H1. exact (proj2 R).
  - rewrite reports_app. intros R. apply orb_false_elim in R.
    apply H2. exact (proj2 R).
Qed.

Lemma search_page_effects_witness :
  after (search_page (logged_in 10000 [] []) (flat_market 160)
           {| logout_clicked := false; nav := "Search";
              login_username := ""; login_clicked := false;
              buy_text := ""; buy_typed := 1; buy_clicked := false;
              sell_choice := ""; sell_typed := 1; sell_clicked := false;
              search_text := "aapl"; period_choice := "1y"; interval_choice := "1d";
              lookup_clicked := false; search_add_clicked := true;
              search_buy_typed := 3; search_buy_clicked := true;
              watch_text := ""; watch_add_clicked := false;
              remove_clicked := fun _ => false |})
  = logged_in 10000 [] [].
Proof.
  apply (proj1 (search_page_effects (logged_in 10000 [] []) (flat_market 160) _)).
  reflexivity.
Defined.

(* ================================================================= *)
(** ** [fetch_history] and the Date column *)

Lemma fetch_history_needs_date w sym period interval df :
  yf_history w sym period interval = Some df ->
  index_name df <> "Date" -> ~ In "Date" (columns df) ->
  fetch_history w sym period interval = None.
Proof.
  intros Y N C. unfold fetch_history. rewrite Y.
  destruct (frame_empty df); auto.
  destruct (PyStr.mem (index_name df) (columns df)); auto.
  destruct (forallb _ _) eqn:F; auto.
  rewrite forallb_forall in F.
  assert (PyStr.mem "Date" (index_name df :: columns df) = true) as M.
  { apply F. simpl. auto 10. }
  apply mem_In in M. destruct M as [M|M]; [congruence | tauto].
Qed.

(** X9. [fetch_history] gives nothing for a frame that, after the index is
    reset, has no column called Date (line 90), rows or no rows: so a Lookup
    answered with such a frame, for instance one whose index is called
    Datetime, reports that the symbol was not found and shows no chart. *)
Theorem lookup_needs_date_column (s : session) (w : world) (i : ui) (df : frame) :
  user s <> None ->
  In (period_choice i) ["1y"; "6mo"; "3mo"; "1mo"; "5d"] ->
  In (interval_choice i)
     (if String.eqb (period_choice i) "5d"
      then ["1m"; "5m"; "15m"; "1h"] else ["1d"; "1wk"]) ->
  lookup_clicked i = true ->
  PyStr.upper (search_text i) <> "" ->
  yf_history w (PyStr.upper (search_text i)) (period_choice i) (interval_choice i)
  = Some df ->
  index_name df <> "Date" -> ~ In "Date" (columns df) ->
  search_page s w i = done s [(st_error, Symbol_not_found_or_no_data)].
Proof.
  intros U P I L T Y N C.
  unfold search_page, require_login, pick.
  destruct (user s); [|congruence].
  apply mem_In in P. rewrite P.
  apply mem_In in I. rewrite I. rewrite L.
  apply truthy_nonempty in T. rewrite T. simpl negb. cbv iota.
  rewrite (fetch_history_needs_date _ _ _ _ _ Y N C). reflexivity.
Qed.

Lemma lookup_needs_date_column_witness :
  search_page (logged_in 10000 [] []) (intraday_market 160)
              (looking_up "aapl" "5d" "5m" false false 1)
  = done (logged_in 10000 [] []) [(st_error, Symbol_not_found_or_no_data)].
Proof.
  apply (lookup_needs_date_column (logged_in 10000 [] []) (intraday_market 160)
           (looking_up "aapl" "5d" "5m" false false 1) (intraday_frame [160; 160]%float)).
  - discriminate.
  - simpl. auto 10.
  - simpl. auto 10.
  - reflexivity.
  - discriminate.
  - reflexivity.
  - discriminate.
  - simpl. intros H. repeat (destruct H as [H|H]; [discriminate H|]). exact H.
Defined.

(* ================================================================= *)
(** ** Buying and selling one after the other *)

Lemma dict_del_absent {V : Type} k (d : dict V) :
  dict_get k d = None -> dict_del k d = d.
Proof.
  induction d as [|[k' v'] r IH]; simpl; auto.
  destruct (String.eqb k' k); [discriminate|].
  intros H. rewrite IH; auto.
Qed.

Lemma dict_set_set {V : Type} k (v1 v2 : V) d :
  dict_set k v2 (dict_set k v1 d) = dict_set k v2 d.
Proof.
  induction d as [|[k' v'] r IH]; simpl.
  - rewrite String.eqb_refl. reflexivity.
  - destruct (String.eqb k' k) eqn:E; simpl; rewrite E; congruence.
Qed.

Lemma dict_keys_del {V : Type} k (d : dict V) :
  dict_keys (dict_del k d)
  = filter (fun x => negb (String.eqb x k)) (dict_keys d).
Proof.
  induction d as [|[k' v'] r IH]; simpl; auto.
  destruct (String.eqb k' k); simpl; [exact IH | f_equal; exact IH].
Qed.

(** X10. Buying a symbol that is not held and then selling the whole
    quantity bought leaves the holdings exactly as they were before the
    purchase, the order of the other positions included, at whatever prices;
    cash is the old cash less the cost plus the proceeds. *)
Theorem buy_then_sell_all (s : session) (sym : string) (q : Z)
    (price price' proceeds : float) :
  dict_get sym (holdings s) = None ->
  succeeded (buy_trade s sym q price) = true ->
  PyFloat.mul_int price' q = Ret proceeds ->
  succeeded (sell_trade (after (buy_trade s sym q price)) sym q price') = true /\
  holdings (after (sell_trade (after (buy_trade s sym q price)) sym q price'))
  = holdings s /\
  exists cost,
    PyFloat.mul_int price q = Ret cost /\
    cash (after (sell_trade (after (buy_trade s sym q price)) sym q price'))
    = (cash s - cost + proceeds)%float.
Proof.
  intros G S M.
  destruct (buy_trade_succeeded _ _ _ _ S) as (cost & p & Hc & _ & Hp & E).
  rewrite G, bought_position_new in Hp. inversion Hp; subst p.
  rewrite E. unfold sell_trade. rewrite M. simpl.
  rewrite dict_get_set_same. simpl. rewrite Z.sub_diag. simpl.
  rewrite !dict_del_set, (dict_del_absent _ _ G).
  split; [reflexivity|]. split; [reflexivity|]. eauto.
Qed.

Lemma buy_then_sell_all_witness :
  holdings
    (after (sell_trade
              (after (buy_trade (logged_in 10000 (one_position "AAPL" 5 132.5) [])
                                "MSFT" 2 300))
              "MSFT" 2 310))
  = one_position "AAPL" 5 132.5.
Proof.
  apply (buy_then_sell_all (logged_in 10000 (one_position "AAPL" 5 132.5) [])
           "MSFT" 2 300 310 620); vm_compute; reflexivity.
Defined.

(** X11. Selling in two steps gives the same holdings as selling the sum at
    once: for a held quantity below 2^53 and two quantities of at least 1
    that together do not exceed it, at whatever prices. *)
Theorem sell_in_two_steps (s : session) (sel : string) (p : position)
    (q1 q2 : Z) (price1 price2 price : float) :
  dict_get sel (holdings s) = Some p ->
  qty p < 2 ^ 53 ->
  1 <= q1 -> 1 <= q2 -> q1 + q2 <= qty p ->
  holdings (after (sell_trade (after (sell_trade s sel q1 price1)) sel q2 price2))
  = holdings (after (sell_trade s sel (q1 + q2) price)).
Proof.
  intros G B H1 H2 H.
  destruct (mul_int_small price1 q1) as [a Ha]; [lia|].
  destruct (mul_int_small price2 q2) as [b Hb]; [lia|].
  destruct (mul_int_small price (q1 + q2)) as [c Hc]; [lia|].
  unfold sell_trade at 2 3. rewrite Ha, Hc. simpl. rewrite G. simpl.
  destruct (Z.eqb_spec (qty p - q1) 0) as [E|E]; [lia|].
  unfold sell_trade. rewrite Hb. simpl. rewrite dict_get_set_same. simpl.
  rewrite dict_set_set.
  replace (qty p - q1 - q2) with (qty p - (q1 + q2)) by lia.
  reflexivity.
Qed.

Lemma sell_in_two_steps_witness :
  holdings
    (after (sell_trade
              (after (sell_trade (logged_in 0 (one_position "AAPL" 10 141.25) [])
                                 "AAPL" 4 160))
              "AAPL" 6 150))
  = holdings (after (sell_trade (logged_in 0 (one_position "AAPL" 10 141.25) [])
                                "AAPL" (4 + 6) 155)).
Proof.
  apply (sell_in_two_steps (logged_in 0 (one_position "AAPL" 10 141.25) [])
           "AAPL" {| qty := 10; avg_price := 141.25 |} 4 6 160 150 155).
  - reflexivity.
  - reflexivity.
  - lia.
  - lia.
  - simpl. lia.
Defined.

(** X12. The holdings keep the order of first purchase: a successful
    purchase of a held symbol leaves the order of the keys as it is and one of
    a new symbol puts it last; a sale of part of a position leaves the order
    as it is and a sale of all of it takes the symbol out and moves nothing
    else. *)
Theorem holdings_keep_their_order (s : session) (sym : string) (q : Z)
    (price : float) :
  (succeeded (buy_trade s sym q price) = true ->
   dict_keys (holdings (after (buy_trade s sym q price)))
   = if PyStr.mem sym (dict_keys (holdings s))
     then dict_keys (holdings s)
     else (dict_keys (holdings s) ++ [sym])%list) /\
  (forall p, dict_get sym (holdings s) = Some p ->
             succeeded (sell_trade s sym q price) = true ->
             dict_keys (holdings (after (sell_trade s sym q price)))
             = if qty p =? q
               then filter (fun x => negb (String.eqb x sym)) (dict_keys (holdings s))
               else dict_keys (holdings s)).
Proof.
  split.
  - intros S.
    destruct (buy_trade_succeeded _ _ _ _ S) as (cost & p & _ & _ & _ & E).
    rewrite E. simpl. apply dict_keys_set.
  - intros p G S. unfold sell_trade in *.
    destruct (PyFloat.mul_int price q) as [proceeds|e]; [|discriminate S].
    simpl in *. rewrite G in *. simpl.
    destruct (Z.eqb_spec (qty p - q) 0) as [E|E]; simpl.
    + replace (qty p =? q) with true by (symmetry; apply Z.eqb_eq; lia).
      rewrite dict_del_set. apply dict_keys_del.
    + replace (qty p =? q) with false by (symmetry; apply Z.eqb_neq; lia).
      rewrite dict_keys_set.
      replace (PyStr.mem sym (dict_keys (holdings s))) with true; auto.
      symmetry. apply mem_In. apply dict_get_In in G.
      apply (in_map fst) in G. exact G.
Qed.

Lemma holdings_keep_their_order_witness :
  dict_keys
    (holdings (after (buy_trade
                        (logged_in 10000
                           [("AAPL", {| qty := 5; avg_price := 132.5 |});
                            ("MSFT", {| qty := 2; avg_price := 300 |})] [])
                        "AAPL" 1 150)))
  = ["AAPL"; "MSFT"].
Proof.
  apply (proj1 (holdings_keep_their_order
                  (logged_in 10000
                     [("AAPL", {| qty := 5; avg_price := 132.5 |});
                      ("MSFT", {| qty := 2; avg_price := 300 |})] [])
                  "AAPL" 1 150)).
  vm_compute. reflexivity.
Defined.

(* ================================================================= *)
(** ** No empty symbol is stored *)

(** What the pages and a change of user preserve, a run of the script
    preserves. *)
Lemma script_preserves (P : session -> Prop) :
  (forall s u, P s -> P (with_user s u)) ->
  (forall s p w i, P s -> P (after (page_run s p w i))) ->
  forall s w i, P s -> P (after (script s w i)).
Proof.
  intros Hu Hp s w i H. unfold script, script_with.
  assert (forall page s1, P s1 ->
            P (after
                 (and_then (if String.eqb page "Login" then login_page s1 i
                            else done s1 [])
                    (fun s =>
                       if String.eqb page "Dashboard" then dashboard_page s w
                       else if String.eqb page "Buy" then buy_page s w i
                       else if String.eqb page "Sell" then sell_page s w i
                       else if String.eqb page "Search" then search_page s w i
                       else
                         let g := globals_at_dispatch page
                                    (if String.eqb page "Login"
                                     then Some (login_username i) else None) in
                         match load_global g "nav_choice" with
                         | Throw e => ended s [] (Raised e)
                         | Ret v =>
                             if value_eqb v (VStr "Watchlist")
                             then watchlist_page s w i
                             else done s []
                         end)))) as D.
  { intros page s1 H1. apply (after_and_then P).
    - destruct (String.eqb page "Login"); auto. apply (Hp s1 Login w i H1).
    - intros s2 H2.
      destruct (String.eqb page "Dashboard"); [apply (Hp s2 Dashboard w i H2)|].
      destruct (String.eqb page "Buy"); [apply (Hp s2 Buy w i H2)|].
      destruct (String.eqb page "Sell"); [apply (Hp s2 Sell w i H2)|].
      destruct (String.eqb page "Search"); [apply (Hp s2 Search w i H2)|].
      cbv zeta. rewrite nav_choice_unbound. exact H2. }
  destruct (user s).
  - destruct (logout_clicked i); cbn [fst snd].
    + apply Hu. exact H.
    + apply (after_and_then P); [exact H|]. intros s1 H1.
      destruct (pick _ (nav i)) as [page|]; [|exact H1]. apply D. exact H1.
  - cbn [fst snd]. apply (after_and_then P); [exact H|]. intros s1 H1.
    destruct (pick _ (nav i)) as [page|]; [|exact H1]. apply D. exact H1.
Qed.

Lemma buy_trade_nonempty s sym q price :
  symbols_nonempty s -> sym <> "" ->
  symbols_nonempty (after (buy_trade s sym q price)).
Proof.
  intros [H W] N. unfold buy_trade.
  destruct (PyFloat.mul_int price q) as [cost|e]; [|split; auto].
  destruct (cash s <? cost)%float; [split; auto|].
  destruct (bought_position _ q price); [|split; auto].
  split; simpl; auto. apply Forall_keys_set; auto.
Qed.

Lemma sell_trade_nonempty s sel q price :
  symbols_nonempty s -> In sel (dict_keys (holdings s)) ->
  symbols_nonempty (after (sell_trade s sel q price)).
Proof.
  intros [H W] I. unfold sell_trade.
  destruct (PyFloat.mul_int price q) as [proceeds|e]; [|split; auto].
  simpl. destruct (dict_get sel (holdings s)) as [p|]; [|split; auto].
  assert (sel <> "") as N by (rewrite Forall_forall in H; auto).
  split; simpl; auto.
  destruct (_ =? 0).
  - apply Forall_keys_del, Forall_keys_set; auto.
  - apply Forall_keys_set; auto.
Qed.

Lemma page_run_nonempty s p w i :
  symbols_nonempty s -> symbols_nonempty (after (page_run s p w i)).
Proof.
  intros H. destruct p; simpl.
  - unfold login_page. destruct (login_clicked i); auto.
    destruct (_ && _); auto.
  - rewrite dashboard_page_after. exact H.
  - unfold buy_page. apply after_require_login; auto.
    destruct (number_input 1 None (buy_typed i)) as [v|e]; auto.
    destruct (buy_clicked i); auto.
    destruct (PyStr.truthy (PyStr.upper (buy_text i))) eqn:T; simpl negb; cbv iota;
      auto.
    destruct (fetch_history _ _ _ _); auto.
    apply buy_trade_nonempty; auto. apply truthy_nonempty. exact T.
  - destruct (sell_page_cases s w i) as [E|(p & q & hist & G & _ & _ & _ & _ & E)];
      rewrite E; auto.
    apply sell_trade_nonempty; auto.
    apply dict_get_In in G. apply (in_map fst) in G. exact G.
  - unfold search_page. apply after_require_login; auto.
    destruct (pick _ (period_choice i)) as [period|]; auto.
    destruct (pick _ (interval_choice i)) as [interval|]; auto.
    destruct (lookup_clicked i); auto.
    destruct (PyStr.truthy (PyStr.upper (search_text i))) eqn:T; simpl negb; cbv iota;
      auto.
    apply truthy_nonempty in T.
    destruct (fetch_history w _ period interval); auto.
    apply (after_and_then symbols_nonempty); auto.
    intros s1 H1. apply (after_and_then symbols_nonempty).
    + destruct (search_add_clicked i); auto.
      unfold search_add_watch. destruct (negb _); auto.
      destruct H1 as [H1 W1]. split; simpl; auto.
      apply Forall_app. split; auto. constructor; [|constructor].
      apply upper_nonempty. exact T.
    + intros s2 H2.
      destruct (number_input 1 None (search_buy_typed i)) as [v|e]; auto.
      destruct (search_buy_clicked i); auto.
      destruct (fetch_history _ _ _ _); auto.
      rewrite search_buy_trade_after. apply buy_trade_nonempty; auto.
  - unfold watchlist_page. apply after_require_login; auto.
    apply (after_and_then symbols_nonempty).
    + destruct (watch_add_clicked i); auto.
      unfold watch_add.
      destruct (PyStr.truthy (PyStr.upper (watch_text i))) eqn:T; simpl.
      * destruct (PyStr.mem _ (watchlist s)); simpl; auto.
        destruct H as [H W]. split; simpl; auto.
        apply Forall_app. split; auto. constructor; [|constructor].
        apply truthy_nonempty. exact T.
      * destruct (PyStr.mem _ (watchlist s)); auto.
    + intros s1 H1. destruct (watchlist s1) eqn:E; auto.
      apply (after_and_then symbols_nonempty); auto.
      intros s2 H2. generalize (@nil string).
      generalize (watchlist s2) at 1.
      intros entries. induction entries as [|x rest IH]; simpl; intros seen; auto.
      destruct (PyStr.mem x seen); auto.
      destruct (remove_clicked i x); auto.
      unfold PyStr.list_remove. destruct (PyStr.mem x (watchlist s2)); auto.
      destruct H2 as [H2 W2]. split; simpl; auto.
      apply Forall_remove_first. exact W2.
Qed.

(** X13. No empty symbol is ever stored: after every series of page runs
    from the initial session (pages on their own, or through the dispatch) no
    key of the holdings and no entry of the watchlist is the empty string.
    Every handler that stores a typed symbol tests it first (lines 270, 338 and
    395). *)
Theorem no_empty_symbol_stored
    (runs : list (page_id * world * ui)) (script_runs : list (world * ui)) :
  symbols_nonempty (session_after_pages initial_session runs) /\
  symbols_nonempty (session_after initial_session script_runs).
Proof.
  assert (symbols_nonempty initial_session) as H0 by (split; constructor).
  split.
  - revert H0. generalize initial_session.
    induction runs as [|[[p w] i] rest IH]; simpl; intros s H; auto.
    apply IH. apply page_run_nonempty. exact H.
  - revert H0. generalize initial_session.
    induction script_runs as [|[w i] rest IH]; simpl; intros s H; auto.
    apply IH. apply (script_preserves symbols_nonempty); auto.
    intros s1 p w1 i1. apply page_run_nonempty.
Qed.

(* ================================================================= *)
(** ** More binary64 facts *)

Lemma sf_ltb_not_negative r :
  SFltb r (S754_zero false) = false -> sf_not_negative r = true.
Proof.
  destruct r as [s|s| |s m e]; try destruct s; simpl; intros;
    try discriminate; reflexivity.
Qed.

Lemma SFadd_not_negative x y :
  sf_not_negative x = true -> sf_not_negative y = true ->
  sf_not_negative (SFadd prec emax x y) = true.
Proof.
  intros Hx Hy.
  destruct x as [sx|sx| |sx mx ex], y as [sy|sy| |sy my ey];
    try (destruct sx); try (destruct sy); simpl in Hx, Hy;
    try discriminate Hx; try discriminate Hy; try reflexivity.
  unfold SFadd, cond_Zopp. apply binary_normalize_not_negative. lia.
Qed.

Lemma SFmul_not_negative x y :
  sf_not_negative x = true -> sf_not_negative y = true ->
  sf_not_negative (SFmul prec emax x y) = true.
Proof.
  intros Hx Hy.
  destruct x as [sx|sx| |sx mx ex], y as [sy|sy| |sy my ey];
    try (destruct sx); try (destruct sy); simpl in Hx, Hy;
    try discriminate Hx; try discriminate Hy; try reflexivity.
  unfold SFmul. apply binary_round_aux_not_negative.
Qed.

Lemma not_below_zero_spec x :
  (x <? 0)%float = false <-> sf_not_negative (Prim2SF x) = true.
Proof.
  rewrite ltb_spec. change (Prim2SF 0) with (S754_zero false).
  split; [apply sf_ltb_not_negative | apply sf_not_negative_ltb].
Qed.

(** A sum of two values not below zero is not below zero. *)
Lemma add_not_below_zero (x y : float) :
  (x <? 0)%float = false -> (y <? 0)%float = false ->
  (x + y <? 0)%float = false.
Proof.
  rewrite !not_below_zero_spec, add_spec. apply SFadd_not_negative.
Qed.

(** So is their product. *)
Lemma mul_not_below_zero (x y : float) :
  (x <? 0)%float = false -> (y <? 0)%float = false ->
  (x * y <? 0)%float = false.
Proof.
  rewrite !not_below_zero_spec, mul_spec. apply SFmul_not_negative.
Qed.

(** [float(n)] for an integer of at most 53 bits: a finite value with the
    sign of [n], zero for 0 only. *)
Lemma of_int_small_value n :
  0 <= n < 2 ^ 53 ->
  exists f, PyFloat.of_int n = Ret f /\ (f <? 0)%float = false /\
            (0 < n -> (f =? 0)%float = false).
Proof.
  intros B. unfold PyFloat.of_int.
  destruct n as [|m|m]; simpl binary_normalize; try lia.
  - eexists. split; [reflexivity|]. split; [reflexivity|lia].
  - destruct (binary_round_exact false m) as (mz & ez & E & V).
    { apply digits2_small. lia. }
    rewrite E, finite_not_infinity; auto.
    eexists. split; [reflexivity|].
    rewrite ltb_spec, eqb_spec, Prim2SF_SF2Prim by exact V.
    split; [reflexivity|]. intros _. reflexivity.
Qed.

(* ================================================================= *)
(** ** Cash and the price of a sale *)

(** X14. A sale at a price that is not below zero never takes cash below
    zero: for a quantity from 0 to below 2^53 and cash that was not below zero,
    cash is not below zero after lines 311-317, whatever their outcome. *)
Theorem sale_keeps_cash_not_below_zero (s : session) (sel : string) (q : Z)
    (price : float) :
  0 <= q < 2 ^ 53 ->
  (price <? 0)%float = false ->
  (cash s <? 0)%float = false ->
  (cash (after (sell_trade s sel q price)) <? 0)%float = false.
Proof.
  intros B P C. unfold sell_trade, PyFloat.mul_int.
  destruct (of_int_small_value q B) as (f & Hf & F0 & _).
  rewrite Hf. simpl.
  assert ((cash s + price * f <? 0)%float = false) as H
    by (apply add_not_below_zero; auto using mul_not_below_zero).
  destruct (dict_get sel (holdings s)); simpl; exact H.
Qed.

Lemma sale_keeps_cash_not_below_zero_witness :
  (cash (after (sell_trade (logged_in 0 (one_position "AAPL" 10 141.25) [])
                           "AAPL" 4 160)) <? 0)%float = false.
Proof.
  apply (sale_keeps_cash_not_below_zero
           (logged_in 0 (one_position "AAPL" 10 141.25) []) "AAPL" 4 160).
  - lia.
  - reflexivity.
  - reflexivity.
Defined.

(** The price has to be looked at: a last close below zero is sold at like any
    other, and takes cash below zero. *)
Example sale_at_a_price_below_zero :
  after (sell_trade (logged_in 10 (one_position "CL" 1 20) []) "CL" 1 (-37.5))
  = logged_in (-27.5) [] [].
Proof. vm_compute. reflexivity. Qed.

(* ================================================================= *)
(** ** The Buy and Sell pages do not raise *)

Lemma bought_position_defined cur q price :
  match cur with Some old => 0 < qty old | None => True end ->
  1 <= q ->
  match cur with Some old => qty old | None => 0 end + q < 2 ^ 53 ->
  exists p, bought_position cur q price = Ret p.
Proof.
  intros Hc Hq B. destruct cur as [old|]; [|simpl; eauto].
  unfold bought_position, PyFloat.mul_int, PyFloat.truediv_int.
  destruct (of_int_small_value (qty old)) as (fo & Ho & _); [lia|].
  destruct (of_int_small_value q) as (fq & Hfq & _); [lia|].
  destruct (of_int_small_value (qty old + q)) as (ft & Ht & _ & Hz); [lia|].
  rewrite Ho, Hfq, Ht. simpl. rewrite Hz by lia. eexists. reflexivity.
Qed.

(** X15. With every held quantity above 0 (as after any series of page runs
    from the initial session) and below 2^52, and a quantity below 2^52 typed
    on the Buy page, neither the Buy page nor the Sell page ends in an
    exception: no OverflowError, ZeroDivisionError or KeyError from the
    arithmetic and the lookups of lines 278-290 and 304-316, and the Sell
    page's quantity input can always be built. *)
Theorem buy_and_sell_pages_do_not_raise (s : session) (w : world) (i : ui) :
  positions_positive s ->
  Forall (fun kv => qty (snd kv) < 2 ^ 52) (holdings s) ->
  buy_typed i < 2 ^ 52 ->
  raised (buy_page s w i) = false /\ raised (sell_page s w i) = false.
Proof.
  intros Pos B Bt. split.
  - unfold buy_page, require_login.
    destruct (user s); [|reflexivity].
    destruct (number_input 1 None (buy_typed i)) as [q|e] eqn:N.
    2:{ unfold number_input in N. simpl in N.
        destruct (_ && _); discriminate N. }
    destruct (buy_clicked i); [|reflexivity].
    destruct (negb _); [reflexivity|].
    destruct (fetch_history _ _ _ _) as [hist|]; [|reflexivity].
    destruct (number_input_bounds _ _ _ _ N) as (N1 & N2 & N3).
    unfold JS_MAX_SAFE_INTEGER in N2.
    assert (q < 2 ^ 52) as Q by (destruct N3; subst q; lia).
    unfold buy_trade.
    destruct (mul_int_small (last_close hist) q) as [cost Hc]; [lia|].
    rewrite Hc. destruct (_ <? _)%float; [reflexivity|].
    destruct (bought_position_defined
                (dict_get (PyStr.upper (buy_text i)) (holdings s))
                q (last_close hist)) as [p Hp]; auto.
    + destruct (dict_get _ (holdings s)) as [old|] eqn:G; auto.
      apply dict_get_In in G. unfold positions_positive in Pos.
      rewrite Forall_forall in Pos. apply (Pos _ G).
    + change (2 ^ 53) with (2 ^ 52 + 2 ^ 52).
      destruct (dict_get _ (holdings s)) as [old|] eqn:G; [|lia].
      apply dict_get_In in G. rewrite Forall_forall in B.
      specialize (B _ G). simpl in B. lia.
    + rewrite Hp. reflexivity.
  - unfold sell_page, require_login, pick.
    destruct (user s); [|reflexivity].
    destruct (dict_truthy (holdings s)); [|reflexivity]. simpl negb.
    cbv iota.
    destruct (PyStr.mem _ _) eqn:M; [|reflexivity].
    destruct (dict_get_of_key _ _ M) as [p G]. rewrite G.
    assert (0 < qty p /\ qty p < 2 ^ 52) as [P1 P2].
    { apply dict_get_In in G. unfold positions_positive in Pos.
      rewrite Forall_forall in Pos, B.
      specialize (Pos _ G). specialize (B _ G). simpl in Pos, B. lia. }
    destruct (number_input 1 (Some (qty p)) (sell_typed i)) as [q|e] eqn:N.
    2:{ unfold number_input, JS_MAX_SAFE_INTEGER in N.
        replace ((1 <? 1) || (qty p <? 1)) with false in N
          by (symmetry; apply orb_false_intro; apply Z.ltb_ge; lia).
        replace ((1 <? - (2 ^ 53 - 1)) || (2 ^ 53 - 1 <? qty p)) with false in N
          by (symmetry; apply orb_false_intro; apply Z.ltb_ge; lia).
        destruct (_ && _); discriminate N. }
    destruct (sell_clicked i); [|reflexivity].
    destruct (fetch_history _ _ _ _) as [hist|]; [|reflexivity].
    destruct (number_input_bounds _ _ _ _ N) as (N1 & N2 & _).
    unfold sell_trade.
    destruct (mul_int_small (last_close hist) q) as [pr Hpr]; [lia|].
    rewrite Hpr. simpl. rewrite G. reflexivity.
Qed.

Lemma buy_and_sell_pages_do_not_raise_witness :
  raised (buy_page (logged_in 10000 (one_position "AAPL" 5 132.5) [])
                   (flat_market 160) (asking_to_buy "aapl" 3)) = false.
Proof.
  apply (proj1 (buy_and_sell_pages_do_not_raise
                  (logged_in 10000 (one_position "AAPL" 5 132.5) [])
                  (flat_market 160) (asking_to_buy "aapl" 3)
                  ltac:(repeat constructor) ltac:(repeat constructor)
                  ltac:(reflexivity))).
Defined.

(* ================================================================= *)
(** ** The quote of a one-day history *)

Lemma finite_cases x :
  is_finite x = true ->
  (exists s, Prim2SF x = S754_zero s) \/
  (exists s m e, Prim2SF x = S754_finite s m e).
Proof.
  unfold is_finite, is_nan, is_infinity.
  rewrite !eqb_spec, abs_spec. change (Prim2SF infinity) with (S754_infinity false).
  destruct (Prim2SF x) as [s|[]| |s m e]; simpl; intros H;
    try discriminate H; eauto.
Qed.

(** A finite value less itself is +0.0. *)
Lemma sub_self_finite x : is_finite x = true -> (x - x)%float = 0%float.
Proof.
  intros F. apply Prim2SF_inj. rewrite sub_spec.
  change (Prim2SF 0) with (S754_zero false).
  destruct (finite_cases x F) as [[s E]|(s & m & e & E)]; rewrite E.
  - destruct s; reflexivity.
  - unfold SF64sub, SFsub. rewrite Z.sub_diag. reflexivity.
Qed.

(** +0.0 over a finite value that is not zero, times 100, is a zero. *)
Lemma zero_share_is_zero x :
  is_finite x = true -> PyFloat.truthy x = true ->
  exists s, Prim2SF ((0 / x) * 100)%float = S754_zero s.
Proof.
  intros F T. rewrite mul_spec, div_spec.
  change (Prim2SF 0) with (S754_zero false).
  assert (exists m e, Prim2SF 100 = S754_finite false m e) as (m1 & e1 & E1)
    by (vm_compute; eauto).
  rewrite E1.
  destruct (finite_cases x F) as [[s E]|(s & m & e & E)]; rewrite E.
  - exfalso. unfold PyFloat.truthy in T. rewrite eqb_spec, E in T.
    change (Prim2SF 0) with (S754_zero false) in T. discriminate T.
  - simpl. eauto.
Qed.

Lemma round2_zero x s :
  Prim2SF x = S754_zero s -> (PyFloat.round2 x =? 0)%float = true.
Proof.
  intros E. unfold PyFloat.round2. rewrite E, eqb_spec, E. reflexivity.
Qed.

(** X16. The quote of a symbol whose 2d history has a single row with a
    finite Close [c]: it carries the symbol in upper case, the price
    [round(c, 2)], the change 0.0 and a percentage that is zero (the previous
    close is taken to be the price itself, line 105). *)
Theorem quote_of_one_day_history (w : world) (symbol : string) (df : frame)
    (c : float) :
  yf_history w symbol "2d" "1d" = Some df ->
  close df = [c] ->
  In "Close" (columns df) ->
  is_finite c = true ->
  exists q,
    fetch_quote w symbol = Some q /\
    q_symbol q = PyStr.upper symbol /\
    q_price q = PyFloat.round2 c /\
    q_change q = 0%float /\
    (q_pct q =? 0)%float = true.
Proof.
  intros Y C K F. unfold fetch_quote, frame_empty. rewrite Y, C.
  apply mem_In in K. rewrite K. simpl negb. cbv iota.
  eexists. split; [reflexivity|]. cbn [q_symbol q_price q_change q_pct].
  cbn [rev app last_close last].
  rewrite (sub_self_finite c F).
  change (PyFloat.round2 0) with 0%float.
  repeat split.
  destruct (PyFloat.truthy c) eqn:T; [|reflexivity].
  destruct (zero_share_is_zero c F T) as [s E].
  apply (round2_zero _ s E).
Qed.

Lemma quote_of_one_day_history_witness :
  exists q,
    fetch_quote (one_day_market 132.4375) "aapl" = Some q /\
    q_symbol q = PyStr.upper "aapl" /\
    q_price q = PyFloat.round2 132.4375 /\
    q_change q = 0%float /\
    (q_pct q =? 0)%float = true.
Proof.
  apply (quote_of_one_day_history (one_day_market 132.4375) "aapl"
           (daily_frame [132.4375%float]) 132.4375).
  - reflexivity.
  - reflexivity.
  - simpl. auto 10.
  - reflexivity.
Defined.

(* ================================================================= *)
(** ** How a run of the Login page ends *)

(** X17. A run of the script on the Login page either logs the visitor in
    and is rerun, when Login is pressed with a name that is not blank, or
    leaves the session as it was and ends with the NameError of line 389,
    after the error message when Login was pressed with a blank name: the
    dispatch below the page is evaluated in every run that is not rerun. *)
Theorem login_run_ends (s : session) (w : world) (i : ui) :
  user s = None -> nav i = "Login" ->
  (login_clicked i = true /\ PyStr.strip (login_username i) <> "" ->
   script s w i
   = ended (with_user s (Some (PyStr.strip (login_username i))))
           [(st_success, Welcome (PyStr.strip (login_username i)))] Rerun) /\
  (~ (login_clicked i = true /\ PyStr.strip (login_username i) <> "") ->
   after (script s w i) = s /\
   ending_of (script s w i) = Raised (NameError "nav_choice") /\
   notices (script s w i)
   = if login_clicked i then [(st_error, Please_enter_a_valid_username)] else []).
Proof.
  intros U N. unfold script, script_with, pick. rewrite U, N.
  cbn [fst snd].
  change (PyStr.mem "Login" ["Login"]) with true. cbv iota.
  rewrite (and_then_completed (done s []) _ eq_refl). cbn [after done notices app].
  change (String.eqb "Login" "Login") with true. cbv iota.
  unfold login_page.
  destruct (login_clicked i).
  - destruct (PyStr.truthy (PyStr.strip (login_username i))) eqn:T.
    + rewrite (strip_truthy _ T). simpl. split; [reflexivity|].
      intros H. exfalso. apply H. split; [reflexivity|].
      apply truthy_nonempty. exact T.
    + rewrite andb_false_r. split.
      * intros [_ H]. apply truthy_nonempty in H. congruence.
      * intros _. repeat split.
  - split.
    + intros [H _]. discriminate H.
    + intros _. repeat split.
Qed.

Lemma login_run_ends_witness :
  ending_of (script initial_session (flat_market 160) (logging_in "   "))
  = Raised (NameError "nav_choice").
Proof.
  apply (proj2 (login_run_ends initial_session (flat_market 160)
                  (logging_in "   ") eq_refl eq_refl)).
  intros [_ H]. apply H. reflexivity.
Defined.
